(** * ServiceManager: the process supervisor and its HTTP control surface

    The repository holds two revisions of the server:
    - [ServiceManager-main/src/Server] (version 1.0), embedded in [Module Main];
    - [src/Server] (the earlier revision), embedded in [Module Legacy].

    Both share the same shape: a [std::vector<command>] registry, a
    [ProcessRunner] that forks, signals and waits, and two HTTP handlers
    ([GET /process/list], [POST /process/control]).  The operating system
    is an oracle: every supervisor call is given the answers that
    [fork], [kill(2)] and [waitpid] return, and yields the calls it
    made as a trace of events.  At startup the file system and the
    memory allocator are oracles as well: a call that throws ends the
    process.

    What the code should do is stated apart from it: [Module Json]
    reads JSON texts, [Module Config] lays out configurations and
    [Module Usage] gives the meaning of command lines. *)

From Stdlib Require Import ZArith Ascii String List Bool Lia.
From stdpp Require Import base list strings pretty.

Open Scope string_scope.

(** ** C and C++ library functions used by the sources *)

Module Cxx.

Definition INT_MAX : Z := 2147483647.
Definition INT_MIN : Z := -2147483648.

(** [static_cast<int>] of an unsigned size: two's-complement wrap-around. *)
Definition static_cast_int (n : Z) : Z :=
  ((n + 2147483648) mod 4294967296 - 2147483648)%Z.

(** [isspace] in the "C" locale: space, \t, \n, \v, \f, \r. *)
Definition isspace (c : ascii) : bool :=
  let n := nat_of_ascii c in
  (n =? 32)%nat || ((9 <=? n)%nat && (n <=? 13)%nat).

Definition isdigit (c : ascii) : bool :=
  let n := nat_of_ascii c in (48 <=? n)%nat && (n <=? 57)%nat.

Definition digit_value (c : ascii) : Z := Z.of_nat (nat_of_ascii c) - 48.

Fixpoint skip_space (s : list ascii) : list ascii :=
  match s with
  | c :: r => if isspace c then skip_space r else s
  | [] => []
  end.

(** Longest run of decimal digits, accumulated most significant first;
    the boolean tells whether at least one digit was read. *)
Fixpoint read_digits (acc : Z) (seen : bool) (s : list ascii)
  : Z * bool * list ascii :=
  match s with
  | c :: r =>
      if isdigit c then read_digits (10 * acc + digit_value c)%Z true r
      else (acc, seen, s)
  | [] => (acc, seen, [])
  end.

Definition read_sign (s : list ascii) : bool * list ascii :=
  match s with
  | c :: r =>
      if Ascii.eqb c "-" then (true, r)
      else if Ascii.eqb c "+" then (false, r)
      else (false, s)
  | [] => (false, [])
  end.

(** [std::stoi(str)]: leading white space, an optional sign, decimal
    digits; what follows the digits is ignored.  It throws
    [std::invalid_argument] when no digit is found and
    [std::out_of_range] when the value does not fit an [int]. *)
Inductive stoi_result :=
| stoi_value (v : Z)
| stoi_invalid_argument
| stoi_out_of_range.

Definition stoi (str : string) : stoi_result :=
  let '(neg, r) := read_sign (skip_space (list_ascii_of_string str)) in
  let '(v, seen, _) := read_digits 0 false r in
  if seen then
    let v := if neg then (- v)%Z else v in
    if (INT_MIN <=? v)%Z && (v <=? INT_MAX)%Z then stoi_value v
    else stoi_out_of_range
  else stoi_invalid_argument.

(** [std::to_string] of an [int] or a [size_t]. *)
Definition to_string (z : Z) : string := pretty z.

(** [std::istringstream >> token], repeated: the white-space separated
    words of a line. *)
Fixpoint words_from (cur : list ascii) (s : list ascii) : list string :=
  let flush := match cur with
               | [] => []
               | _ => [string_of_list_ascii (rev cur)]
               end in
  match s with
  | [] => flush
  | c :: r =>
      if isspace c then flush ++ words_from [] r
      else words_from (c :: cur) r
  end.

Definition words (s : string) : list string :=
  words_from [] (list_ascii_of_string s).

(** *** [std::string] searches

    Positions are counted from 0 and [None] stands for [npos]. *)

(** [tolower] in the "C" locale. *)
Definition tolower (c : ascii) : ascii :=
  let n := nat_of_ascii c in
  if (65 <=? n)%nat && (n <=? 90)%nat then ascii_of_nat (n + 32) else c.

Fixpoint lowercase (s : string) : string :=
  match s with
  | EmptyString => EmptyString
  | String c r => String (tolower c) (lowercase r)
  end.

(** Membership of a character in a set given as a string. *)
Fixpoint mem (c : ascii) (set : string) : bool :=
  match set with
  | EmptyString => false
  | String x r => Ascii.eqb c x || mem c r
  end.

Fixpoint starts_with (pat s : string) : bool :=
  match pat, s with
  | EmptyString, _ => true
  | String a pat', String c s' => Ascii.eqb a c && starts_with pat' s'
  | String _ _, EmptyString => false
  end.

Definition shift (r : option nat) : option nat :=
  match r with
  | Some k => Some (S k)
  | None => None
  end.

(** [s.find(pat, pos)] for a pattern that is not empty. *)
Fixpoint find (pat : string) (pos : nat) (s : string) : option nat :=
  match s with
  | EmptyString => None
  | String c r =>
      match pos with
      | O => if starts_with pat s then Some O else shift (find pat O r)
      | S pos' => shift (find pat pos' r)
      end
  end.

(** The first position from [pos] on whose character passes [test]. *)
Fixpoint find_if (test : ascii -> bool) (pos : nat) (s : string) : option nat :=
  match s with
  | EmptyString => None
  | String c r =>
      match pos with
      | O => if test c then Some O else shift (find_if test O r)
      | S pos' => shift (find_if test pos' r)
      end
  end.

(** [s.find(c, pos)] *)
Definition find_char (c : ascii) (pos : nat) (s : string) : option nat :=
  find_if (Ascii.eqb c) pos s.

(** [s.find_first_of(set, pos)] and [s.find_first_not_of(set, pos)] *)
Definition find_first_of (set : string) (pos : nat) (s : string) : option nat :=
  find_if (fun c => mem c set) pos s.

Definition find_first_not_of (set : string) (pos : nat) (s : string) : option nat :=
  find_if (fun c => negb (mem c set)) pos s.

(** [s.find_last_not_of(set)] *)
Fixpoint find_last_not_of (set : string) (s : string) : option nat :=
  match s with
  | EmptyString => None
  | String c r =>
      match find_last_not_of set r with
      | Some k => Some (S k)
      | None => if mem c set then None else Some O
      end
  end.

(** [s.substr(pos, len)] for [pos <= s.size()]: the length is clipped at
    the end of the string. *)
Definition substr (pos len : nat) (s : string) : string := String.substring pos len s.

End Cxx.

(** ** Input streams ([std::ifstream]) *)

Module IStream.

(** The unread characters and the two state bits the sources can
    observe ([badbit] needs an I/O error and is never set here). *)
Record t := mk { rest : list ascii; eofbit : bool; failbit : bool }.

Definition open (content : string) : t :=
  mk (list_ascii_of_string content) false false.

Definition good (s : t) : bool := negb (eofbit s) && negb (failbit s).

(** [!stream] *)
Definition fail (s : t) : bool := failbit s.

Definition setfail (s : t) : t := mk (rest s) (eofbit s) true.

(** [istream::sentry]: a stream that is not good fails at once;
    formatted input first skips white space and fails at end of file. *)
Definition sentry (noskipws : bool) (s : t) : bool * t :=
  if good s then
    if noskipws then (true, s)
    else
      match Cxx.skip_space (rest s) with
      | [] => (false, mk [] true true)
      | r => (true, mk r false false)
      end
  else (false, setfail s).

Definition at_end (r : list ascii) : bool :=
  match r with [] => true | _ => false end.

(** [stream >> int]: [Some v] is the value stored in the variable,
    [None] leaves the variable untouched (the sentry failed). *)
Definition read_int (s : t) : option Z * t :=
  let '(ok, s1) := sentry false s in
  if ok then
    let '(neg, r1) := Cxx.read_sign (rest s1) in
    let '(v, seen, r2) := Cxx.read_digits 0 false r1 in
    if seen then
      let v := if neg then (- v)%Z else v in
      if (v <? Cxx.INT_MIN)%Z then (Some Cxx.INT_MIN, mk r2 (at_end r2) true)
      else if (Cxx.INT_MAX <? v)%Z then (Some Cxx.INT_MAX, mk r2 (at_end r2) true)
      else (Some v, mk r2 (at_end r2) false)
    else (Some 0%Z, mk r2 (at_end r2) true)
  else (None, s1).

(** [stream >> char] *)
Definition read_char (s : t) : option ascii * t :=
  let '(ok, s1) := sentry false s in
  if ok then
    match rest s1 with
    | c :: r => (Some c, mk r false false)
    | [] => (None, mk [] true true)
    end
  else (None, s1).

(** Characters up to the first newline; the newline is consumed and
    dropped.  The boolean tells whether the end of file was reached
    instead. *)
Fixpoint until_newline (s : list ascii) : list ascii * list ascii * bool :=
  match s with
  | [] => ([], [], true)
  | c :: r =>
      if Ascii.eqb c "010" then ([], r, false)
      else let '(l, r', e) := until_newline r in (c :: l, r', e)
  end.

(** [stream.ignore(numeric_limits<streamsize>::max(), '\n')] *)
Definition ignore_line (s : t) : t :=
  let '(ok, s1) := sentry true s in
  if ok then
    let '(_, r, e) := until_newline (rest s1) in mk r e false
  else s1.

(** [stream.ignore()]: one character. *)
Definition ignore_one (s : t) : t :=
  let '(ok, s1) := sentry true s in
  if ok then
    match rest s1 with
    | _ :: r => mk r false false
    | [] => mk [] true false
    end
  else s1.

(** [std::getline(stream, str)]: [Some line] is what is stored in
    [str], [None] leaves [str] untouched.  Extracting nothing at all
    (end of file before any character) sets [failbit]. *)
Definition getline (s : t) : option string * t :=
  let '(ok, s1) := sentry true s in
  if ok then
    match rest s1 with
    | [] => (Some "", mk [] true true)
    | _ =>
        let '(l, r, e) := until_newline (rest s1) in
        (Some (string_of_list_ascii l), mk r e false)
    end
  else (None, s1).

(** Characters up to the first white space, which is left unread. *)
Fixpoint until_space (s : list ascii) : list ascii * list ascii :=
  match s with
  | [] => ([], [])
  | c :: r =>
      if Cxx.isspace c then ([], s)
      else let '(w, r') := until_space r in (c :: w, r')
  end.

(** [stream >> std::string]: the next white-space separated word. *)
Definition read_word (s : t) : option string * t :=
  let '(ok, s1) := sentry false s in
  if ok then
    let '(w, r) := until_space (rest s1) in
    (Some (string_of_list_ascii w), mk r (at_end r) false)
  else (None, s1).

End IStream.

(** ** The operating system as seen by the supervisor process *)

Module OS.

Definition SIGKILL : Z := 9.
Definition SIGTERM : Z := 15.

(** What the process created by [fork] goes on to do. *)
Inductive child_prog :=
| child_exit (code : Z)                              (* _exit(code) *)
| child_chdir (dir : string) (next : child_prog)     (* chdir, _exit(1) when it fails *)
| child_execvp (file : string) (argv : list string). (* execvp, _exit(1) when it fails *)

(** [fork] in the parent: -1, or the pid of the new child. *)
Inductive fork_reply :=
| fork_failed
| fork_child (pid : positive).

(** The answers the system gives to one supervisor call, which makes
    at most one call of each kind.  [waitpid] is taken to succeed: the
    sources do not test its result. *)
Record oracle := mk_oracle {
  fork_answer : fork_reply;    (* fork() *)
  kill_answer : Z;             (* ::kill(pid, sig) *)
  wait_answer : Z              (* the status word waitpid stores *)
}.

Inductive event :=
| ev_fork (child : child_prog) (ret : Z)
| ev_kill (pid : Z) (sig : Z) (ret : Z)
| ev_waitpid (pid : Z) (status : Z).

(** <sys/wait.h> on Linux. *)
Definition WIFEXITED (status : Z) : bool := (Z.land status 127 =? 0)%Z.
Definition WEXITSTATUS (status : Z) : Z := Z.shiftr (Z.land status 65280) 8.

(** The pids of the processes a trace created. *)
Fixpoint children (evs : list event) : list Z :=
match evs with
| [] => []
| ev_fork _ ret :: r => if (0 <? ret)%Z then ret :: children r else children r
| _ :: r => children r
end.

End OS.

(** ** HTTP requests and responses (cpp-httplib) *)

Module Http.

Record Request := mk_req { params : list (string * string) }.

Definition has_param (req : Request) (key : string) : bool :=
  existsb (fun kv => String.eqb (fst kv) key) (params req).

Definition get_param_value (req : Request) (key : string) : string :=
  match find (fun kv => String.eqb (fst kv) key) (params req) with
  | Some kv => snd kv
  | None => ""
  end.

(** [httplib::Response]: [status] is -1 until a handler sets it. *)
Record Response := mk_res {
  status : Z;
  body : string;
  content_type : string
}.

Definition fresh : Response := mk_res (-1) "" "".

Definition set_content (res : Response) (s ty : string) : Response :=
  mk_res (status res) s ty.

Definition set_status (res : Response) (code : Z) : Response :=
  mk_res code (body res) (content_type res).

(** Modelled from the spec: [httplib.h] is not among the sources; a
    routed request whose handler left [status] unset is answered with
    200 (section 6: "200 with a human-readable or JSON body on
    success"). *)
Definition answered (res : Response) : Z :=
  if (status res =? -1)%Z then 200%Z else status res.

End Http.

(** ** ServiceManager-main/src/Server *)

Module Main.

(** [enum STATUS]; the [short Status] field only ever holds one of the
    two enumerators. *)
Inductive STATUS := DEAD | RUNNING.

Definition STATUS_eqb (a b : STATUS) : bool :=
  match a, b with
  | DEAD, DEAD | RUNNING, RUNNING => true
  | _, _ => false
  end.

(** [struct command] (command.hpp) *)
Record command := mk_command {
  Desc : string;
  Path : string;
  Mode : ascii;
  Folder : string;
  Status : STATUS;
  Pid : Z
}.

(** [command() = default]: the member initialisers of the struct. *)
Definition command_default : command :=
  mk_command "" "" "C" "." DEAD (-1).

(** The two assignments [cmd.Pid = pid; cmd.Status = st]. *)
Definition set_runtime (st : STATUS) (pid : Z) (cmd : command) : command :=
  mk_command (Desc cmd) (Path cmd) (Mode cmd) (Folder cmd) st pid.

Definition is_empty (s : string) : bool := String.eqb s "".

(** *** ProcessRunner.cpp *)

(** [ProcessRunner::ProcessRunner]: every entry starts dead, pid -1. *)
Definition ProcessRunner (commands : list command) : list command :=
  map (set_runtime DEAD (-1)) commands.

Definition splitCommand (cmdline : string) : list string := Cxx.words cmdline.

(** The child branch of [start] ([pid == 0]), lines 84-141. *)
Definition start_child (cmd : command) : OS.child_prog :=
  let run :=
    if Ascii.eqb (Mode cmd) "C" then
      match splitCommand (Path cmd) with
      | [] => OS.child_exit 1
      | file :: args => OS.child_execvp file (file :: args)
      end
    else if Ascii.eqb (Mode cmd) "D" then
      match splitCommand (Path cmd) with
      | [] => OS.child_exit 1
      | parts => OS.child_execvp "docker" ("docker" :: "start" :: parts)
      end
    else OS.child_exit 1 in
  if negb (is_empty (Folder cmd)) && negb (String.eqb (Folder cmd) ".")
  then OS.child_chdir (Folder cmd) run
  else run.

(** The result of a supervisor call: the value returned, the registry
    afterwards, and the system calls made, in order. *)
Definition outcome (A : Type) : Type := A * list command * list OS.event.

(** [pid_t ProcessRunner::start(size_t index)] *)
Definition start (os : OS.oracle) (commands_ : list command) (index : nat)
  : outcome Z :=
  if (length commands_ <=? index)%nat then ((-1)%Z, commands_, [])
  else
    match commands_ !! index with
    | None => ((-1)%Z, commands_, [])   (* not reached: index is in range *)
    | Some cmd =>
        if STATUS_eqb (Status cmd) RUNNING && (0 <? Pid cmd)%Z
        then (Pid cmd, commands_, [])
        else if is_empty (Path cmd) then ((-1)%Z, commands_, [])
        else
          match OS.fork_answer os with
          | OS.fork_failed =>
              ((-1)%Z, commands_, [OS.ev_fork (start_child cmd) (-1)])
          | OS.fork_child p =>
              (Z.pos p,
               <[index := set_runtime RUNNING (Z.pos p) cmd]> commands_,
               [OS.ev_fork (start_child cmd) (Z.pos p)])
          end
    end.

(** The child branch of the Docker case of [kill], lines 190-202. *)
Definition kill_child (cmd : command) (force : bool) : OS.child_prog :=
  let action := if force then "kill" else "stop" in
  OS.child_execvp "docker" ["docker"; action; Path cmd].

(** [bool ProcessRunner::kill(size_t index, bool force)] *)
Definition kill (os : OS.oracle) (commands_ : list command) (index : nat)
  (force : bool) : outcome bool :=
  if (length commands_ <=? index)%nat then (false, commands_, [])
  else
    match commands_ !! index with
    | None => (false, commands_, [])   (* not reached: index is in range *)
    | Some cmd =>
        if negb (STATUS_eqb (Status cmd) RUNNING) || (Pid cmd <=? 0)%Z
        then (false, commands_, [])
        else if Ascii.eqb (Mode cmd) "C" then
          let signal := if force then OS.SIGKILL else OS.SIGTERM in
          let ev := OS.ev_kill (Pid cmd) signal (OS.kill_answer os) in
          if (OS.kill_answer os =? 0)%Z
          then (true, <[index := set_runtime DEAD (-1) cmd]> commands_, [ev])
          else (false, commands_, [ev])
        else if Ascii.eqb (Mode cmd) "D" then
          match OS.fork_answer os with
          | OS.fork_failed =>
              (false, commands_, [OS.ev_fork (kill_child cmd force) (-1)])
          | OS.fork_child child =>
              let status := OS.wait_answer os in
              let evs := [OS.ev_fork (kill_child cmd force) (Z.pos child);
                          OS.ev_waitpid (Z.pos child) status] in
              if OS.WIFEXITED status && (OS.WEXITSTATUS status =? 0)%Z
              then (true, <[index := set_runtime DEAD (-1) cmd]> commands_, evs)
              else (false, commands_, evs)
          end
        else (false, commands_, [])
    end.

(** [pid_t ProcessRunner::getPid(size_t index) const] *)
Definition getPid (commands_ : list command) (index : nat) : Z :=
  if (length commands_ <=? index)%nat then (-1)%Z
  else match commands_ !! index with
       | Some cmd => Pid cmd
       | None => (-1)%Z
       end.

(** [bool ProcessRunner::isRunning(size_t index) const] *)
Definition isRunning (commands_ : list command) (index : nat) : bool :=
  if (length commands_ <=? index)%nat then false
  else match commands_ !! index with
       | Some cmd => STATUS_eqb (Status cmd) RUNNING && (0 <? Pid cmd)%Z
       | None => false
       end.

Definition getCommandCount (commands_ : list command) : nat := length commands_.

(** *** main.cpp: configuration *)

(** The body of the [for] loop of [loadConfiguration], run [n] more
    times; [g_commands] keeps what was pushed before a failure. *)
Fixpoint load_entries (n : nat) (file : IStream.t) (g_commands : list command)
  : bool * list command :=
  match n with
  | O => (true, g_commands)
  | S n' =>
      let '(desc, file) := IStream.getline file in
      if IStream.fail file then (false, g_commands) else
      let '(mode, file) := IStream.read_char file in
      if IStream.fail file then (false, g_commands) else
      let file := IStream.ignore_line file in
      let mode := default (Mode command_default) mode in
      if negb (Ascii.eqb mode "C") && negb (Ascii.eqb mode "D")
      then (false, g_commands) else
      let '(path, file) := IStream.getline file in
      if IStream.fail file then (false, g_commands) else
      let '(folder, file) := IStream.getline file in
      if IStream.fail file then (false, g_commands) else
      let cmd := mk_command (default "" desc) (default "" path) mode
                   (default "." folder) DEAD (-1) in
      if is_empty (Desc cmd) || is_empty (Path cmd) then (false, g_commands)
      else load_entries n' file (g_commands ++ [cmd])
  end.

(** [bool loadConfiguration()]; the [config] [None] is a file that
    cannot be opened.  The second component of the result is
    [g_commands] on return.  [room n] tells whether the allocation that
    [g_commands.reserve(n)] asks for succeeds; when it does not,
    [reserve] throws ([std::bad_alloc] or [std::length_error]), nothing
    catches the exception, and the result is [None].  The vector is
    empty with capacity 0 at that point, so [reserve(0)] allocates
    nothing. *)
Definition loadConfiguration (room : nat -> bool) (config : option string)
  : option (bool * list command) :=
  match config with
  | None => Some (false, [])
  | Some content =>
      let '(numCommands, file) := IStream.read_int (IStream.open content) in
      match numCommands with
      | None => Some (false, [])
      | Some numCommands =>
          if IStream.fail file || (numCommands <? 0)%Z then Some (false, [])
          else
            let file := IStream.ignore_line file in
            if (0 <? numCommands)%Z && negb (room (Z.to_nat numCommands))
            then None
            else Some (load_entries (Z.to_nat numCommands) file [])
      end
  end.

(** [main] once the command line is read and the configuration file
    located: the process exits with a code, or the HTTP server is
    started on a registry, or the process is ended by [std::terminate]
    because of an exception that nothing catches. *)
Inductive startup :=
| exits (code : Z)
| serves (g_commands : list command)
| aborts.

Definition main (room : nat -> bool) (config : option string) : startup :=
  match loadConfiguration room config with
  | None => aborts
  | Some (ok, g_commands) =>
      if negb ok then exits 1
      else serves (ProcessRunner g_commands)
  end.

(** *** main.cpp: the HTTP handlers *)

(** [std::string escapeJsonString(const std::string&)] *)
Definition escape_char (c : ascii) : string :=
  if Ascii.eqb c "034" then String "\" (String "034" "")
  else if Ascii.eqb c "\" then "\\"
  else if Ascii.eqb c "008" then "\b"
  else if Ascii.eqb c "012" then "\f"
  else if Ascii.eqb c "010" then "\n"
  else if Ascii.eqb c "013" then "\r"
  else if Ascii.eqb c "009" then "\t"
  else String c "".

Fixpoint escapeJsonString (input : string) : string :=
  match input with
  | EmptyString => ""
  | String c r => escape_char c ++ escapeJsonString r
  end.

(** [cmd.Status == RUNNING ? "RUNNING" : "DEAD"].  Lines 274 and 356
    add this [const char*] to a string literal, which a C++ compiler
    rejects; the text is taken as the concatenation the statement
    spells out. *)
Definition status_text (st : STATUS) : string :=
  if STATUS_eqb st RUNNING then "RUNNING" else "DEAD".

Definition nl : string := String "010" "".
Definition quote : string := String "034" "".

(** One pass of the loop of [GET /process/list] (lines 266-277). *)
Definition list_element (i : nat) (cmd : command) : string :=
  (if (0 <? i)%nat then "," ++ nl else "")
  ++ "  {" ++ nl
  ++ "    " ++ quote ++ "id" ++ quote ++ ": " ++ Cxx.to_string (Z.of_nat i) ++ "," ++ nl
  ++ "    " ++ quote ++ "desc" ++ quote ++ ": " ++ quote
       ++ escapeJsonString (Desc cmd) ++ quote ++ "," ++ nl
  ++ "    " ++ quote ++ "status" ++ quote ++ ": " ++ quote
       ++ status_text (Status cmd) ++ quote ++ "," ++ nl
  ++ "    " ++ quote ++ "mode" ++ quote ++ ": " ++ quote
       ++ String (Mode cmd) "" ++ quote ++ "," ++ nl
  ++ "    " ++ quote ++ "pid" ++ quote ++ ": " ++ Cxx.to_string (Pid cmd) ++ nl
  ++ "  }".

Fixpoint list_loop (i : nat) (cmds : list command) (jsonResponse : string)
  : string :=
  match cmds with
  | [] => jsonResponse
  | cmd :: rest => list_loop (S i) rest (jsonResponse ++ list_element i cmd)
  end.

(** The handler of [GET /process/list]; it reads [g_commands] only. *)
Definition process_list (g_commands : list command) : Http.Response :=
  let jsonResponse := list_loop 0 g_commands ("[" ++ nl) ++ nl ++ "]" in
  Http.set_status
    (Http.set_content Http.fresh jsonResponse "application/json") 200.

Definition respond (code : option Z) (text ty : string) : Http.Response :=
  let res := Http.set_content Http.fresh text ty in
  match code with
  | Some c => Http.set_status res c
  | None => res
  end.

Definition status_body (id : Z) (cmd : command) : string :=
  "{" ++ nl
  ++ "  " ++ quote ++ "id" ++ quote ++ ": " ++ Cxx.to_string id ++ "," ++ nl
  ++ "  " ++ quote ++ "desc" ++ quote ++ ": " ++ quote
       ++ escapeJsonString (Desc cmd) ++ quote ++ "," ++ nl
  ++ "  " ++ quote ++ "status" ++ quote ++ ": " ++ quote
       ++ status_text (Status cmd) ++ quote ++ "," ++ nl
  ++ "  " ++ quote ++ "pid" ++ quote ++ ": " ++ Cxx.to_string (Pid cmd) ++ nl
  ++ "}".

(** The handler of [POST /process/control] (lines 298-372).  The
    calls inside the [try] block throw nothing but what the inner
    [catch] around [std::stoi] takes, so the outer [catch] is not
    modelled. *)
Definition process_control (os : OS.oracle) (req : Http.Request)
  (g_commands : list command) : outcome Http.Response :=
  if negb (Http.has_param req "fn") || negb (Http.has_param req "id") then
    (respond (Some 400%Z) "Missing required parameters: fn and id" "text/plain",
     g_commands, [])
  else
    let function := Http.get_param_value req "fn" in
    let idStr := Http.get_param_value req "id" in
    match Cxx.stoi idStr with
    | Cxx.stoi_invalid_argument | Cxx.stoi_out_of_range =>
        (respond (Some 400%Z) "Invalid id parameter: must be a number" "text/plain",
         g_commands, [])
    | Cxx.stoi_value id =>
        if (id <? 0)%Z
           || (Cxx.static_cast_int (Z.of_nat (length g_commands)) <=? id)%Z
        then
          (respond (Some 404%Z) "Process ID out of range" "text/plain",
           g_commands, [])
        else
          let cmd := default command_default (g_commands !! Z.to_nat id) in
          if String.eqb function "start" then
            if STATUS_eqb (Status cmd) RUNNING then
              (respond None
                 ("Process is already running (PID: "
                    ++ Cxx.to_string (Pid cmd) ++ ")") "text/plain",
               g_commands, [])
            else
              let '(pid, g', evs) := start os g_commands (Z.to_nat id) in
              if (0 <? pid)%Z then
                (respond None
                   ("Process started successfully (PID: "
                      ++ Cxx.to_string pid ++ ")") "text/plain",
                 g', evs)
              else
                (respond (Some 500%Z) "Failed to start process" "text/plain",
                 g', evs)
          else if String.eqb function "kill" || String.eqb function "end"
                  || String.eqb function "stop" then
            let force := String.eqb function "kill" in
            let '(ok, g', evs) := kill os g_commands (Z.to_nat id) force in
            if ok then
              (respond None "Process terminated successfully" "text/plain",
               g', evs)
            else
              (respond (Some 500%Z) "Failed to terminate process" "text/plain",
               g', evs)
          else if String.eqb function "status" then
            (respond None (status_body id cmd) "application/json",
             g_commands, [])
          else
            (respond (Some 400%Z)
               ("Unknown function: " ++ function
                  ++ ". Valid functions: start, stop, kill, end, status")
               "text/plain",
             g_commands, [])
    end.

(** The handler of [GET /health]. *)
Definition health : Http.Response :=
  Http.set_content Http.fresh "OK" "text/plain".

(** *** ProcessRunner.cpp: the destructor *)

(** [ProcessRunner::~ProcessRunner]: the loop from index [i] on, [n]
    entries to go; [os i] answers the system calls of the [kill] at
    index [i]. *)
Fixpoint destroy_from (os : nat -> OS.oracle) (i n : nat)
  (commands_ : list command) : list command * list OS.event :=
  match n with
  | O => (commands_, [])
  | S n' =>
      let '(c1, ev1) :=
        match commands_ !! i with
        | Some cmd =>
            if STATUS_eqb (Status cmd) RUNNING && (0 <? Pid cmd)%Z
            then let '(_, c, ev) := kill (os i) commands_ i false in (c, ev)
            else (commands_, [])
        | None => (commands_, [])
        end in
      let '(c2, ev2) := destroy_from os (S i) n' c1 in
      (c2, (ev1 ++ ev2)%list)
  end.

Definition destructor (os : nat -> OS.oracle) (commands_ : list command)
  : list command * list OS.event :=
  destroy_from os 0 (length commands_) commands_.

(** *** main.cpp: the command line and the configuration file *)

Definition DEFAULT_PORT : Z := 6755.
Definition DEFAULT_CONFIG_PATH : string := "./config/cmds.conf".
Definition FALLBACK_CONFIG_PATH : string := "/home/raima/.sermn/cmds.conf".

(** The [for] loop over [argv] of [main] (lines 53-85), from the
    argument after the program name on: [exits] when the loop returns,
    otherwise the values of [g_configPath] and [g_port] it leaves. *)
Inductive arguments :=
| args_exit (code : Z)
| args_ok (g_configPath : string) (g_port : Z).

Fixpoint parse_arguments (args : list string) (g_configPath : string)
  (g_port : Z) : arguments :=
  match args with
  | [] => args_ok g_configPath g_port
  | arg :: rest =>
      if String.eqb arg "--help" || String.eqb arg "-h" then args_exit 0
      else if String.eqb arg "--config" || String.eqb arg "-c" then
        match rest with
        | value :: rest' => parse_arguments rest' value g_port
        | [] => args_exit 1
        end
      else if String.eqb arg "--port" || String.eqb arg "-p" then
        match rest with
        | value :: rest' =>
            match Cxx.stoi value with
            | Cxx.stoi_value port =>
                if (port <=? 0)%Z || (65535 <? port)%Z then args_exit 1
                else parse_arguments rest' g_configPath port
            | _ => args_exit 1
            end
        | [] => args_exit 1
        end
      else args_exit 1
  end.

(** [int initializeSystem()]; [exists_file] is
    [std::filesystem::exists], which answers, or throws
    [filesystem_error] when the status of the path cannot be read
    ([None]).  [located_no] is the return value 1, [located path] the
    return value 0 with [g_configPath] set to [path], [located_throws]
    an exception, which nothing catches. *)
Inductive location :=
| located_throws
| located_no
| located (g_configPath : string).

Definition initializeSystem (exists_file : string -> option bool)
  (g_configPath : string) : location :=
  let chosen :=
    if is_empty g_configPath then
      match exists_file DEFAULT_CONFIG_PATH with
      | None => located_throws
      | Some true => located DEFAULT_CONFIG_PATH
      | Some false =>
          match exists_file FALLBACK_CONFIG_PATH with
          | None => located_throws
          | Some true => located FALLBACK_CONFIG_PATH
          | Some false => located_no
          end
      end
    else located g_configPath in
  match chosen with
  | located path =>
      match exists_file path with
      | None => located_throws
      | Some true => located path
      | Some false => located_no
      end
  | other => other
  end.

(** The whole of [main]: [files path] is the content of the file at
    [path] when it can be opened for reading.  The outcome is the exit
    code, or the port and the registry the HTTP server is started on,
    or the end by [std::terminate]. *)
Inductive launch :=
| exit_code (code : Z)
| listens (port : Z) (g_commands : list command)
| terminated.

Definition run (exists_file : string -> option bool)
  (files : string -> option string) (room : nat -> bool)
  (args : list string) : launch :=
  match parse_arguments args "" DEFAULT_PORT with
  | args_exit code => exit_code code
  | args_ok g_configPath g_port =>
      match initializeSystem exists_file g_configPath with
      | located_throws => terminated
      | located_no => exit_code 1
      | located path =>
          match main room (files path) with
          | exits code => exit_code code
          | serves g_commands => listens g_port g_commands
          | aborts => terminated
          end
      end
  end.

End Main.

(** ** src/Server (the earlier revision) *)

Module Legacy.

Inductive STATUS := DEAD | RUNNING.

Definition STATUS_eqb (a b : STATUS) : bool :=
match a, b with
| DEAD, DEAD | RUNNING, RUNNING => true
| _, _ => false
end.

(** The enumerator's value, as [std::to_string(short)] prints it. *)
Definition STATUS_value (s : STATUS) : Z :=
match s with DEAD => 0%Z | RUNNING => 1%Z end.

(** [struct command] (command.hpp) *)
Record command := mk_command {
  Desc : string;
  Path : string;
  Mode : ascii;
  Folder : string;
  Status : STATUS;
  Pid : Z
}.

(** [Mode] and [Pid] have no initialiser: a [command cmd;] holds whatever
    the memory held. *)
Record indeterminate := mk_indeterminate { junk_Mode : ascii; junk_Pid : Z }.

Definition set_Status (st : STATUS) (cmd : command) : command :=
mk_command (Desc cmd) (Path cmd) (Mode cmd) (Folder cmd) st (Pid cmd).

Definition set_started (pid : Z) (cmd : command) : command :=
mk_command (Desc cmd) (Path cmd) (Mode cmd) (Folder cmd) RUNNING pid.

Definition is_empty (s : string) : bool := String.eqb s "".

(** *** ProcessRunner.cpp *)

Definition split_cmd (cmdline : string) : list string := Cxx.words cmdline.

(** The child branch of [start], lines 51-112. *)
Definition start_child (cmd : command) : OS.child_prog :=
let run :=
  if Ascii.eqb (Mode cmd) "C" then
    match split_cmd (Path cmd) with
    | [] => OS.child_exit 1
    | file :: args => OS.child_execvp file (file :: args)
    end
  else if Ascii.eqb (Mode cmd) "D" then
    OS.child_execvp "docker" ("docker" :: "start" :: split_cmd (Path cmd))
  else OS.child_exit 1 in
if negb (is_empty (Folder cmd)) then OS.child_chdir (Folder cmd) run else run.

Definition outcome (A : Type) : Type := A * list command * list OS.event.

(** [pid_t ProcessRunner::start(size_t index)] *)
Definition start (os : OS.oracle) (commands_ : list command) (index : nat)
  : outcome Z :=
if (length commands_ <=? index)%nat then ((-1)%Z, commands_, [])
else
  match commands_ !! index with
  | None => ((-1)%Z, commands_, [])
  | Some cmd =>
      if is_empty (Path cmd) then ((-1)%Z, commands_, [])
      else
        match OS.fork_answer os with
        | OS.fork_failed =>
            ((-1)%Z, commands_, [OS.ev_fork (start_child cmd) (-1)])
        | OS.fork_child p =>
            (Z.pos p,
             <[index := set_started (Z.pos p) cmd]> commands_,
             [OS.ev_fork (start_child cmd) (Z.pos p)])
        end
  end.

(** The child branch of the Docker case of [kill], lines 153-169. *)
Definition kill_child (cmd : command) (force : bool) : OS.child_prog :=
let action := if force then "kill" else "stop" in
OS.child_execvp "docker" ["docker"; action; Path cmd].

(** [bool ProcessRunner::kill(size_t index, bool force)] *)
Definition kill (os : OS.oracle) (commands_ : list command) (index : nat)
  (force : bool) : outcome bool :=
if (length commands_ <=? index)%nat then (false, commands_, [])
else
  match commands_ !! index with
  | None => (false, commands_, [])
  | Some cmd =>
      let pid := Pid cmd in
      if (pid <=? 0)%Z then (false, commands_, [])
      else if Ascii.eqb (Mode cmd) "C" then
        let sig := if force then OS.SIGKILL else OS.SIGTERM in
        let ev := OS.ev_kill pid sig (OS.kill_answer os) in
        if (OS.kill_answer os =? 0)%Z
        then (true, <[index := set_Status DEAD cmd]> commands_, [ev])
        else (false, commands_, [ev])
      else if Ascii.eqb (Mode cmd) "D" then
        if is_empty (Path cmd) then (false, commands_, [])
        else
          match OS.fork_answer os with
          | OS.fork_failed =>
              (false, commands_, [OS.ev_fork (kill_child cmd force) (-1)])
          | OS.fork_child child =>
              (* "parent - we could wait or detach; here we don't block" *)
              (true, <[index := set_Status DEAD cmd]> commands_,
               [OS.ev_fork (kill_child cmd force) (Z.pos child)])
          end
      else (false, commands_, [])
  end.

(** [pid_t ProcessRunner::getPid(size_t index) const] *)
Definition getPid (commands_ : list command) (index : nat) : Z :=
if (length commands_ <=? index)%nat then (-1)%Z
else match commands_ !! index with
     | Some cmd => Pid cmd
     | None => (-1)%Z
     end.

(** *** main.cpp *)

(** The loop of [ReadCmds]: no read is checked. *)
Fixpoint read_entries (junk : nat -> indeterminate) (i n : nat)
  (file : IStream.t) (Commnads : list command) : list command :=
match n with
| O => Commnads
| S n' =>
    let '(desc, file) := IStream.getline file in
    let '(mode, file) := IStream.read_char file in
    let file := IStream.ignore_line file in
    let '(path, file) := IStream.getline file in
    let '(folder, file) := IStream.getline file in
    let cmd := mk_command (default "" desc) (default "" path)
                 (default (junk_Mode (junk i)) mode)
                 (default "." folder) DEAD (junk_Pid (junk i)) in
    read_entries junk (S i) n' file (Commnads ++ [cmd])
end.

(** [void ReadCmds()]; the global [N] starts at zero. *)
Definition ReadCmds (junk : nat -> indeterminate) (content : string)
  : list command :=
let '(N, file) := IStream.read_int (IStream.open content) in
let N := default 0%Z N in
let file := IStream.ignore_one file in
read_entries junk 0 (Z.to_nat N) file [].

Definition nl : string := String "010" "".
Definition quote : string := String "034" "".

(** The "naive escaping" of [GET /process/list]. *)
Fixpoint escape (s : string) : string :=
match s with
| EmptyString => ""
| String c r =>
    (if Ascii.eqb c "034" || Ascii.eqb c "\" then String "\" (String c "")
     else String c "") ++ escape r
end.

Definition status_text (st : STATUS) : string :=
if STATUS_eqb st RUNNING then "RUNNING" else "DEAD".

Definition list_element (first : bool) (cmd : command) : string :=
(if negb first then "," ++ nl else "")
++ "  {" ++ quote ++ "desc" ++ quote ++ ": " ++ quote ++ escape (Desc cmd)
++ quote ++ ", " ++ quote ++ "status" ++ quote ++ ": " ++ quote
++ status_text (Status cmd) ++ quote ++ "}".

Fixpoint list_loop (first : bool) (cmds : list command) (body : string)
  : string :=
match cmds with
| [] => body
| cmd :: rest => list_loop false rest (body ++ list_element first cmd)
end.

(** The handler of [GET /process/list]. *)
Definition process_list (Commnads : list command) : Http.Response :=
let body := list_loop true Commnads ("[" ++ nl) ++ nl ++ "]" ++ nl in
Http.set_status (Http.set_content Http.fresh body "application/json") 200.

Definition respond (code : option Z) (text ty : string) : Http.Response :=
let res := Http.set_content Http.fresh text ty in
match code with
| Some c => Http.set_status res c
| None => res
end.

(** The handler of [POST /process/control] (lines 118-170). *)
Definition process_control (os : OS.oracle) (req : Http.Request)
  (Commnads : list command) : outcome Http.Response :=
if negb (Http.has_param req "fn") || negb (Http.has_param req "id") then
  (respond (Some 400%Z) "Missing fn or id parameter" "text/plain", Commnads, [])
else
  let fn := Http.get_param_value req "fn" in
  let id_str := Http.get_param_value req "id" in
  match Cxx.stoi id_str with
  | Cxx.stoi_invalid_argument | Cxx.stoi_out_of_range =>
      (respond (Some 400%Z) "Bad id parameter" "text/plain", Commnads, [])
  | Cxx.stoi_value id =>
      if (id <? 0)%Z
         || (Cxx.static_cast_int (Z.of_nat (length Commnads)) <=? id)%Z
      then (respond (Some 404%Z) "Invalid id" "text/plain", Commnads, [])
      else
        let st := match Commnads !! Z.to_nat id with
                  | Some cmd => Status cmd
                  | None => DEAD
                  end in
        if String.eqb fn "start" && negb (STATUS_eqb st RUNNING) then
          let '(pid, c', evs) := start os Commnads (Z.to_nat id) in
          if (pid <? 0)%Z then
            (respond (Some 500%Z) "Failed to start process" "text/plain", c', evs)
          else
            (respond None ("Started, pid=" ++ Cxx.to_string pid) "text/plain",
             c', evs)
        else if String.eqb fn "kill" || String.eqb fn "end"
                || String.eqb fn "stop" then
          let '(ok, c', evs) := kill os Commnads (Z.to_nat id) true in
          if negb ok then
            (respond (Some 500%Z) "Failed to kill process" "text/plain", c', evs)
          else (respond None "Killed" "text/plain", c', evs)
        else if String.eqb fn "status" then
          (respond None (Cxx.to_string (STATUS_value st)) "text/plain",
           Commnads, [])
        else
          (respond (Some 400%Z) "Unknown fn value" "text/plain", Commnads, [])
  end.

(** [main]: [Init] has found the file; [ReadCmds] returns nothing, and
    the server thread is started on whatever was read. *)
Definition main (junk : nat -> indeterminate) (content : string)
  : list command :=
ReadCmds junk content.

End Legacy.

(** ** ServiceManager-main/src/Interface: the command-line client *)

Module Client.

(** [struct ProcessInfo]; the constructor sets [id] and [pid] to -1. *)
Record ProcessInfo := mk_info {
  id : Z;
  description : string;
  status : string;
  mode : string;
  pid : Z
}.

Definition quote : string := String "034" "".

(** The sets [" \t\n\r"] and [",}\n\r"] of [extractField]. *)
Definition white : string :=
  String " " (String "009" (String "010" (String "013" ""))).
Definition value_end : string :=
  String "," (String "}" (String "010" (String "013" ""))).

Definition is_quote_at (pos : nat) (s : string) : bool :=
  match String.get pos s with
  | Some c => Ascii.eqb c "034"
  | None => false
  end.

(** The lambda [extractField] of [parseProcessList], which searches
    [jsonBody] from the position [pos] of the current object on. *)
Definition extractField (jsonBody : string) (pos : nat) (fieldName : string)
  : string :=
  let searchPattern := quote ++ fieldName ++ quote in
  match Cxx.find searchPattern pos jsonBody with
  | None => ""
  | Some fieldPos =>
      match Cxx.find_char ":" fieldPos jsonBody with
      | None => ""
      | Some colonPos =>
          match Cxx.find_first_not_of white (colonPos + 1) jsonBody with
          | None => ""
          | Some valueStart =>
              if is_quote_at valueStart jsonBody then
                match Cxx.find_char "034" (valueStart + 1) jsonBody with
                | None => ""
                | Some valueEnd =>
                    Cxx.substr (valueStart + 1) (valueEnd - valueStart - 1)
                      jsonBody
                end
              else
                match Cxx.find_first_of value_end valueStart jsonBody with
                | None => ""
                | Some valueEnd =>
                    Cxx.substr valueStart (valueEnd - valueStart) jsonBody
                end
          end
      end
  end.

(** [process.pid]: -1 from the constructor unless [pidStr] is not
    empty and [std::stoi] reads it. *)
Definition parse_pid (pidStr : string) : Z :=
  if String.eqb pidStr "" then (-1)%Z
  else match Cxx.stoi pidStr with
       | Cxx.stoi_value v => v
       | _ => (-1)%Z
       end.

Definition parse_object (jsonBody : string) (pos : nat) (currentId : Z)
  : ProcessInfo :=
  mk_info currentId
    (extractField jsonBody pos "desc")
    (extractField jsonBody pos "status")
    (extractField jsonBody pos "mode")
    (parse_pid (extractField jsonBody pos "pid")).

(** The [while (true)] loop of [parseProcessList]; [None] when [fuel]
    passes of the loop do not reach the [break].  [currentId] is an
    [int]: counting in [Z] agrees with it as long as no more than
    INT_MAX objects are found. *)
Fixpoint parse_loop (fuel : nat) (jsonBody : string) (pos : nat)
  (currentId : Z) (processes : list ProcessInfo)
  : option (list ProcessInfo) :=
  match fuel with
  | O => None
  | S fuel' =>
      match Cxx.find_char "{" pos jsonBody with
      | None => Some processes
      | Some pos' =>
          parse_loop fuel' jsonBody (pos' + 1) (currentId + 1)
            (processes ++ [parse_object jsonBody pos' currentId])
      end
  end.

(** [std::vector<ProcessInfo> parseProcessList(const std::string&)] *)
Definition parseProcessList (jsonBody : string) : option (list ProcessInfo) :=
  parse_loop (S (String.length jsonBody)) jsonBody 0 0 [].

(** The parameters [sendControlCommand] posts to [/process/control]. *)
Definition control_request (function : string) (processId : Z) : Http.Request :=
  Http.mk_req [("fn", function); ("id", Cxx.to_string processId)].

(** [sendControlCommand]'s result for the status the server answered
    with; [None] is a failed connection. *)
Definition command_succeeded (answer : option Z) : bool :=
  match answer with
  | Some st => (st =? 200)%Z
  | None => false
  end.

(** The two [erase] calls that trim blanks and tabs off a line. *)
Definition blanks : string := String " " (String "009" "").

Definition trim (input : string) : string :=
  let input :=
    match Cxx.find_first_not_of blanks 0 input with
    | None => ""                                      (* erase(0, npos) *)
    | Some k => Cxx.substr k (String.length input - k) input
    end in
  match Cxx.find_last_not_of blanks input with
  | None => ""                                        (* erase(npos + 1) *)
  | Some k => Cxx.substr 0 (k + 1) input
  end.

(** What one pass of the interactive loop of [main] does with a line. *)
Inductive action :=
| act_prompt                                (* empty line: prompt again *)
| act_quit
| act_list
| act_help
| act_send (function : string) (id : Z)     (* sendControlCommand *)
| act_usage (function : string)             (* "Usage: <function> <process_id>" *)
| act_unknown (command : string).

(** [if (iss >> id)] *)
Definition read_id (iss : IStream.t) : option Z :=
  let '(v, iss') := IStream.read_int iss in
  if IStream.fail iss' then None else v.

Definition with_id (function : string) (iss : IStream.t) : action :=
  match read_id iss with
  | Some id => act_send function id
  | None => act_usage function
  end.

Definition interpret (input : string) : action :=
  let input := trim input in
  if String.eqb input "" then act_prompt
  else
    let '(word, iss) := IStream.read_word (IStream.open input) in
    let command := Cxx.lowercase (default "" word) in
    if String.eqb command "q" || String.eqb command "quit"
       || String.eqb command "exit" then act_quit
    else if String.eqb command "l" || String.eqb command "list" then act_list
    else if String.eqb command "h" || String.eqb command "help" then act_help
    else if String.eqb command "s" || String.eqb command "start"
    then with_id "start" iss
    else if String.eqb command "k" || String.eqb command "kill"
    then with_id "kill" iss
    else if String.eqb command "stop" then with_id "stop" iss
    else if String.eqb command "status" then with_id "status" iss
    else act_unknown command.

(** *** The table of [displayProcessList] *)

(** [std::string(n, c)] *)
Fixpoint fill (n : nat) (c : ascii) : string :=
  match n with
  | O => EmptyString
  | S n' => String c (fill n' c)
  end.

(** [std::left << std::setw(width) << s]: blanks are added on the right
    up to [width]; a longer text is written in full. *)
Definition pad (width : nat) (s : string) : string :=
  s ++ fill (width - String.length s) " ".

(** The five column widths, in the order id, description, status, mode,
    pid. *)
Record widths := mk_widths {
  maxIdWidth : nat;
  maxDescWidth : nat;
  maxStatusWidth : nat;
  maxModeWidth : nat;
  maxPidWidth : nat
}.

Definition widen (w : widths) (proc : ProcessInfo) : widths :=
  mk_widths
    (Nat.max (maxIdWidth w) (String.length (Cxx.to_string (id proc))))
    (Nat.max (maxDescWidth w) (String.length (description proc)))
    (Nat.max (maxStatusWidth w) (String.length (status proc)))
    (Nat.max (maxModeWidth w) (String.length (mode proc)))
    (if (0 <? pid proc)%Z
     then Nat.max (maxPidWidth w) (String.length (Cxx.to_string (pid proc)))
     else maxPidWidth w).

Definition column_widths (processes : list ProcessInfo) : widths :=
  fold_left widen processes (mk_widths 2 11 6 4 3).

Definition ruler (w : widths) : string :=
  fill (maxIdWidth w + maxDescWidth w + maxStatusWidth w + maxModeWidth w
        + maxPidWidth w + 16) "=".

Definition header (w : widths) : string :=
  "| " ++ pad (maxIdWidth w) "ID"
  ++ " | " ++ pad (maxDescWidth w) "Description"
  ++ " | " ++ pad (maxStatusWidth w) "Status"
  ++ " | " ++ pad (maxModeWidth w) "Mode"
  ++ " | " ++ pad (maxPidWidth w) "PID" ++ " |".

Definition esc : string := String "027" "".

Definition row (w : widths) (proc : ProcessInfo) : string :=
  let pidStr :=
    if (0 <? pid proc)%Z then Cxx.to_string (pid proc) else "-" in
  let statusDisplay :=
    if String.eqb (status proc) "RUNNING"
    then esc ++ "[32m" ++ status proc ++ esc ++ "[0m"
    else if String.eqb (status proc) "DEAD"
    then esc ++ "[31m" ++ status proc ++ esc ++ "[0m"
    else status proc in
  "| " ++ pad (maxIdWidth w) (Cxx.to_string (id proc))
  ++ " | " ++ pad (maxDescWidth w) (description proc)
  ++ " | " ++ pad (maxStatusWidth w + 9) statusDisplay
  ++ " | " ++ pad (maxModeWidth w) (mode proc)
  ++ " | " ++ pad (maxPidWidth w) pidStr ++ " |".

(** [void displayProcessList(const std::vector<ProcessInfo>&)]: the
    lines written to [std::cout]. *)
Definition displayProcessList (processes : list ProcessInfo)
  : list string :=
  match processes with
  | [] => ["No processes found."]
  | _ =>
      let w := column_widths processes in
      ([ruler w; header w; ruler w] ++ map (row w) processes ++ [ruler w])%list
  end.

(** *** The command line of the client *)

Definition DEFAULT_SERVER_HOST : string := "localhost".
Definition DEFAULT_SERVER_PORT : Z := 6755.

(** The [for] loop over [argv] of the client's [main] (lines 241-276). *)
Inductive arguments :=
| args_exit (code : Z)
| args_ok (serverHost : string) (serverPort : Z).

Fixpoint parse_arguments (args : list string) (serverHost : string)
  (serverPort : Z) : arguments :=
  match args with
  | [] => args_ok serverHost serverPort
  | arg :: rest =>
      if String.eqb arg "--help" || String.eqb arg "-h" then args_exit 0
      else if String.eqb arg "--host" then
        match rest with
        | value :: rest' => parse_arguments rest' value serverPort
        | [] => args_exit 1
        end
      else if String.eqb arg "--port" then
        match rest with
        | value :: rest' =>
            match Cxx.stoi value with
            | Cxx.stoi_value port =>
                if (port <=? 0)%Z || (65535 <? port)%Z then args_exit 1
                else parse_arguments rest' serverHost port
            | _ => args_exit 1
            end
        | [] => args_exit 1
        end
      else args_exit 1
  end.

(** [main] up to the interactive loop: [health host port] is the status
    of the answer to [GET /health], [None] when there is no answer. *)
Inductive launch :=
| exit_code (code : Z)
| connected (serverHost : string) (serverPort : Z).

Definition startup (health : string -> Z -> option Z) (args : list string)
  : launch :=
  match parse_arguments args DEFAULT_SERVER_HOST DEFAULT_SERVER_PORT with
  | args_exit code => exit_code code
  | args_ok serverHost serverPort =>
      match health serverHost serverPort with
      | Some status =>
          if negb (status =? 200)%Z then exit_code 1
          else connected serverHost serverPort
      | None => exit_code 1
      end
  end.

End Client.

(** ** src/Interface: the earlier client *)

Module LegacyClient.

(** [struct CmdInfo]; its [id] is never assigned and never read. *)
Record CmdInfo := mk_info { desc : string; status : string }.

Definition quote : string := String "034" "".

(** The lambda [parse_field] of [parse_cmd_list]. *)
Definition parse_field (body : string) (pos : nat) (field : string) : string :=
  match Cxx.find (quote ++ field ++ quote) pos body with
  | None => ""
  | Some p =>
      match Cxx.find_char ":" p body with
      | None => ""
      | Some colon =>
          match Cxx.find_char "034" colon body with
          | None => ""
          | Some quote1 =>
              match Cxx.find_char "034" (quote1 + 1) body with
              | None => ""
              | Some quote2 =>
                  Cxx.substr (quote1 + 1) (quote2 - quote1 - 1) body
              end
          end
      end
  end.

Fixpoint parse_loop (fuel : nat) (body : string) (pos : nat)
  (result : list CmdInfo) : option (list CmdInfo) :=
  match fuel with
  | O => None
  | S fuel' =>
      match Cxx.find_char "{" pos body with
      | None => Some result
      | Some pos' =>
          parse_loop fuel' body (pos' + 1)
            (result ++ [mk_info (parse_field body pos' "desc")
                          (parse_field body pos' "status")])
      end
  end.

(** [std::vector<CmdInfo> parse_cmd_list(const std::string&)] *)
Definition parse_cmd_list (body : string) : option (list CmdInfo) :=
  parse_loop (S (String.length body)) body 0 [].

End LegacyClient.

(** ** The wire format of section 6, as structured data

    Written from section 6 and from RFC 8259, not from the handlers:
    the bodies the handlers write are read back with [array_of] and
    [object_of] below. *)

Module Json.

Inductive value :=
| int (z : Z)
| str (s : string).

Definition object : Type := list (string * value).

Definition nl : string := String "010" "".
Definition quote : string := String "034" "".

(** *** A reader of JSON texts (RFC 8259): arrays of objects whose
    values are strings and integers *)

(** White space between the tokens of a JSON text. *)
Definition space (c : ascii) : bool :=
Ascii.eqb c " " || Ascii.eqb c "009" || Ascii.eqb c "010" || Ascii.eqb c "013".

Fixpoint skip (s : string) : string :=
match s with
| String c r => if space c then skip r else s
| EmptyString => s
end.

(** The control characters, which a string may not hold unescaped. *)
Definition control (c : ascii) : bool := (nat_of_ascii c <? 32)%nat.

(** The character an escape stands for, by the character after the
    backslash.  The escape with four hexadecimal digits is not read. *)
Definition escaped (c : ascii) : option ascii :=
if Ascii.eqb c "034" then Some "034"%char
else if Ascii.eqb c "\" then Some "\"%char
else if Ascii.eqb c "/" then Some "/"%char
else if Ascii.eqb c "b" then Some "008"%char
else if Ascii.eqb c "f" then Some "012"%char
else if Ascii.eqb c "n" then Some "010"%char
else if Ascii.eqb c "r" then Some "013"%char
else if Ascii.eqb c "t" then Some "009"%char
else None.

(** The characters of a string, from after its opening quote to its
    closing quote, and the text after it. *)
Fixpoint chars (s : string) : option (string * string) :=
match s with
| EmptyString => None
| String c r =>
    if Ascii.eqb c "034" then Some ("", r)
    else if Ascii.eqb c "\" then
      match r with
      | EmptyString => None
      | String e r' =>
          match escaped e with
          | None => None
          | Some x =>
              match chars r' with
              | Some (v, rest) => Some (String x v, rest)
              | None => None
              end
          end
      end
    else if control c then None
    else
      match chars r with
      | Some (v, rest) => Some (String c v, rest)
      | None => None
      end
end.

Definition digit (c : ascii) : option Z :=
let n := nat_of_ascii c in
if (48 <=? n)%nat && (n <=? 57)%nat then Some (Z.of_nat n - 48)%Z else None.

Fixpoint digits (acc : Z) (s : string) : Z * string :=
match s with
| EmptyString => (acc, s)
| String c r =>
    match digit c with
    | Some d => digits (10 * acc + d) r
    | None => (acc, s)
    end
end.

(** After an integer comes no further digit, fraction or exponent. *)
Definition ends_number (rest : string) : bool :=
match rest with
| EmptyString => true
| String c _ =>
    negb (Ascii.eqb c "." || Ascii.eqb c "e" || Ascii.eqb c "E")
    && match digit c with Some _ => false | None => true end
end.

(** An integer without sign: one zero, or digits that begin with none. *)
Definition natural (s : string) : option (Z * string) :=
match s with
| EmptyString => None
| String c r =>
    match digit c with
    | None => None
    | Some d =>
        let '(v, rest) := if (d =? 0)%Z then (0%Z, r) else digits d r in
        if ends_number rest then Some (v, rest) else None
    end
end.

Definition integer (s : string) : option (Z * string) :=
match s with
| EmptyString => None
| String c r =>
    if Ascii.eqb c "-" then
      match natural r with
      | Some (v, rest) => Some ((- v)%Z, rest)
      | None => None
      end
    else natural s
end.

(** A value: a string or an integer. *)
Definition read_value (s : string) : option (value * string) :=
match s with
| EmptyString => None
| String c r =>
    if Ascii.eqb c "034" then
      match chars r with
      | Some (v, rest) => Some (str v, rest)
      | None => None
      end
    else
      match integer s with
      | Some (z, rest) => Some (int z, rest)
      | None => None
      end
end.

(** A member of an object: its name, a colon, its value. *)
Definition member (s : string) : option ((string * value) * string) :=
match s with
| EmptyString => None
| String c r =>
    if Ascii.eqb c "034" then
      match chars r with
      | None => None
      | Some (name, r1) =>
          match skip r1 with
          | EmptyString => None
          | String c1 r2 =>
              if Ascii.eqb c1 ":" then
                match read_value (skip r2) with
                | Some (v, r3) => Some ((name, v), r3)
                | None => None
                end
              else None
          end
      end
    else None
end.

(** The members of an object, separated by commas, to its closing
    brace; [fuel] bounds their number. *)
Fixpoint members (fuel : nat) (s : string) : option (object * string) :=
match fuel with
| O => None
| S fuel =>
    match member s with
    | None => None
    | Some (m, r) =>
        match skip r with
        | EmptyString => None
        | String c r1 =>
            if Ascii.eqb c "}" then Some ([m], r1)
            else if Ascii.eqb c "," then
              match members fuel (skip r1) with
              | Some (l, rest) => Some (m :: l, rest)
              | None => None
              end
            else None
        end
    end
end.

Definition read_object (s : string) : option (object * string) :=
match s with
| EmptyString => None
| String c r =>
    if Ascii.eqb c "{" then
      match skip r with
      | EmptyString => None
      | String c1 r1 =>
          if Ascii.eqb c1 "}" then Some ([], r1)
          else members (String.length r) (skip r)
      end
    else None
end.

(** The objects of an array, separated by commas, to its closing
    bracket. *)
Fixpoint elements (fuel : nat) (s : string) : option (list object * string) :=
match fuel with
| O => None
| S fuel =>
    match read_object s with
    | None => None
    | Some (o, r) =>
        match skip r with
        | EmptyString => None
        | String c r1 =>
            if Ascii.eqb c "]" then Some ([o], r1)
            else if Ascii.eqb c "," then
              match elements fuel (skip r1) with
              | Some (l, rest) => Some (o :: l, rest)
              | None => None
              end
            else None
        end
    end
end.

Definition read_array (s : string) : option (list object * string) :=
match s with
| EmptyString => None
| String c r =>
    if Ascii.eqb c "[" then
      match skip r with
      | EmptyString => None
      | String c1 r1 =>
          if Ascii.eqb c1 "]" then Some ([], r1)
          else elements (String.length r) (skip r)
      end
    else None
end.

(** The whole text is one value, white space around it apart. *)
Definition whole {A : Type} (read : string -> option (A * string))
  (text : string) : option A :=
match read (skip text) with
| Some (v, rest) => if String.eqb (skip rest) "" then Some v else None
| None => None
end.

Definition array_of (text : string) : option (list object) :=
whole read_array text.

Definition object_of (text : string) : option object :=
whole read_object text.

End Json.

(** ** The configuration text of section 6

    Written from section 6 (a count N, followed by N groups of four
    lines each: description, single-character mode, target, working
    directory), not from [loadConfiguration]. *)

Module Config.

(** One workload of the configuration: its four lines. *)
Record entry := mk_entry {
  description : string;
  mode : ascii;
  target : string;
  directory : string
}.

Definition nl : string := String "010" "".

(** The four lines of an entry, each ended by a newline. *)
Definition group (e : entry) : string :=
description e ++ nl ++ String (mode e) "" ++ nl ++ target e ++ nl
++ directory e ++ nl.

Fixpoint groups (entries : list entry) : string :=
match entries with
| [] => ""
| e :: r => group e ++ groups r
end.

(** The text: the line of the count, then the groups of four lines. *)
Definition text (count : string) (entries : list entry) : string :=
count ++ nl ++ groups entries.

(** A text that fits on one line: it holds no newline. *)
Fixpoint one_line (s : string) : bool :=
match s with
| EmptyString => true
| String c r => negb (Ascii.eqb c "010") && one_line r
end.

(** White space: the blank and the characters \t \n \v \f \r. *)
Definition blank (c : ascii) : bool :=
Ascii.eqb c " " || Ascii.eqb c "009" || Ascii.eqb c "010"
|| Ascii.eqb c "011" || Ascii.eqb c "012" || Ascii.eqb c "013".

(** The entry is laid out on four lines, and its mode is a character
    that shows. *)
Definition laid_out (e : entry) : Prop :=
one_line (description e) = true /\ one_line (target e) = true
/\ one_line (directory e) = true /\ blank (mode e) = false.

(** What section 6 asks of an entry: a mode C or D, and a description
    and a target that are not empty. *)
Definition valid (e : entry) : bool :=
(Ascii.eqb (mode e) "C" || Ascii.eqb (mode e) "D")
&& negb (String.eqb (description e) "")
&& negb (String.eqb (target e) "").

(** A first line that is no number: it begins with a character that is
    neither a digit nor a sign nor white space. *)
Definition no_number (count : string) : bool :=
match count with
| EmptyString => false
| String c _ =>
    negb (blank c) && negb (Ascii.eqb c "+") && negb (Ascii.eqb c "-")
    && negb ((48 <=? nat_of_ascii c)%nat && (nat_of_ascii c <=? 57)%nat)
end.

End Config.

(** ** Command lines, as the settings they give

    What a command line asks for, stated apart from the loops that
    parse it. *)

Module Usage.

(** One option of a command line with its value: a text, or a port
    number as it is written. *)
Inductive setting :=
| text_value (flag : string) (value : string)
| port_value (flag : string) (written : string).

Definition words (s : setting) : list string :=
match s with
| text_value flag value => [flag; value]
| port_value flag written => [flag; written]
end.







End Usage.

(** ** Properties of registries *)

Module Registry.

(** What [loadConfiguration] checks of an entry. *)
Definition entry_ok (cmd : Main.command) : Prop :=
(Main.Mode cmd = "C"%char \/ Main.Mode cmd = "D"%char)
/\ Main.is_empty (Main.Desc cmd) = false
/\ Main.is_empty (Main.Path cmd) = false.

(** Section 3: the pid is that of a process when the entry is running,
    and the sentinel -1 otherwise. *)
Definition runtime_ok (cmd : Main.command) : Prop :=
(Main.Status cmd = Main.DEAD /\ Main.Pid cmd = (-1)%Z)
\/ (Main.Status cmd = Main.RUNNING /\ (0 < Main.Pid cmd)%Z).

Definition well_formed (g : list Main.command) : Prop :=
Forall (fun cmd => entry_ok cmd /\ runtime_ok cmd) g
/\ (Z.of_nat (length g) <= Cxx.INT_MAX)%Z.

Definition after {A : Type} (o : Main.outcome A) : list Main.command :=
snd (fst o).

Definition events {A : Type} (o : Main.outcome A) : list OS.event := snd o.

Definition result {A : Type} (o : Main.outcome A) : A := fst (fst o).

(** The registries the server can hold: the one [main] starts the
    server on, and those any supervisor call or control request leaves. *)
Inductive reachable : list Main.command -> Prop :=
| reach_boot room config g :
    Main.main room config = Main.serves g -> reachable g
| reach_start os index g :
    reachable g -> reachable (after (Main.start os g index))
| reach_kill os index force g :
    reachable g -> reachable (after (Main.kill os g index force))
| reach_control os req g :
    reachable g -> reachable (after (Main.process_control os req g)).

(** The registries a server can hold that was started on the registry
    [g0]: [g0] itself, and what any supervisor call or control request
    leaves of such a registry. *)
Inductive reachable_from (g0 : list Main.command) : list Main.command -> Prop :=
| from_boot : reachable_from g0 g0
| from_start os index g :
    reachable_from g0 g -> reachable_from g0 (after (Main.start os g index))
| from_kill os index force g :
    reachable_from g0 g -> reachable_from g0 (after (Main.kill os g index force))
| from_control os req g :
    reachable_from g0 g ->
    reachable_from g0 (after (Main.process_control os req g)).

(** A character that is no control character, or is one of
    \b \f \n \r \t. *)
Definition listable_char (c : ascii) : bool :=
negb (Json.control c) || Ascii.eqb c "008" || Ascii.eqb c "012"
|| Ascii.eqb c "010" || Ascii.eqb c "013" || Ascii.eqb c "009".

(** A text without control characters other than \b \f \n \r \t. *)
Fixpoint listable (s : string) : bool :=
match s with
| EmptyString => true
| String c r => listable_char c && listable r
end.

(** A text without control characters. *)
Fixpoint printable (s : string) : bool :=
match s with
| EmptyString => true
| String c r => negb (Json.control c) && printable r
end.

(** The word of section 6 for a status. *)
Definition status_word (st : Main.STATUS) : string :=
match st with
| Main.RUNNING => "RUNNING"
| Main.DEAD => "DEAD"
end.

Definition legacy_status_word (st : Legacy.STATUS) : string :=
match st with
| Legacy.RUNNING => "RUNNING"
| Legacy.DEAD => "DEAD"
end.

(** One element of [GET /process/list] as section 6 gives it. *)
Definition row (i : nat) (cmd : Main.command) : Json.object :=
[ ("id", Json.int (Z.of_nat i));
  ("desc", Json.str (Main.Desc cmd));
  ("status", Json.str (status_word (Main.Status cmd)));
  ("mode", Json.str (String (Main.Mode cmd) ""));
  ("pid", Json.int (Main.Pid cmd)) ].

(** One element of the list of the earlier revision. *)
Definition legacy_row (cmd : Legacy.command) : Json.object :=
[ ("desc", Json.str (Legacy.Desc cmd));
  ("status", Json.str (legacy_status_word (Legacy.Status cmd))) ].

(** The body of [fn=status]. *)
Definition status_row (id : Z) (cmd : Main.command) : Json.object :=
[ ("id", Json.int id);
  ("desc", Json.str (Main.Desc cmd));
  ("status", Json.str (status_word (Main.Status cmd)));
  ("pid", Json.int (Main.Pid cmd)) ].

(** A device of the proofs about [Main.load_entries]: what its loop
    reads when its checks of the mode and of empty fields are left out
    ([None] when a read fails). *)
Fixpoint raw_entries (n : nat) (file : IStream.t) : option (list Main.command) :=
match n with
| O => Some []
| S n' =>
    let '(desc, file) := IStream.getline file in
    if IStream.fail file then None else
    let '(mode, file) := IStream.read_char file in
    if IStream.fail file then None else
    let file := IStream.ignore_line file in
    let '(path, file) := IStream.getline file in
    if IStream.fail file then None else
    let '(folder, file) := IStream.getline file in
    if IStream.fail file then None else
    let cmd := Main.mk_command (default "" desc) (default "" path)
                 (default "C"%char mode) (default "." folder) Main.DEAD (-1) in
    match raw_entries n' file with
    | Some l => Some (cmd :: l)
    | None => None
    end
end.

(** What [file >> numCommands] stores: [None] when the read fails. *)
Definition raw_count (content : string) : option Z :=
let '(n, file) := IStream.read_int (IStream.open content) in
if IStream.fail file then None else n.

Definition after_count (content : string) : IStream.t :=
IStream.ignore_line (snd (IStream.read_int (IStream.open content))).

Definition entry_okb (cmd : Main.command) : bool :=
(Ascii.eqb (Main.Mode cmd) "C" || Ascii.eqb (Main.Mode cmd) "D")
&& negb (Main.is_empty (Main.Desc cmd))
&& negb (Main.is_empty (Main.Path cmd)).

(** The requests of [POST /process/control]. *)
Definition recognised (fn : string) : bool :=
String.eqb fn "start" || String.eqb fn "stop" || String.eqb fn "kill"
|| String.eqb fn "end" || String.eqb fn "status".

(** The request carries [fn] and an [id] that [std::stoi] reads as [id]. *)
Definition asks (req : Http.Request) (fn : string) (id : Z) : Prop :=
Http.has_param req "fn" = true
/\ Http.has_param req "id" = true
/\ Http.get_param_value req "fn" = fn
/\ Cxx.stoi (Http.get_param_value req "id") = Cxx.stoi_value id.

Definition legacy_result {A : Type} (o : Legacy.outcome A) : A := fst (fst o).

Definition legacy_events {A : Type} (o : Legacy.outcome A) : list OS.event :=
snd o.

Definition legacy_after {A : Type} (o : Legacy.outcome A) : list Legacy.command :=
snd (fst o).

(** A request turned away: answered with [code], the registry as it
    was, no system call made. *)
Definition refused (code : Z) (g : list Main.command)
  (o : Main.outcome Http.Response) : Prop :=
Http.answered (result o) = code /\ after o = g /\ events o = [].

Definition legacy_refused (code : Z) (c : list Legacy.command)
  (o : Legacy.outcome Http.Response) : Prop :=
Http.answered (legacy_result o) = code /\ legacy_after o = c
/\ legacy_events o = [].

(** The integer a text of digits stands for, read after [acc]. *)
Fixpoint digits_value (acc : Z) (s : string) : option Z :=
match s with
| EmptyString => Some acc
| String c r =>
    match Json.digit c with
    | Some d => digits_value (10 * acc + d) r
    | None => None
    end
end.

(** The integer a text is, when it is one: digits, after at most one
    sign. *)
Definition integer_of (s : string) : option Z :=
match s with
| EmptyString => None
| String c r =>
    if Ascii.eqb c "-" then
      match r with
      | EmptyString => None
      | _ => option_map Z.opp (digits_value 0 r)
      end
    else if Ascii.eqb c "+" then
      match r with
      | EmptyString => None
      | _ => digits_value 0 r
      end
    else digits_value 0 s
end.

Fixpoint after_blanks (s : string) : string :=
match s with
| EmptyString => s
| String c r => if Config.blank c then after_blanks r else s
end.

Definition after_sign (s : string) : string :=
match s with
| EmptyString => s
| String c r => if Ascii.eqb c "-" || Ascii.eqb c "+" then r else s
end.

(** The text starts with no integer: after white space and at most one
    sign comes no digit. *)
Definition starts_with_no_integer (s : string) : bool :=
match after_sign (after_blanks s) with
| EmptyString => true
| String c _ =>
    match Json.digit c with
    | Some _ => false
    | None => true
    end
end.

(** The workload an entry of the configuration stands for, before any
    start. *)
Definition loaded (e : Config.entry) : Main.command :=
Main.mk_command (Config.description e) (Config.target e) (Config.mode e)
  (Config.directory e) Main.DEAD (-1).

(** A configuration that announces [N] entries and is malformed: it
    holds fewer than [N], or one of the first [N] is not valid. *)
Definition spoiled (N : Z) (entries : list Config.entry) : Prop :=
(Z.of_nat (length entries) < N)%Z
\/ exists k e, (Z.of_nat k < N)%Z /\ entries !! k = Some e
               /\ Config.valid e = false.

End Registry.

(** ** Text, and what the clients should read *)

Module Wire.

(** The string without its first [n] characters. *)
Fixpoint drop (n : nat) (s : string) : string :=
match n, s with
| O, _ => s
| S n', String _ r => drop n' r
| S _, EmptyString => EmptyString
end.

(** No character of [s] is in [set]. *)
Fixpoint free_of (set : string) (s : string) : bool :=
match s with
| EmptyString => true
| String c r => negb (Cxx.mem c set) && free_of set r
end.

(** How often [c] occurs in [s]. *)
Fixpoint count (c : ascii) (s : string) : nat :=
match s with
| EmptyString => O
| String x r => if Ascii.eqb c x then S (count c r) else count c r
end.

(** The characters [escapeJsonString] rewrites: the quote, the backslash
    and \b \f \n \r \t. *)
Definition escaped : string :=
String "034" (String "\" (String "008" (String "012"
  (String "010" (String "013" (String "009" "")))))).

(** The string without its white space. *)
Fixpoint squeeze (s : string) : string :=
match s with
| EmptyString => EmptyString
| String c r => if Cxx.isspace c then squeeze r else String c (squeeze r)
end.

Fixpoint concat (l : list string) : string :=
match l with
| [] => EmptyString
| x :: r => x ++ concat r
end.

(** A word: not empty, and without white space. *)
Definition is_word (s : string) : bool :=
negb (String.eqb s "") && String.eqb (squeeze s) s.

(** A request to terminate that the target can still handle: SIGTERM,
    [docker stop], and waiting for the helper. *)
Definition graceful (e : OS.event) : bool :=
match e with
| OS.ev_kill _ sig _ => (sig =? OS.SIGTERM)%Z
| OS.ev_fork (OS.child_execvp file (_ :: action :: _)) _ =>
    String.eqb file "docker" && String.eqb action "stop"
| OS.ev_fork _ _ => false
| OS.ev_waitpid _ _ => true
end.

(** Every call the system is asked for succeeds: the signal is
    delivered, the helper is forked and exits with code 0. *)
Definition succeeds (os : OS.oracle) : Prop :=
OS.kill_answer os = 0%Z
/\ (exists child, OS.fork_answer os = OS.fork_child child)
/\ OS.WIFEXITED (OS.wait_answer os) = true
/\ OS.WEXITSTATUS (OS.wait_answer os) = 0%Z.

Definition dead (cmd : Main.command) : Prop :=
Main.Status cmd = Main.DEAD /\ Main.Pid cmd = (-1)%Z.

(** The part of an entry that is read from the configuration. *)
Definition spec_of (cmd : Main.command) : string * string * ascii * string :=
(Main.Desc cmd, Main.Path cmd, Main.Mode cmd, Main.Folder cmd).

Definition legacy_spec_of (cmd : Legacy.command)
  : string * string * ascii * string :=
(Legacy.Desc cmd, Legacy.Path cmd, Legacy.Mode cmd, Legacy.Folder cmd).

(** *** The client's parser, read from the end of the string

    [std::string::find] and its relatives give positions; the functions
    below give the rest of the string from that position on, which is
    what the parser goes on with. *)

(** The rest of [s] from the first occurrence of [pat] on. *)
Fixpoint seek (pat s : string) : option string :=
match s with
| EmptyString => None
| String c r => if Cxx.starts_with pat s then Some s else seek pat r
end.

(** The rest of [s] from the first character passing [test] on. *)
Fixpoint seek_if (test : ascii -> bool) (s : string) : option string :=
match s with
| EmptyString => None
| String c r => if test c then Some s else seek_if test r
end.

(** The characters of [s] before the first one passing [test]. *)
Fixpoint until (test : ascii -> bool) (s : string) : option string :=
match s with
| EmptyString => None
| String c r =>
    if test c then Some EmptyString
    else match until test r with
         | Some v => Some (String c v)
         | None => None
         end
end.

Definition tail (s : string) : string :=
match s with
| EmptyString => EmptyString
| String _ r => r
end.

(** [extractField] on the text [s] that starts at the current object. *)
Definition field (name s : string) : string :=
match seek (Client.quote ++ name ++ Client.quote) s with
| None => ""
| Some s1 =>
    match seek_if (Ascii.eqb ":") s1 with
    | None => ""
    | Some s2 =>
        match seek_if (fun c => negb (Cxx.mem c Client.white)) (tail s2) with
        | Some (String c s4) =>
            if Ascii.eqb c "034"
            then default "" (until (Ascii.eqb "034") s4)
            else default "" (until (fun c => Cxx.mem c Client.value_end)
                               (String c s4))
        | _ => ""
        end
    end
end.

Definition object_at (s : string) (id : Z) : Client.ProcessInfo :=
Client.mk_info id (field "desc" s) (field "status" s) (field "mode" s)
  (Client.parse_pid (field "pid" s)).

(** One object for every opening brace of [s], numbered from [id] on. *)
Fixpoint objects (s : string) (id : Z) : list Client.ProcessInfo :=
match s with
| EmptyString => []
| String c r =>
    if Ascii.eqb "{" c then object_at s id :: objects r (id + 1)
    else objects r id
end.

(** An element of the list of [GET /process/list] from its brace on,
    followed by [R]; [n], [D], [st], [m] and [p] are the texts written
    for the id, the description, the status, the mode and the pid. *)
Definition element (n D st m p R : string) : string :=
"{" ++ Main.nl ++ "    " ++ Client.quote ++ "id" ++ Client.quote ++ ": " ++ n
++ "," ++ Main.nl
++ "    " ++ Client.quote ++ "desc" ++ Client.quote ++ ": "
++ Client.quote ++ D ++ Client.quote ++ "," ++ Main.nl
++ "    " ++ Client.quote ++ "status" ++ Client.quote ++ ": "
++ Client.quote ++ st ++ Client.quote ++ "," ++ Main.nl
++ "    " ++ Client.quote ++ "mode" ++ Client.quote ++ ": "
++ Client.quote ++ m ++ Client.quote ++ "," ++ Main.nl
++ "    " ++ Client.quote ++ "pid" ++ Client.quote ++ ": " ++ p
++ Main.nl ++ "  }" ++ R.

(** What the client makes of the workload at index [i]: the description
    as it was escaped, and the status, mode and pid as recorded; but a
    workload described as [mode] shows its status as mode, and one
    described as [pid] shows the pid -1. *)
Definition shown (i : nat) (cmd : Main.command) : Client.ProcessInfo :=
Client.mk_info (Z.of_nat i)
  (Main.escapeJsonString (Main.Desc cmd))
  (Main.status_text (Main.Status cmd))
  (if String.eqb (Main.Desc cmd) "mode"
   then Main.status_text (Main.Status cmd)
   else String (Main.Mode cmd) "")
  (if String.eqb (Main.Desc cmd) "pid" then (-1)%Z else Main.Pid cmd).

(** The description has no quote and no opening brace, and the pid is
    one an [int] holds. *)
Definition readable (cmd : Main.command) : Prop :=
free_of (String "034" (String "{" "")) (Main.Desc cmd) = true
/\ (Main.Pid cmd <= Cxx.INT_MAX)%Z.

(** [parse_field] of the earlier client on the text [s] that starts at
    the current object. *)
Definition legacy_field (name s : string) : string :=
match seek (LegacyClient.quote ++ name ++ LegacyClient.quote) s with
| None => ""
| Some s1 =>
    match seek_if (Ascii.eqb ":") s1 with
    | None => ""
    | Some s2 =>
        match seek_if (Ascii.eqb "034") s2 with
        | None => ""
        | Some s3 => default "" (until (Ascii.eqb "034") (tail s3))
        end
    end
end.

Definition legacy_object_at (s : string) : LegacyClient.CmdInfo :=
LegacyClient.mk_info (legacy_field "desc" s) (legacy_field "status" s).

Fixpoint legacy_objects (s : string) : list LegacyClient.CmdInfo :=
match s with
| EmptyString => []
| String c r =>
    if Ascii.eqb "{" c then legacy_object_at s :: legacy_objects r
    else legacy_objects r
end.

(** An element of the earlier revision's list from its brace on. *)
Definition legacy_element (D st R : string) : string :=
"{" ++ Legacy.quote ++ "desc" ++ Legacy.quote ++ ": " ++ Legacy.quote ++ D
++ Legacy.quote ++ ", " ++ Legacy.quote ++ "status" ++ Legacy.quote ++ ": "
++ Legacy.quote ++ st ++ Legacy.quote ++ "}" ++ R.

(** What the earlier client makes of a workload. *)
Definition legacy_shown (cmd : Legacy.command) : LegacyClient.CmdInfo :=
LegacyClient.mk_info (Legacy.escape (Legacy.Desc cmd))
  (Legacy.status_text (Legacy.Status cmd)).

(** The description has no quote and no opening brace. *)
Definition legacy_readable (cmd : Legacy.command) : Prop :=
free_of (String "034" (String "{" "")) (Legacy.Desc cmd) = true.

(** The child never gets to [execvp]: it changes directory at most and
    exits. *)
Fixpoint runs_nothing (child : OS.child_prog) : bool :=
match child with
| OS.child_exit _ => true
| OS.child_chdir _ next => runs_nothing next
| OS.child_execvp _ _ => false
end.

(** Every character of [s] is in [set]. *)
Fixpoint only (set s : string) : bool :=
match s with
| EmptyString => true
| String c r => Cxx.mem c set && only set r
end.

(** The first, and the last, character of [s] is in [set]. *)
Definition first_in (set s : string) : bool :=
match s with
| EmptyString => false
| String c _ => Cxx.mem c set
end.

Fixpoint last_in (set s : string) : bool :=
match s with
| EmptyString => false
| String c EmptyString => Cxx.mem c set
| String _ r => last_in set r
end.

(** The two [erase] calls of [Client.trim], one at a time. *)
Definition trim_left (input : string) : string :=
match Cxx.find_first_not_of Client.blanks 0 input with
| None => ""
| Some k => Cxx.substr k (String.length input - k) input
end.

Definition trim_right (input : string) : string :=
match Cxx.find_last_not_of Client.blanks input with
| None => ""
| Some k => Cxx.substr 0 (k + 1) input
end.

(** The widths [b] are at least the widths [a]. *)
Definition le_widths (a b : Client.widths) : Prop :=
(Client.maxIdWidth a <= Client.maxIdWidth b /\ Client.maxDescWidth a <= Client.maxDescWidth b
 /\ Client.maxStatusWidth a <= Client.maxStatusWidth b
 /\ Client.maxModeWidth a <= Client.maxModeWidth b
 /\ Client.maxPidWidth a <= Client.maxPidWidth b)%nat.

(** Every field of [proc] has room in its column. *)
Definition fits (w : Client.widths) (proc : Client.ProcessInfo) : Prop :=
(String.length (Cxx.to_string (Client.id proc)) <= Client.maxIdWidth w
 /\ String.length (Client.description proc) <= Client.maxDescWidth w
 /\ String.length (Client.status proc) <= Client.maxStatusWidth w
 /\ String.length (Client.mode proc) <= Client.maxModeWidth w
 /\ ((0 < Client.pid proc)%Z ->
     String.length (Cxx.to_string (Client.pid proc)) <= Client.maxPidWidth w))%nat.

(** The functions the interactive client sends. *)
Definition client_function (fn : string) : bool :=
String.eqb fn "start" || String.eqb fn "kill" || String.eqb fn "stop"
|| String.eqb fn "status".

End Wire.

(** ** Concrete configurations, registries and requests *)

Module Sample.

Definition nl : string := Json.nl.

(** Section 8's example entry, followed by a container. *)
Definition config : string :=
"2" ++ nl
++ "echo" ++ nl ++ "C" ++ nl ++ "sleep 5" ++ nl ++ "." ++ nl
++ "web" ++ nl ++ "D" ++ nl ++ "nginx" ++ nl ++ "/srv" ++ nl.

(** One entry whose mode is X and whose description and target are empty. *)
Definition bad_config : string :=
"1" ++ nl ++ "" ++ nl ++ "X" ++ nl ++ "" ++ nl ++ "." ++ nl.

Definition echo : Main.command := Main.mk_command "echo" "sleep 5" "C" "." Main.DEAD (-1).
Definition web : Main.command := Main.mk_command "web" "nginx" "D" "/srv" Main.DEAD (-1).

(** Memory is never short. *)
Definition room (n : nat) : bool := true.

(** The registry [Main.main] serves on [config]. *)
Definition registry : list Main.command := [echo; web].

Definition request (fn id : string) : Http.Request :=
Http.mk_req [("fn", fn); ("id", id)].

(** Every system call succeeds: the child gets pid 4242 and the helper
    exits with code 0. *)
Definition os_ok : OS.oracle := OS.mk_oracle (OS.fork_child 4242) 0 0.

(** [fork] and [kill(2)] fail. *)
Definition os_down : OS.oracle := OS.mk_oracle OS.fork_failed (-1) 0.

(** As [os_ok], the child getting pid 4343. *)
Definition os_ok' : OS.oracle := OS.mk_oracle (OS.fork_child 4343) 0 0.

(** The helper is forked as pid 4444 and exits with code 1. *)
Definition os_helper_fails : OS.oracle := OS.mk_oracle (OS.fork_child 4444) 0 256.

(** Both entries started. *)
Definition running : list Main.command :=
Registry.after (Main.start os_ok' (Registry.after (Main.start os_ok registry 0)) 1).

Definition junk (i : nat) : Legacy.indeterminate :=
Legacy.mk_indeterminate "000" 0.

(** The same configuration as the earlier revision reads it. *)
Definition legacy_registry : list Legacy.command := Legacy.main junk config.

Definition legacy_running : list Legacy.command :=
Registry.legacy_after (Legacy.start os_ok'
                (Registry.legacy_after (Legacy.start os_ok legacy_registry 0)) 1).

(** One native entry whose target is a single blank. *)
Definition blank_config : string :=
"1" ++ nl ++ "idle" ++ nl ++ "C" ++ nl ++ " " ++ nl ++ "." ++ nl.

Definition idle : Main.command :=
Main.mk_command "idle" " " "C" "." Main.DEAD (-1).

(** A workload whose description begins with the character 7. *)
Definition bell : Main.command :=
Main.mk_command (String "007" "bell") "/bin/true" "C" "." Main.DEAD (-1).

Definition bell_config : string :=
"1" ++ nl ++ String "007" "bell" ++ nl ++ "C" ++ nl ++ "/bin/true" ++ nl
++ "." ++ nl.

(** A count followed by a letter, and one entry whose mode line is left
    blank, with a line after it. *)
Definition shifted_config : string :=
"1x" ++ nl ++ "web" ++ nl ++ nl ++ "Docker" ++ nl ++ "nginx" ++ nl
++ "." ++ nl.

End Sample.

(** * Proofs *)

Import Registry.

(** ** Strings and lists *)

Lemma string_app_cons (x : ascii) (a b : string) :
  String x a ++ b = String x (a ++ b).
Proof. reflexivity. Qed.

Lemma string_app_nil_l (a : string) : "" ++ a = a.
Proof. reflexivity. Qed.

Lemma string_app_assoc (a b c : string) : (a ++ b) ++ c = a ++ (b ++ c).
Proof.
  induction a as [|x a IH]; [reflexivity |].
  rewrite !string_app_cons. now rewrite IH.
Qed.

Lemma string_app_nil_r (a : string) : a ++ "" = a.
Proof.
  induction a as [|x a IH]; [reflexivity |].
  rewrite string_app_cons. now rewrite IH.
Qed.

Lemma string_length_app (a b : string) :
  String.length (a ++ b) = (String.length a + String.length b)%nat.
Proof.
  induction a as [|x a IH]; [reflexivity |].
  rewrite string_app_cons. simpl. now rewrite IH.
Qed.

Lemma blank_isspace (c : ascii) : Cxx.isspace c = Config.blank c.
Proof.
  destruct c as [[] [] [] [] [] [] [] []]; reflexivity.
Qed.

Lemma is_empty_false (s : string) : Main.is_empty s = false <-> s <> "".
Proof. unfold Main.is_empty. apply String.eqb_neq. Qed.

Lemma lookup_in_range {A : Type} (l : list A) (i : nat) (x : A) :
  l !! i = Some x -> (length l <=? i)%nat = false.
Proof.
  intros H. apply Nat.leb_gt. apply lookup_lt_is_Some. eauto.
Qed.

Lemma lookup_out_of_range {A : Type} (l : list A) (i : nat) :
  (length l <= i)%nat -> (length l <=? i)%nat = true.
Proof. intros H. now apply Nat.leb_le. Qed.

(** An [int] holds the size of every registry of at most [INT_MAX] entries. *)
Lemma static_cast_int_small (n : nat) :
  (Z.of_nat n <= Cxx.INT_MAX)%Z -> Cxx.static_cast_int (Z.of_nat n) = Z.of_nat n.
Proof.
  unfold Cxx.static_cast_int, Cxx.INT_MAX. intros H.
  rewrite Z.mod_small by lia. lia.
Qed.

(** ** Decimal digits *)

Lemma digit_char (d : N) :
  (d < 10)%N ->
  Cxx.isdigit (pretty_N_char d) = true
  /\ Cxx.digit_value (pretty_N_char d) = Z.of_N d
  /\ Cxx.isspace (pretty_N_char d) = false
  /\ Ascii.eqb (pretty_N_char d) "-" = false
  /\ Ascii.eqb (pretty_N_char d) "+" = false.
Proof.
  intros H.
  assert (Hd : (d = 0 \/ d = 1 \/ d = 2 \/ d = 3 \/ d = 4 \/ d = 5 \/ d = 6
                \/ d = 7 \/ d = 8 \/ d = 9)%N) by lia.
  repeat (destruct Hd as [-> | Hd]; [repeat split; reflexivity |]).
  subst. repeat split; reflexivity.
Qed.

Lemma read_digits_pretty_go (x : N) : forall (s : string) (seen : bool),
  (0 < x)%N ->
  Cxx.read_digits 0 seen (list_ascii_of_string (pretty_N_go x s))
  = Cxx.read_digits (Z.of_N x) true (list_ascii_of_string s).
Proof.
  induction x as [x IH] using (well_founded_induction N.lt_wf_0).
  intros s seen Hx.
  rewrite pretty_N_go_step by exact Hx.
  destruct (digit_char (x mod 10)%N) as (Hd & Hv & _); [apply N.mod_lt; lia |].
  pose proof (N.div_mod x 10 ltac:(lia)) as E.
  destruct (N.eq_dec (x / 10)%N 0%N) as [Hz | Hnz].
  - rewrite Hz, pretty_N_go_0. cbn [list_ascii_of_string Cxx.read_digits].
    rewrite Hd, Hv. f_equal. rewrite Hz in E.
    set (m := (x mod 10)%N) in *. clearbody m. lia.
  - rewrite IH; [| apply N.div_lt; lia | now apply N.neq_0_lt_0].
    cbn [list_ascii_of_string Cxx.read_digits]. rewrite Hd, Hv. f_equal.
    set (m := (x mod 10)%N) in *. set (q := (x / 10)%N) in *.
    clearbody m q. lia.
Qed.

Lemma pretty_go_head (x : N) : forall s : string,
  (0 < x)%N ->
  exists d r, (d < 10)%N /\ pretty_N_go x s = String (pretty_N_char d) r.
Proof.
  induction x as [x IH] using (well_founded_induction N.lt_wf_0).
  intros s Hx. rewrite pretty_N_go_step by exact Hx.
  destruct (N.eq_dec (x / 10)%N 0%N) as [Hz | Hnz].
  - rewrite Hz, pretty_N_go_0. exists (x mod 10)%N, s.
    split; [apply N.mod_lt; lia | reflexivity].
  - apply IH; [apply N.div_lt; lia | now apply N.neq_0_lt_0].
Qed.

Lemma pretty_N_go_app (x : N) : forall s t : string,
  pretty_N_go x s ++ t = pretty_N_go x (s ++ t).
Proof.
  induction x as [x IH] using (well_founded_induction N.lt_wf_0).
  intros s t. destruct (N.eq_dec x 0%N) as [-> | Hx];
    [now rewrite !pretty_N_go_0 |].
  rewrite (pretty_N_go_step x s), (pretty_N_go_step x (s ++ t))
    by now apply N.neq_0_lt_0.
  rewrite IH by (apply N.div_lt; lia). reflexivity.
Qed.

(** ** Reading JSON *)

Lemma chars_escape_char (c : ascii) (rest : string) :
  listable_char c = true ->
  Json.chars (Main.escape_char c ++ rest)
  = match Json.chars rest with
    | Some (v, r) => Some (String c v, r)
    | None => None
    end.
Proof.
  destruct c as [[] [] [] [] [] [] [] []]; try discriminate; intros _;
    reflexivity.
Qed.

Lemma chars_escapeJsonString (D R : string) :
  listable D = true ->
  Json.chars (Main.escapeJsonString D ++ String "034" R) = Some (D, R).
Proof.
  induction D as [|c D IH]; intros H; [reflexivity |].
  cbn [listable] in H. apply andb_true_iff in H as [Hc HD].
  cbn [Main.escapeJsonString]. rewrite string_app_assoc.
  rewrite (chars_escape_char c _ Hc), (IH HD). reflexivity.
Qed.

Lemma chars_legacy_escape_char (c : ascii) (rest : string) :
  Json.control c = false ->
  Json.chars
    ((if Ascii.eqb c "034" || Ascii.eqb c "\" then String "\" (String c "")
      else String c "") ++ rest)
  = match Json.chars rest with
    | Some (v, r) => Some (String c v, r)
    | None => None
    end.
Proof.
  destruct c as [[] [] [] [] [] [] [] []]; try discriminate; intros _;
    reflexivity.
Qed.

Lemma chars_legacy_escape (D R : string) :
  printable D = true ->
  Json.chars (Legacy.escape D ++ String "034" R) = Some (D, R).
Proof.
  induction D as [|c D IH]; intros H; [reflexivity |].
  cbn [printable] in H. apply andb_true_iff in H as [Hc HD].
  apply negb_true_iff in Hc.
  cbn [Legacy.escape]. rewrite string_app_assoc.
  rewrite (chars_legacy_escape_char c _ Hc), (IH HD). reflexivity.
Qed.

Lemma json_digit_char (d : N) :
  (d < 10)%N -> Json.digit (pretty_N_char d) = Some (Z.of_N d).
Proof.
  intros H.
  assert (Hd : (d = 0 \/ d = 1 \/ d = 2 \/ d = 3 \/ d = 4 \/ d = 5 \/ d = 6
                \/ d = 7 \/ d = 8 \/ d = 9)%N) by lia.
  repeat (destruct Hd as [-> | Hd]; [reflexivity |]).
  subst. reflexivity.
Qed.

Lemma digits_pretty_go (x : N) : forall s : string,
  (0 < x)%N ->
  Json.digits 0 (pretty_N_go x s) = Json.digits (Z.of_N x) s.
Proof.
  induction x as [x IH] using (well_founded_induction N.lt_wf_0).
  intros s Hx.
  rewrite pretty_N_go_step by exact Hx.
  pose proof (json_digit_char (x mod 10)%N ltac:(apply N.mod_lt; lia)) as Hd.
  pose proof (N.div_mod x 10 ltac:(lia)) as E.
  destruct (N.eq_dec (x / 10)%N 0%N) as [Hz | Hnz].
  - rewrite Hz, pretty_N_go_0. cbn [Json.digits]. rewrite Hd. f_equal.
    rewrite Hz in E. set (m := (x mod 10)%N) in *. clearbody m. lia.
  - rewrite IH; [| apply N.div_lt; lia | now apply N.neq_0_lt_0].
    cbn [Json.digits]. rewrite Hd. f_equal.
    set (m := (x mod 10)%N) in *. set (q := (x / 10)%N) in *.
    clearbody m q. lia.
Qed.

Lemma pretty_go_first (x : N) : forall s : string,
  (0 < x)%N ->
  exists d r, (0 < d < 10)%N /\ pretty_N_go x s = String (pretty_N_char d) r.
Proof.
  induction x as [x IH] using (well_founded_induction N.lt_wf_0).
  intros s Hx. rewrite pretty_N_go_step by exact Hx.
  pose proof (N.div_mod x 10 ltac:(lia)) as E.
  destruct (N.eq_dec (x / 10)%N 0%N) as [Hz | Hnz].
  - rewrite Hz, pretty_N_go_0. exists (x mod 10)%N, s.
    split; [| reflexivity]. rewrite Hz in E.
    pose proof (N.mod_lt x 10 ltac:(lia)). lia.
  - apply IH; [apply N.div_lt; lia | now apply N.neq_0_lt_0].
Qed.

Lemma digits_end (acc : Z) (R : string) :
  Json.ends_number R = true -> Json.digits acc R = (acc, R).
Proof.
  destruct R as [|c R]; [reflexivity |]. cbn [Json.ends_number Json.digits].
  destruct (Json.digit c); [now rewrite andb_false_r | reflexivity].
Qed.

Lemma natural_pretty_go (x : N) (R : string) :
  (0 < x)%N -> Json.ends_number R = true ->
  Json.natural (pretty_N_go x R) = Some (Z.of_N x, R).
Proof.
  intros Hx HR.
  pose proof (digits_pretty_go x R Hx) as Hd.
  destruct (pretty_go_first x R Hx) as (d & r & Hrange & E).
  rewrite E in Hd |- *. cbn [Json.digits] in Hd. cbn [Json.natural].
  rewrite (json_digit_char d) in Hd |- * by lia.
  destruct (Z.eqb_spec (Z.of_N d) 0) as [H0 | _]; [lia |].
  change (10 * 0 + Z.of_N d)%Z with (Z.of_N d) in Hd.
  rewrite Hd, (digits_end _ _ HR), HR. reflexivity.
Qed.

Lemma integer_pretty (z : Z) (R : string) :
  Json.ends_number R = true ->
  Json.integer (pretty z ++ R) = Some (z, R).
Proof.
  intros HR. unfold pretty, pretty_Z. destruct z as [|p|p].
  - rewrite string_app_cons, string_app_nil_l.
    cbn [Json.integer Json.natural]. 
    change (Ascii.eqb "0" "-") with false. cbv iota.
    change (Json.digit "0") with (Some 0%Z). cbv iota beta.
    cbn [Z.eqb]. now rewrite HR.
  - unfold pretty, pretty_positive, pretty, pretty_N.
    destruct (decide (N.pos p = 0%N)) as [H|_]; [discriminate |].
    rewrite pretty_N_go_app, string_app_nil_l.
    pose proof (natural_pretty_go (N.pos p) R ltac:(lia) HR) as Hn.
    destruct (pretty_go_first (N.pos p) R ltac:(lia)) as (d & r & Hrange & E).
    rewrite E in Hn |- *. unfold Json.integer.
    assert (Hm : Ascii.eqb (pretty_N_char d) "-" = false)
      by (apply (digit_char d); lia).
    rewrite Hm, Hn. reflexivity.
  - unfold pretty, pretty_positive, pretty, pretty_N.
    destruct (decide (N.pos p = 0%N)) as [H|_]; [discriminate |].
    rewrite !string_app_cons, string_app_nil_l.
    rewrite pretty_N_go_app, string_app_nil_l.
    cbn [Json.integer]. change (Ascii.eqb "-" "-") with true. cbv iota.
    rewrite (natural_pretty_go (N.pos p) R ltac:(lia) HR). reflexivity.
Qed.

Lemma json_space_digit (d : N) :
  (d < 10)%N -> Json.space (pretty_N_char d) = false
                /\ Ascii.eqb (pretty_N_char d) "034" = false.
Proof.
  intros H.
  assert (Hd : (d = 0 \/ d = 1 \/ d = 2 \/ d = 3 \/ d = 4 \/ d = 5 \/ d = 6
                \/ d = 7 \/ d = 8 \/ d = 9)%N) by lia.
  repeat (destruct Hd as [-> | Hd]; [split; reflexivity |]).
  subst. split; reflexivity.
Qed.

Lemma pretty_first (z : Z) :
  exists c r, pretty z = String c r /\ Json.space c = false
              /\ Ascii.eqb c "034" = false.
Proof.
  unfold pretty, pretty_Z. destruct z as [|p|p].
  - exists "0"%char, "". repeat split; reflexivity.
  - unfold pretty, pretty_positive, pretty, pretty_N.
    destruct (decide (N.pos p = 0%N)) as [H|_]; [discriminate |].
    destruct (pretty_go_first (N.pos p) "" ltac:(lia)) as (d & r & Hd & E).
    exists (pretty_N_char d), r. split; [exact E |].
    apply json_space_digit. lia.
  - exists "-"%char. eexists. split; [apply string_app_cons |].
    split; reflexivity.
Qed.

Lemma value_int (z : Z) (R : string) :
  Json.ends_number R = true ->
  Json.read_value (Json.skip (pretty z ++ R)) = Some (Json.int z, R).
Proof.
  intros HR. pose proof (integer_pretty z R HR) as Hi.
  destruct (pretty_first z) as (c & r & E & Hs & Hq).
  rewrite E in Hi |- *. rewrite string_app_cons in Hi |- *.
  cbn [Json.skip]. rewrite Hs. cbn [Json.read_value]. rewrite Hq, Hi.
  reflexivity.
Qed.

Lemma value_str (T s R : string) :
  Json.chars T = Some (s, R) ->
  Json.read_value (Json.skip (String "034" T)) = Some (Json.str s, R).
Proof.
  intros H. change (Json.skip (String "034" T)) with (String "034" T).
  cbn [Json.read_value]. change (Ascii.eqb "034" "034") with true.
  cbv iota. now rewrite H.
Qed.

(** A member written as the server writes it: the name in quotes, a
    colon, a blank, the value. *)
Lemma member_line (name V : string) (v : Json.value) (R : string) :
  (forall X, Json.chars (name ++ String "034" X) = Some (name, X)) ->
  Json.read_value (Json.skip V) = Some (v, R) ->
  Json.member (String "034" (name ++ String "034" (String ":" (String " " V))))
  = Some ((name, v), R).
Proof.
  intros Hname HV. cbn [Json.member].
  change (Ascii.eqb "034" "034") with true. cbv iota. rewrite Hname.
  change (Json.skip (String ":" (String " " V))) with (String ":" (String " " V)).
  cbv iota. change (Ascii.eqb ":" ":") with true. cbv iota.
  change (Json.skip (String " " V)) with (Json.skip V).
  now rewrite HV.
Qed.

Lemma members_cons (fuel : nat) (s r r1 rest : string)
  (m : string * Json.value) (l : Json.object) :
  Json.member s = Some (m, r) ->
  Json.skip r = String "," r1 ->
  Json.members fuel (Json.skip r1) = Some (l, rest) ->
  Json.members (S fuel) s = Some (m :: l, rest).
Proof.
  intros Hm Hr Hl. cbn [Json.members]. rewrite Hm, Hr.
  change (Ascii.eqb "," "}") with false. change (Ascii.eqb "," ",") with true.
  cbv iota. now rewrite Hl.
Qed.

Lemma members_last (fuel : nat) (s r r1 : string) (m : string * Json.value) :
  Json.member s = Some (m, r) ->
  Json.skip r = String "}" r1 ->
  Json.members (S fuel) s = Some ([m], r1).
Proof.
  intros Hm Hr. cbn [Json.members]. rewrite Hm, Hr.
  change (Ascii.eqb "}" "}") with true. reflexivity.
Qed.

Lemma members_more (fuel : nat) : forall (fuel' : nat) (s : string) x,
  (fuel <= fuel')%nat ->
  Json.members fuel s = Some x -> Json.members fuel' s = Some x.
Proof.
  induction fuel as [|fuel IH]; intros fuel' s x Hle; [discriminate |].
  destruct fuel' as [|fuel']; [lia |]. cbn [Json.members].
  destruct (Json.member s) as [[m r]|]; [| discriminate].
  destruct (Json.skip r) as [|c r1]; [discriminate |].
  destruct (Ascii.eqb c "}"); [auto |].
  destruct (Ascii.eqb c ","); [| discriminate].
  destruct (Json.members fuel (Json.skip r1)) as [[l rest]|] eqn:E;
    [| discriminate].
  rewrite (IH fuel' _ _ ltac:(lia) E). auto.
Qed.

Ltac flat := repeat rewrite ?string_app_cons, ?string_app_nil_l, ?string_app_assoc.

Lemma element_object (n : Z) (D st : string) (m : ascii) (p : Z) (R : string) :
  listable D = true ->
  (forall X, Json.chars (st ++ String "034" X) = Some (st, X)) ->
  (forall X, Json.chars (String m (String "034" X)) = Some (String m "", X)) ->
  Json.read_object
    (Wire.element (pretty n) (Main.escapeJsonString D) st (String m "")
       (pretty p) R)
  = Some ([ ("id", Json.int n); ("desc", Json.str D); ("status", Json.str st);
            ("mode", Json.str (String m "")); ("pid", Json.int p) ], R).
Proof.
  intros HD Hst Hm.
  unfold Wire.element, Client.quote, Main.nl. flat.
  cbn [Json.read_object]. change (Ascii.eqb "{" "{") with true. cbv iota.
  match goal with
  | |- context [Json.skip (String "010" (String " " (String " " (String " "
                  (String " " (String "034" ?X))))))] =>
      change (Json.skip (String "010" (String " " (String " " (String " "
                  (String " " (String "034" X)))))))
        with (String "034" X)
  end.
  cbv iota. change (Ascii.eqb "034" "}") with false. cbv iota.
  apply (members_more 5); [cbn [String.length]; lia |].
  eapply members_cons;
    [apply (member_line "id"); [intros; reflexivity | apply value_int; reflexivity]
    | reflexivity |].
  eapply members_cons;
    [apply (member_line "desc"); [intros; reflexivity |];
     apply value_str; apply (chars_escapeJsonString D _ HD)
    | reflexivity |].
  eapply members_cons;
    [apply (member_line "status"); [intros; reflexivity |];
     apply value_str; apply Hst
    | reflexivity |].
  eapply members_cons;
    [apply (member_line "mode"); [intros; reflexivity |];
     apply value_str; apply Hm
    | reflexivity |].
  eapply members_last;
    [apply (member_line "pid"); [intros; reflexivity | apply value_int; reflexivity]
    | reflexivity].
Qed.

Lemma elements_more (fuel : nat) : forall (fuel' : nat) (s : string) x,
  (fuel <= fuel')%nat ->
  Json.elements fuel s = Some x -> Json.elements fuel' s = Some x.
Proof.
  induction fuel as [|fuel IH]; intros fuel' s x Hle; [discriminate |].
  destruct fuel' as [|fuel']; [lia |]. cbn [Json.elements].
  destruct (Json.read_object s) as [[o r]|]; [| discriminate].
  destruct (Json.skip r) as [|c r1]; [discriminate |].
  destruct (Ascii.eqb c "]"); [auto |].
  destruct (Ascii.eqb c ","); [| discriminate].
  destruct (Json.elements fuel (Json.skip r1)) as [[l rest]|] eqn:E;
    [| discriminate].
  rewrite (IH fuel' _ _ ltac:(lia) E). auto.
Qed.

Lemma status_word_text (st : Main.STATUS) :
  Main.status_text st = status_word st.
Proof. destruct st; reflexivity. Qed.

(** ** The runtime invariant of ServiceManager-main *)

Lemma entry_ok_set_runtime st pid cmd :
  entry_ok cmd -> entry_ok (Main.set_runtime st pid cmd).
Proof. intros H. exact H. Qed.

Lemma runtime_ok_dead cmd : runtime_ok (Main.set_runtime Main.DEAD (-1) cmd).
Proof. left. split; reflexivity. Qed.

Lemma runtime_ok_running p cmd :
  runtime_ok (Main.set_runtime Main.RUNNING (Z.pos p) cmd).
Proof. right. split; [reflexivity | simpl; lia]. Qed.

Lemma well_formed_insert g i cmd cmd' :
  well_formed g -> g !! i = Some cmd ->
  entry_ok cmd' -> runtime_ok cmd' ->
  well_formed (<[i := cmd']> g).
Proof.
  intros [Hall Hlen] Hi He Hr. split.
  - apply Forall_insert; [exact Hall | split; assumption].
  - now rewrite length_insert.
Qed.

Lemma well_formed_lookup g i cmd :
  well_formed g -> g !! i = Some cmd -> entry_ok cmd /\ runtime_ok cmd.
Proof.
  intros [Hall _] Hi. rewrite Forall_lookup in Hall. exact (Hall i cmd Hi).
Qed.

Lemma start_well_formed os g index :
  well_formed g -> well_formed (after (Main.start os g index)).
Proof.
  intros Hwf. unfold Main.start, after.
  destruct (length g <=? index)%nat; [exact Hwf |].
  destruct (g !! index) as [cmd|] eqn:Hi; [| exact Hwf].
  destruct (Main.STATUS_eqb (Main.Status cmd) Main.RUNNING && (0 <? Main.Pid cmd)%Z);
    [exact Hwf |].
  destruct (Main.is_empty (Main.Path cmd)); [exact Hwf |].
  destruct (OS.fork_answer os) as [|p]; [exact Hwf |]. simpl.
  destruct (well_formed_lookup g index cmd Hwf Hi) as [He _].
  eapply well_formed_insert; eauto using runtime_ok_running.
Qed.

Lemma kill_well_formed os g index force :
  well_formed g -> well_formed (after (Main.kill os g index force)).
Proof.
  intros Hwf. unfold Main.kill, after.
  destruct (length g <=? index)%nat; [exact Hwf |].
  destruct (g !! index) as [cmd|] eqn:Hi; [| exact Hwf].
  destruct (well_formed_lookup g index cmd Hwf Hi) as [He _].
  destruct (negb (Main.STATUS_eqb (Main.Status cmd) Main.RUNNING)
            || (Main.Pid cmd <=? 0)%Z); [exact Hwf |].
  destruct (Ascii.eqb (Main.Mode cmd) "C").
  - destruct (OS.kill_answer os =? 0)%Z; [| exact Hwf]. simpl.
    eapply well_formed_insert; eauto using runtime_ok_dead.
  - destruct (Ascii.eqb (Main.Mode cmd) "D"); [| exact Hwf].
    destruct (OS.fork_answer os) as [|child]; [exact Hwf |].
    destruct (OS.WIFEXITED (OS.wait_answer os)
              && (OS.WEXITSTATUS (OS.wait_answer os) =? 0)%Z); [| exact Hwf].
    simpl. eapply well_formed_insert; eauto using runtime_ok_dead.
Qed.

Lemma control_well_formed os req g :
  well_formed g -> well_formed (after (Main.process_control os req g)).
Proof.
  intros Hwf. unfold Main.process_control.
  destruct (negb (Http.has_param req "fn") || negb (Http.has_param req "id"));
    [exact Hwf |].
  destruct (Cxx.stoi (Http.get_param_value req "id")) as [id| |];
    [| exact Hwf | exact Hwf].
  destruct ((id <? 0)%Z
            || (Cxx.static_cast_int (Z.of_nat (length g)) <=? id)%Z);
    [exact Hwf |].
  destruct (String.eqb (Http.get_param_value req "fn") "start").
  { destruct (Main.STATUS_eqb _ _); [exact Hwf |].
    pose proof (start_well_formed os g (Z.to_nat id) Hwf) as Hs.
    destruct (Main.start os g (Z.to_nat id)) as [[pid g'] evs].
    destruct (0 <? pid)%Z; exact Hs. }
  destruct (String.eqb (Http.get_param_value req "fn") "kill"
            || String.eqb (Http.get_param_value req "fn") "end"
            || String.eqb (Http.get_param_value req "fn") "stop").
  { pose proof (kill_well_formed os g (Z.to_nat id)
                  (String.eqb (Http.get_param_value req "fn") "kill") Hwf) as Hk.
    destruct (Main.kill os g (Z.to_nat id) _) as [[ok g'] evs].
    destruct ok; exact Hk. }
  destruct (String.eqb (Http.get_param_value req "fn") "status"); exact Hwf.
Qed.

(** ** Loading the configuration *)

Lemma load_entries_spec n : forall file acc,
  match raw_entries n file with
  | Some l =>
      if forallb entry_okb l
      then Main.load_entries n file acc = (true, (acc ++ l)%list)
      else fst (Main.load_entries n file acc) = false
  | None => fst (Main.load_entries n file acc) = false
  end.
Proof.
  induction n as [|n IH]; intros file acc.
  - simpl. now rewrite app_nil_r.
  - simpl.
    destruct (IStream.getline file) as [desc f1].
    destruct (IStream.fail f1); [reflexivity |].
    destruct (IStream.read_char f1) as [mode f2].
    destruct (IStream.fail f2); [reflexivity |].
    destruct (IStream.getline (IStream.ignore_line f2)) as [path f3].
    destruct (IStream.getline f3) as [folder f4].
    set (cmd := Main.mk_command _ _ _ _ _ _).
    pose proof (IH f4 (acc ++ [cmd])%list) as IH4.
    destruct (Ascii.eqb (default "C"%char mode) "C") eqn:HC;
      destruct (Ascii.eqb (default "C"%char mode) "D") eqn:HD;
      destruct (IStream.fail f3); try reflexivity;
      destruct (IStream.fail f4); try reflexivity;
      destruct (raw_entries n f4) as [l|]; try reflexivity;
      cbn [forallb];
      assert (Hok : entry_okb cmd
                    = (Ascii.eqb (default "C"%char mode) "C"
                       || Ascii.eqb (default "C"%char mode) "D")
                      && negb (Main.is_empty (default "" desc))
                      && negb (Main.is_empty (default "" path))) by reflexivity;
      rewrite ?Hok, ?HC, ?HD; cbn [orb andb negb];
      destruct (Main.is_empty (default "" desc));
      destruct (Main.is_empty (default "" path)); cbn [orb andb negb];
      try reflexivity;
      try (destruct (forallb entry_okb l);
           [rewrite IH4, <- app_assoc; reflexivity | exact IH4]);
      try (destruct (forallb entry_okb l); reflexivity);
      try exact IH4.
Qed.

Lemma raw_entries_length n : forall file l,
  raw_entries n file = Some l -> length l = n.
Proof.
  induction n as [|n IH]; intros file l; simpl.
  - intros [= <-]. reflexivity.
  - destruct (IStream.getline file) as [desc f1].
    destruct (IStream.fail f1); [discriminate |].
    destruct (IStream.read_char f1) as [mode f2].
    destruct (IStream.fail f2); [discriminate |].
    destruct (IStream.getline (IStream.ignore_line f2)) as [path f3].
    destruct (IStream.fail f3); [discriminate |].
    destruct (IStream.getline f3) as [folder f4].
    destruct (IStream.fail f4); [discriminate |].
    destruct (raw_entries n f4) as [l'|] eqn:Hraw; [| discriminate].
    intros [= <-]. simpl. f_equal. eauto.
Qed.

Lemma raw_entries_dead n : forall file l,
  raw_entries n file = Some l -> Main.ProcessRunner l = l.
Proof.
  induction n as [|n IH]; intros file l; simpl.
  - intros [= <-]. reflexivity.
  - destruct (IStream.getline file) as [desc f1].
    destruct (IStream.fail f1); [discriminate |].
    destruct (IStream.read_char f1) as [mode f2].
    destruct (IStream.fail f2); [discriminate |].
    destruct (IStream.getline (IStream.ignore_line f2)) as [path f3].
    destruct (IStream.fail f3); [discriminate |].
    destruct (IStream.getline f3) as [folder f4].
    destruct (IStream.fail f4); [discriminate |].
    destruct (raw_entries n f4) as [l'|] eqn:Hraw; [| discriminate].
    intros [= <-]. unfold Main.ProcessRunner in *. simpl. f_equal. eauto.
Qed.

(** A count that was read fits an [int]. *)
Lemma raw_count_range content n :
  raw_count content = Some n -> (Cxx.INT_MIN <= n <= Cxx.INT_MAX)%Z.
Proof.
  unfold raw_count, IStream.read_int.
  destruct (IStream.sentry false (IStream.open content)) as [ok s1].
  destruct ok.
  - destruct (Cxx.read_sign (IStream.rest s1)) as [neg r1].
    destruct (Cxx.read_digits 0 false r1) as [[v seen] r2].
    destruct seen; [| discriminate].
    destruct (Z.ltb_spec (if neg then (- v)%Z else v) Cxx.INT_MIN);
      [discriminate |].
    destruct (Z.ltb_spec Cxx.INT_MAX (if neg then (- v)%Z else v));
      [discriminate |].
    simpl. intros [= <-]. lia.
  - destruct (IStream.fail s1); discriminate.
Qed.

Lemma loadConfiguration_unfold room content :
  Main.loadConfiguration room (Some content)
  = match raw_count content with
    | None => Some (false, [])
    | Some n =>
        if (n <? 0)%Z then Some (false, [])
        else if (0 <? n)%Z && negb (room (Z.to_nat n)) then None
        else Some (Main.load_entries (Z.to_nat n) (after_count content) [])
    end.
Proof.
  unfold Main.loadConfiguration, raw_count, after_count.
  destruct (IStream.read_int (IStream.open content)) as [n file]. simpl.
  destruct n as [n|]; destruct (IStream.fail file); reflexivity.
Qed.

Lemma forallb_false_lookup {A : Type} (p : A -> bool) (l : list A) :
  forallb p l = false <-> exists i x, l !! i = Some x /\ p x = false.
Proof.
  induction l as [|a l IH]; simpl.
  - split; [discriminate | intros (i & x & Hi & _); destruct i; discriminate].
  - rewrite andb_false_iff, IH. split.
    + intros [Ha | (i & x & Hi & Hx)].
      * exists 0%nat, a. split; [reflexivity | exact Ha].
      * exists (S i), x. split; assumption.
    + intros (i & x & Hi & Hx). destruct i as [|i].
      * left. injection Hi as ->. exact Hx.
      * right. exists i, x. split; assumption.
Qed.

Lemma entry_okb_ok cmd : entry_okb cmd = true -> entry_ok cmd.
Proof.
  unfold entry_okb, entry_ok.
  rewrite !andb_true_iff, orb_true_iff, !negb_true_iff, !Ascii.eqb_eq. tauto.
Qed.

(** What [main] does with every configuration text. *)
Lemma main_cases room content :
  match raw_count content with
  | None => Main.main room (Some content) = Main.exits 1
  | Some n =>
      if (n <? 0)%Z then Main.main room (Some content) = Main.exits 1
      else if (0 <? n)%Z && negb (room (Z.to_nat n))
      then Main.main room (Some content) = Main.aborts
      else
        match raw_entries (Z.to_nat n) (after_count content) with
        | None => Main.main room (Some content) = Main.exits 1
        | Some l =>
            if forallb entry_okb l
            then Main.main room (Some content) = Main.serves l
            else Main.main room (Some content) = Main.exits 1
        end
  end.
Proof.
  unfold Main.main. rewrite loadConfiguration_unfold.
  destruct (raw_count content) as [n|]; [| reflexivity].
  destruct (n <? 0)%Z; [reflexivity |].
  destruct ((0 <? n)%Z && negb (room (Z.to_nat n))); [reflexivity |].
  pose proof (load_entries_spec (Z.to_nat n) (after_count content) []) as H.
  destruct (raw_entries (Z.to_nat n) (after_count content)) as [l|] eqn:Hraw.
  - destruct (forallb entry_okb l).
    + rewrite H. simpl. now rewrite (raw_entries_dead _ _ _ Hraw).
    + destruct (Main.load_entries _ _ _) as [ok g]. simpl in H. now subst ok.
  - destruct (Main.load_entries _ _ _) as [ok g]. simpl in H. now subst ok.
Qed.

Lemma main_serves_entries room content g :
  Main.main room (Some content) = Main.serves g ->
  exists n, raw_count content = Some n /\ (0 <= n)%Z
    /\ raw_entries (Z.to_nat n) (after_count content) = Some g
    /\ forallb entry_okb g = true.
Proof.
  pose proof (main_cases room content) as H.
  destruct (raw_count content) as [n|]; [| congruence].
  destruct (Z.ltb_spec n 0); [congruence |].
  destruct ((0 <? n)%Z && negb (room (Z.to_nat n))); [congruence |].
  destruct (raw_entries (Z.to_nat n) (after_count content)) as [l|] eqn:Hraw;
    [| congruence].
  destruct (forallb entry_okb l) eqn:Hall; [| congruence].
  rewrite H. intros [= <-]. exists n. repeat split; auto.
Qed.

Lemma main_serves_well_formed room config g :
  Main.main room config = Main.serves g -> well_formed g.
Proof.
  destruct config as [content|]; [| discriminate].
  intros H. pose proof (main_serves_entries room content g H)
    as (n & Hn & Hpos & Hraw & Hall).
  split.
  - rewrite Forall_lookup. intros i cmd Hi. split.
    + apply entry_okb_ok. rewrite forallb_forall in Hall. apply Hall.
      apply list_elem_of_In. eapply list_elem_of_lookup_2; eauto.
    + rewrite <- (raw_entries_dead _ _ _ Hraw) in Hi.
      unfold Main.ProcessRunner in Hi. rewrite list_lookup_fmap in Hi.
      destruct (g !! i); [| discriminate]. injection Hi as <-.
      apply runtime_ok_dead.
  - rewrite (raw_entries_length _ _ _ Hraw).
    pose proof (raw_count_range content n Hn). lia.
Qed.

Lemma reachable_well_formed g : reachable g -> well_formed g.
Proof.
  induction 1 as [room config g Hm | os i g _ IH | os i force g _ IH
                  | os req g _ IH].
  - eauto using main_serves_well_formed.
  - now apply start_well_formed.
  - now apply kill_well_formed.
  - now apply control_well_formed.
Qed.

(** ** The supervisor at and beyond the end of the registry *)

(** C10: for every index greater than or equal to the number of
    configured workloads, [start] returns -1, [kill] returns false and
    [getPid] returns -1; the registry is returned as it was and no
    system call is made, whatever the entries hold and whatever the
    system would have answered. *)
Theorem supervisor_beyond_registry
  (os : OS.oracle) (g : list Main.command) (index : nat) (force : bool) :
  (length g <= index)%nat ->
  Main.start os g index = ((-1)%Z, g, [])
  /\ Main.kill os g index force = (false, g, [])
  /\ Main.getPid g index = (-1)%Z.
Proof.
  intros Hge. unfold Main.start, Main.kill, Main.getPid.
  rewrite (lookup_out_of_range g index Hge). auto.
Qed.

Lemma supervisor_beyond_registry_witness :
  (length Sample.running <= 2)%nat
  /\ Main.start Sample.os_ok Sample.running 2 = ((-1)%Z, Sample.running, [])
  /\ Main.kill Sample.os_ok Sample.running 2 true = (false, Sample.running, [])
  /\ Main.getPid Sample.running 2 = (-1)%Z.
Proof.
  assert (H : (length Sample.running <= 2)%nat) by (vm_compute; lia).
  split; [exact H |].
  exact (supervisor_beyond_registry Sample.os_ok Sample.running 2 true H).
Defined.

(** ** Requests that reach the dispatch *)

Lemma in_range {A : Type} (g : list A) (index : nat) (x : A) :
  g !! index = Some x -> (Z.of_nat (length g) <= Cxx.INT_MAX)%Z ->
  (Z.of_nat index <? 0)%Z
  || (Cxx.static_cast_int (Z.of_nat (length g)) <=? Z.of_nat index)%Z = false.
Proof.
  intros Hi Hlen. rewrite static_cast_int_small by exact Hlen.
  apply lookup_lt_Some in Hi.
  apply orb_false_iff. split; [apply Z.ltb_ge | apply Z.leb_gt]; lia.
Qed.

Lemma out_of_range {A : Type} (g : list A) (id : Z) :
  (Z.of_nat (length g) <= Cxx.INT_MAX)%Z ->
  (id < 0 \/ Z.of_nat (length g) <= id)%Z ->
  (id <? 0)%Z || (Cxx.static_cast_int (Z.of_nat (length g)) <=? id)%Z = true.
Proof.
  intros Hlen H. rewrite static_cast_int_small by exact Hlen.
  apply orb_true_iff. destruct H; [left; apply Z.ltb_lt | right; apply Z.leb_le]; lia.
Qed.

Lemma STATUS_eqb_eq a b : Main.STATUS_eqb a b = true <-> a = b.
Proof. destruct a, b; simpl; split; congruence. Qed.

Lemma respond_unset text ty : Http.answered (Main.respond None text ty) = 200%Z.
Proof. reflexivity. Qed.

Lemma legacy_respond_unset text ty :
  Http.answered (Legacy.respond None text ty) = 200%Z.
Proof. reflexivity. Qed.

(** Unfolds the control handler of ServiceManager-main on a request
    that names an entry of the registry. *)
Ltac enter_control Hasks Hlen Hi :=
  unfold Main.process_control;
  let Hf := fresh "Hf" in
  let Hd := fresh "Hd" in
  let Hfn := fresh "Hfn" in
  let Hst := fresh "Hst" in
  destruct Hasks as (Hf & Hd & Hfn & Hst);
  rewrite Hf, Hd, Hfn, Hst; cbn [negb orb];
  rewrite (in_range _ _ _ Hi Hlen), Nat2Z.id, Hi; cbn [from_option id].

Ltac enter_legacy_control Hasks Hlen Hi :=
  unfold Legacy.process_control;
  let Hf := fresh "Hf" in
  let Hd := fresh "Hd" in
  let Hfn := fresh "Hfn" in
  let Hst := fresh "Hst" in
  destruct Hasks as (Hf & Hd & Hfn & Hst);
  rewrite Hf, Hd, Hfn, Hst; cbn [negb orb];
  rewrite (in_range _ _ _ Hi Hlen), Nat2Z.id, Hi.

(** ** Starting what already runs *)

Lemma start_running (os : OS.oracle) (g : list Main.command) (index : nat)
  (cmd : Main.command) :
  g !! index = Some cmd ->
  Main.Status cmd = Main.RUNNING -> (0 < Main.Pid cmd)%Z ->
  Main.start os g index = (Main.Pid cmd, g, []).
Proof.
  intros Hi Hs Hp. unfold Main.start.
  rewrite (lookup_in_range g index cmd Hi), Hi, Hs.
  apply Z.ltb_lt in Hp. now rewrite Hp.
Qed.

Lemma reachable_running_pid g index cmd :
  reachable g -> g !! index = Some cmd ->
  Main.Status cmd = Main.RUNNING -> (0 < Main.Pid cmd)%Z.
Proof.
  intros Hr Hi Hs.
  destruct (well_formed_lookup g index cmd (reachable_well_formed g Hr) Hi)
    as [_ [[Hd _] | [_ Hp]]]; [congruence | exact Hp].
Qed.

Lemma reachable_dead_pid g index cmd :
  reachable g -> g !! index = Some cmd ->
  Main.Status cmd = Main.DEAD -> Main.Pid cmd = (-1)%Z.
Proof.
  intros Hr Hi Hs.
  destruct (well_formed_lookup g index cmd (reachable_well_formed g Hr) Hi)
    as [_ [[_ Hp] | [Hd _]]]; [exact Hp | congruence].
Qed.

(** In ServiceManager-main a second [start] of a running workload
    returns the recorded pid, leaves the registry as it was and forks
    nothing; the control handler answers [fn=start] with 200 without
    calling the supervisor. *)
Theorem main_start_idempotent
  (os : OS.oracle) (req : Http.Request) (g : list Main.command) (index : nat)
  (cmd : Main.command) :
  reachable g -> g !! index = Some cmd -> Main.Status cmd = Main.RUNNING ->
  asks req "start" (Z.of_nat index) ->
  Main.start os g index = (Main.Pid cmd, g, [])
  /\ Main.getPid (after (Main.start os g index)) index = Main.Pid cmd
  /\ after (Main.process_control os req g) = g
  /\ events (Main.process_control os req g) = []
  /\ Http.answered (result (Main.process_control os req g)) = 200%Z.
Proof.
  intros Hr Hi Hs Hasks.
  pose proof (reachable_running_pid g index cmd Hr Hi Hs) as Hp.
  pose proof (reachable_well_formed g Hr) as [_ Hlen].
  rewrite (start_running os g index cmd Hi Hs Hp).
  split; [reflexivity |]. split.
  { unfold after, Main.getPid. simpl.
    now rewrite (lookup_in_range g index cmd Hi), Hi. }
  enter_control Hasks Hlen Hi. rewrite Hs. simpl. auto.
Qed.

(** The earlier revision guards [start] in the handler only, and the
    guard falls through to the branch for unknown functions. *)
Lemma legacy_start_on_running
  (os : OS.oracle) (req : Http.Request) (c : list Legacy.command) (index : nat)
  (cmd : Legacy.command) :
  (Z.of_nat (length c) <= Cxx.INT_MAX)%Z ->
  c !! index = Some cmd -> Legacy.Status cmd = Legacy.RUNNING ->
  asks req "start" (Z.of_nat index) ->
  Legacy.process_control os req c
  = (Legacy.respond (Some 400%Z) "Unknown fn value" "text/plain", c, []).
Proof.
  intros Hlen Hi Hs Hasks. enter_legacy_control Hasks Hlen Hi.
  rewrite Hs. reflexivity.
Qed.

(** [Legacy.start] itself never looks at the status: called on a
    running entry it forks again and overwrites the recorded pid. *)
Lemma legacy_start_forks_again
  (os : OS.oracle) (c : list Legacy.command) (index : nat)
  (cmd : Legacy.command) (p : positive) :
  c !! index = Some cmd -> Legacy.is_empty (Legacy.Path cmd) = false ->
  OS.fork_answer os = OS.fork_child p ->
  Legacy.start os c index
  = (Z.pos p, <[index := Legacy.set_started (Z.pos p) cmd]> c,
     [OS.ev_fork (Legacy.start_child cmd) (Z.pos p)]).
Proof.
  intros Hi Hp Hf. unfold Legacy.start.
  now rewrite (lookup_in_range c index cmd Hi), Hi, Hp, Hf.
Qed.

(** C1, on the earlier revision: the first [fn=start&id=0] starts the
    workload and is answered 200; the second one, sent while the
    workload is RUNNING, is answered 400 "Unknown fn value".  Nothing is
    forked and the registry is unchanged, but the answer is an error. *)
Theorem legacy_second_start_is_rejected :
  let first := Legacy.process_control Sample.os_ok
                 (Sample.request "start" "0") Sample.legacy_registry in
  let second := Legacy.process_control Sample.os_ok
                  (Sample.request "start" "0") (legacy_after first) in
  Http.answered (legacy_result first) = 200%Z
  /\ Legacy.Status <$> legacy_after first !! 0%nat = Some Legacy.RUNNING
  /\ Legacy.Pid <$> legacy_after first !! 0%nat = Some 4242%Z
  /\ Http.answered (legacy_result second) = 400%Z
  /\ Http.body (legacy_result second) = "Unknown fn value"
  /\ legacy_after second = legacy_after first
  /\ legacy_events second = [].
Proof. vm_compute. repeat split; reflexivity. Qed.

(** ** Stopping what does not run *)

(** In ServiceManager-main [kill] of a workload that is not running
    returns false, leaves the registry as it was and makes no system
    call; the control handler answers [stop] and [kill] with 500 and
    changes nothing. *)
Theorem main_stop_not_running
  (os : OS.oracle) (req : Http.Request) (g : list Main.command) (index : nat)
  (cmd : Main.command) (force : bool) (fn : string) :
  reachable g -> g !! index = Some cmd -> Main.Status cmd = Main.DEAD ->
  fn = "stop" \/ fn = "kill" -> asks req fn (Z.of_nat index) ->
  Main.kill os g index force = (false, g, [])
  /\ Main.process_control os req g
     = (Main.respond (Some 500%Z) "Failed to terminate process" "text/plain",
        g, []).
Proof.
  intros Hr Hi Hs Hfn Hasks.
  pose proof (reachable_well_formed g Hr) as [_ Hlen].
  assert (Hk : forall force, Main.kill os g index force = (false, g, [])).
  { intros f. unfold Main.kill.
    now rewrite (lookup_in_range g index cmd Hi), Hi, Hs. }
  split; [apply Hk |].
  enter_control Hasks Hlen Hi. rewrite Hk.
  destruct Hfn as [-> | ->]; reflexivity.
Qed.

(** C4, on the earlier revision: [kill] tests the recorded pid, which it
    never resets, and not the status.  After [start] and [kill] the
    workload is DEAD with the old pid still recorded; a further [kill]
    signals that pid again and is answered 200 "Killed". *)
Theorem legacy_stop_of_dead_workload_signals :
  let started := legacy_after (Legacy.process_control Sample.os_ok
                   (Sample.request "start" "0") Sample.legacy_registry) in
  let stopped := legacy_after (Legacy.process_control Sample.os_ok
                   (Sample.request "kill" "0") started) in
  let again := Legacy.process_control Sample.os_ok
                 (Sample.request "kill" "0") stopped in
  Legacy.Status <$> stopped !! 0%nat = Some Legacy.DEAD
  /\ Legacy.Pid <$> stopped !! 0%nat = Some 4242%Z
  /\ Legacy.kill Sample.os_ok stopped 0 true
     = (true, stopped, [OS.ev_kill 4242 OS.SIGKILL 0])
  /\ Http.answered (legacy_result again) = 200%Z
  /\ Http.body (legacy_result again) = "Killed"
  /\ legacy_events again = [OS.ev_kill 4242 OS.SIGKILL 0].
Proof. vm_compute. repeat split; reflexivity. Qed.

(** ** Sample registries are reachable *)

Lemma sample_registry_reachable : reachable Sample.registry.
Proof. apply (reach_boot Sample.room (Some Sample.config)). reflexivity. Qed.

Lemma sample_running_reachable : reachable Sample.running.
Proof.
  unfold Sample.running.
  apply reach_start, reach_start, sample_registry_reachable.
Qed.

(** ** A failing fork *)

(** C5: when [fork] fails during [start] of a dead workload, [start]
    returns -1, no process is created and the registry is returned as it
    was, so the workload is still DEAD and its pid field is not written
    (it is -1 in ServiceManager-main); the control handler answers 500.
    Both revisions agree. *)
Theorem start_fork_failure
  (os : OS.oracle) (index : nat) (req : Http.Request) :
  OS.fork_answer os = OS.fork_failed ->
  asks req "start" (Z.of_nat index) ->
  (forall (g : list Main.command) (cmd : Main.command),
     reachable g -> g !! index = Some cmd -> Main.Status cmd = Main.DEAD ->
     result (Main.start os g index) = (-1)%Z
     /\ after (Main.start os g index) = g
     /\ OS.children (events (Main.start os g index)) = []
     /\ Main.getPid (after (Main.start os g index)) index = (-1)%Z
     /\ Http.answered (result (Main.process_control os req g)) = 500%Z
     /\ after (Main.process_control os req g) = g
     /\ OS.children (events (Main.process_control os req g)) = [])
  /\ (forall (c : list Legacy.command) (cmd : Legacy.command),
        (Z.of_nat (length c) <= Cxx.INT_MAX)%Z ->
        c !! index = Some cmd -> Legacy.Status cmd = Legacy.DEAD ->
        legacy_result (Legacy.start os c index) = (-1)%Z
        /\ legacy_after (Legacy.start os c index) = c
        /\ OS.children (legacy_events (Legacy.start os c index)) = []
        /\ Http.answered (legacy_result (Legacy.process_control os req c)) = 500%Z
        /\ legacy_after (Legacy.process_control os req c) = c
        /\ OS.children (legacy_events (Legacy.process_control os req c)) = []).
Proof.
  intros Hfork Hasks. split.
  - intros g cmd Hr Hi Hs.
    pose proof (reachable_well_formed g Hr) as [_ Hlen].
    pose proof (reachable_dead_pid g index cmd Hr Hi Hs) as Hpid.
    assert (Hstart : exists evs, Main.start os g index = ((-1)%Z, g, evs)
                                 /\ OS.children evs = []).
    { unfold Main.start.
      rewrite (lookup_in_range g index cmd Hi), Hi, Hs, Hfork. simpl.
      destruct (Main.is_empty (Main.Path cmd)); eexists; split; reflexivity. }
    destruct Hstart as (evs & Hstart & Hnone).
    assert (Hget : Main.getPid g index = (-1)%Z).
    { unfold Main.getPid. now rewrite (lookup_in_range g index cmd Hi), Hi. }
    enter_control Hasks Hlen Hi. rewrite Hs, Hstart. simpl.
    repeat split; auto.
  - intros c cmd Hlen Hi Hs.
    assert (Hstart : exists evs, Legacy.start os c index = ((-1)%Z, c, evs)
                                 /\ OS.children evs = []).
    { unfold Legacy.start.
      rewrite (lookup_in_range c index cmd Hi), Hi, Hfork.
      destruct (Legacy.is_empty (Legacy.Path cmd)); eexists; split; reflexivity. }
    destruct Hstart as (evs & Hstart & Hnone).
    enter_legacy_control Hasks Hlen Hi. rewrite Hs, Hstart. simpl.
    repeat split; auto.
Qed.

Lemma start_fork_failure_witness :
  result (Main.start Sample.os_down Sample.registry 0) = (-1)%Z
  /\ after (Main.start Sample.os_down Sample.registry 0) = Sample.registry
  /\ Http.answered
       (result (Main.process_control Sample.os_down
                  (Sample.request "start" "0") Sample.registry)) = 500%Z
  /\ legacy_result (Legacy.start Sample.os_down Sample.legacy_registry 0) = (-1)%Z
  /\ Http.answered
       (legacy_result (Legacy.process_control Sample.os_down
                         (Sample.request "start" "0") Sample.legacy_registry))
     = 500%Z.
Proof.
  assert (Hasks : asks (Sample.request "start" "0") "start" (Z.of_nat 0))
    by (repeat split; reflexivity).
  destruct (start_fork_failure Sample.os_down 0 (Sample.request "start" "0")
              eq_refl Hasks) as [HM HL].
  destruct (HM Sample.registry Sample.echo sample_registry_reachable
              eq_refl eq_refl) as (H1 & H2 & _ & _ & H5 & _).
  assert (Hlen : (Z.of_nat (length Sample.legacy_registry) <= Cxx.INT_MAX)%Z)
    by (vm_compute; discriminate).
  destruct (HL Sample.legacy_registry
              (Legacy.mk_command "echo" "sleep 5" "C" "." Legacy.DEAD 0)
              Hlen eq_refl eq_refl) as (L1 & _ & _ & L4 & _).
  repeat split; assumption.
Defined.

(** ** Reading the status *)

Lemma status_body_object (id : Z) (cmd : Main.command) :
  listable (Main.Desc cmd) = true ->
  Json.object_of (Main.status_body id cmd) = Some (status_row id cmd).
Proof.
  intros HD. unfold Json.object_of, Json.whole, Main.status_body, status_row,
    Main.quote, Main.nl, Cxx.to_string.
  rewrite status_word_text. flat.
  change (Json.skip (String "{" ?X)) with (String "{" X).
  cbn [Json.read_object]. change (Ascii.eqb "{" "{") with true. cbv iota.
  match goal with
  | |- context [Json.skip (String "010" (String " " (String " "
                  (String "034" ?X))))] =>
      change (Json.skip (String "010" (String " " (String " "
                  (String "034" X)))))
        with (String "034" X)
  end.
  cbv iota. change (Ascii.eqb "034" "}") with false. cbv iota.
  match goal with
  | |- context [Json.members ?f ?s] =>
      assert (H : Json.members f s
                  = Some ([ ("id", Json.int id);
                            ("desc", Json.str (Main.Desc cmd));
                            ("status", Json.str (status_word (Main.Status cmd)));
                            ("pid", Json.int (Main.Pid cmd)) ], ""))
  end.
  { apply (members_more 4); [cbn [String.length]; lia |].
    eapply members_cons;
      [apply (member_line "id");
         [intros; reflexivity | apply value_int; reflexivity]
      | reflexivity |].
    eapply members_cons;
      [apply (member_line "desc"); [intros; reflexivity |];
       apply value_str; apply (chars_escapeJsonString _ _ HD)
      | reflexivity |].
    eapply members_cons;
      [apply (member_line "status"); [intros; reflexivity |];
       apply value_str; destruct (Main.Status cmd); reflexivity
      | reflexivity |].
    eapply members_last;
      [apply (member_line "pid");
         [intros; reflexivity | apply value_int; reflexivity]
      | reflexivity]. }
  rewrite H. reflexivity.
Qed.

Lemma status_body_text (id : Z) (cmd : Main.command) :
  let q := Json.quote in
  Main.status_body id cmd
  = "{" ++ Json.nl
    ++ "  " ++ q ++ "id" ++ q ++ ": " ++ pretty id ++ "," ++ Json.nl
    ++ "  " ++ q ++ "desc" ++ q ++ ": " ++ q
         ++ Main.escapeJsonString (Main.Desc cmd) ++ q ++ "," ++ Json.nl
    ++ "  " ++ q ++ "status" ++ q ++ ": " ++ q
         ++ status_word (Main.Status cmd) ++ q ++ "," ++ Json.nl
    ++ "  " ++ q ++ "pid" ++ q ++ ": " ++ pretty (Main.Pid cmd) ++ Json.nl
    ++ "}".
Proof.
  unfold Main.status_body. rewrite status_word_text. reflexivity.
Qed.

(** C9: [fn=status] on a valid id is answered 200 with the recorded
    status: in ServiceManager-main a JSON object whose text gives the
    id, a description, the word RUNNING or DEAD of the recorded status
    and the recorded pid (and which, when the description holds no
    control character other than \b \f \n \r \t, reads as the object of
    id, description, status and pid); in the earlier revision the text 1
    for a running workload and 0 for a dead one.  The registry is
    returned as it was, no system call is made, and the answer does not
    depend on what the operating system would have replied. *)
Theorem status_is_a_pure_read
  (os : OS.oracle) (req : Http.Request) (index : nat) :
  asks req "status" (Z.of_nat index) ->
  (forall (g : list Main.command) (cmd : Main.command),
     (Z.of_nat (length g) <= Cxx.INT_MAX)%Z -> g !! index = Some cmd ->
     let answer := result (Main.process_control os req g) in
     let q := Json.quote in
     Http.answered answer = 200%Z
     /\ Http.content_type answer = "application/json"
     /\ (exists desc : string,
           Http.body answer
           = "{" ++ Json.nl
             ++ "  " ++ q ++ "id" ++ q ++ ": " ++ pretty (Z.of_nat index)
                  ++ "," ++ Json.nl
             ++ "  " ++ q ++ "desc" ++ q ++ ": " ++ q ++ desc ++ q
                  ++ "," ++ Json.nl
             ++ "  " ++ q ++ "status" ++ q ++ ": " ++ q
                  ++ status_word (Main.Status cmd) ++ q ++ "," ++ Json.nl
             ++ "  " ++ q ++ "pid" ++ q ++ ": " ++ pretty (Main.Pid cmd)
                  ++ Json.nl
             ++ "}")
     /\ (listable (Main.Desc cmd) = true ->
         Json.object_of (Http.body answer)
         = Some [ ("id", Json.int (Z.of_nat index));
                  ("desc", Json.str (Main.Desc cmd));
                  ("status", Json.str (status_word (Main.Status cmd)));
                  ("pid", Json.int (Main.Pid cmd)) ])
     /\ after (Main.process_control os req g) = g
     /\ events (Main.process_control os req g) = [])
  /\ (forall (c : list Legacy.command) (cmd : Legacy.command),
        (Z.of_nat (length c) <= Cxx.INT_MAX)%Z -> c !! index = Some cmd ->
        let answer := legacy_result (Legacy.process_control os req c) in
        Http.answered answer = 200%Z
        /\ Http.content_type answer = "text/plain"
        /\ Http.body answer
           = match Legacy.Status cmd with
             | Legacy.RUNNING => "1"
             | Legacy.DEAD => "0"
             end
        /\ legacy_after (Legacy.process_control os req c) = c
        /\ legacy_events (Legacy.process_control os req c) = []).
Proof.
  intros Hasks. split.
  - intros g cmd Hlen Hi. enter_control Hasks Hlen Hi.
    cbn [result after events fst snd Main.respond Http.set_content
         Http.answered Http.status Http.body Http.content_type Http.fresh
         Z.eqb Pos.eqb].
    refine (conj eq_refl (conj eq_refl (conj _ (conj _ (conj eq_refl eq_refl))))).
    + exists (Main.escapeJsonString (Main.Desc cmd)). apply status_body_text.
    + intros HD. exact (status_body_object (Z.of_nat index) cmd HD).
  - intros c cmd Hlen Hi. enter_legacy_control Hasks Hlen Hi.
    cbn [legacy_result legacy_after legacy_events fst snd Legacy.respond
         Http.set_content Http.answered Http.status Http.body
         Http.content_type Http.fresh Z.eqb Pos.eqb].
    refine (conj eq_refl (conj eq_refl (conj _ (conj eq_refl eq_refl)))).
    destruct (Legacy.Status cmd); reflexivity.
Qed.

Lemma status_is_a_pure_read_witness :
  Json.object_of
    (Http.body (result (Main.process_control Sample.os_down
                          (Sample.request "status" "1") Sample.running)))
  = Some [ ("id", Json.int 1); ("desc", Json.str "web");
           ("status", Json.str "RUNNING"); ("pid", Json.int 4343) ]
  /\ after (Main.process_control Sample.os_down (Sample.request "status" "1")
              Sample.running) = Sample.running
  /\ events (Main.process_control Sample.os_down (Sample.request "status" "1")
               Sample.running) = []
  /\ Http.body (legacy_result (Legacy.process_control Sample.os_down
                                 (Sample.request "status" "1")
                                 Sample.legacy_running))
     = "1".
Proof.
  assert (Hasks : asks (Sample.request "status" "1") "status" (Z.of_nat 1))
    by (repeat split; reflexivity).
  destruct (status_is_a_pure_read Sample.os_down (Sample.request "status" "1")
              1 Hasks) as [HM HL].
  assert (Hg : (Z.of_nat (length Sample.running) <= Cxx.INT_MAX)%Z)
    by (vm_compute; discriminate).
  assert (Hc : (Z.of_nat (length Sample.legacy_running) <= Cxx.INT_MAX)%Z)
    by (vm_compute; discriminate).
  destruct (HM Sample.running
              (Main.mk_command "web" "nginx" "D" "/srv" Main.RUNNING 4343)
              Hg eq_refl) as (_ & _ & _ & Hobj & Hafter & Hevents).
  destruct (HL Sample.legacy_running
              (Legacy.mk_command "web" "nginx" "D" "/srv" Legacy.RUNNING 4343)
              Hc eq_refl) as (_ & _ & Hbody & _).
  exact (conj (Hobj eq_refl) (conj Hafter (conj Hevents Hbody))).
Defined.

(** ** Stopping a container *)

(** C2 fails on the earlier revision: the helper that stops the running
    container [web] exits with code 1, yet [kill] returns true at once,
    marks the workload DEAD and never calls [waitpid]. *)
Lemma legacy_container_stop_does_not_wait :
  Legacy.Mode <$> Sample.legacy_running !! 1%nat = Some "D"%char
  /\ Legacy.Status <$> Sample.legacy_running !! 1%nat = Some Legacy.RUNNING
  /\ OS.WEXITSTATUS (OS.wait_answer Sample.os_helper_fails) = 1%Z
  /\ legacy_result (Legacy.kill Sample.os_helper_fails Sample.legacy_running 1 false)
     = true
  /\ Legacy.Status
       <$> legacy_after (Legacy.kill Sample.os_helper_fails
                           Sample.legacy_running 1 false) !! 1%nat
     = Some Legacy.DEAD
  /\ legacy_events (Legacy.kill Sample.os_helper_fails Sample.legacy_running 1 false)
     = [OS.ev_fork (OS.child_execvp "docker" ["docker"; "stop"; "nginx"]) 4444].
Proof. vm_compute. repeat split; reflexivity. Qed.

(** C2, amended.  In ServiceManager-main, [kill] of a running container
    forks the helper [docker stop <target>] ([docker kill] when forced).
    If the fork succeeds it waits for that helper with [waitpid]; it
    returns true if and only if the helper exited normally with code 0,
    and sets the workload DEAD with pid -1 in exactly that case, leaving
    the registry untouched otherwise.  If the fork fails it returns false
    and changes nothing.  The earlier revision returns true and marks the
    workload DEAD as soon as the helper is forked, without waiting. *)
Theorem container_stop (os : OS.oracle) (index : nat) (force : bool) :
  (forall (g : list Main.command) (cmd : Main.command),
     reachable g -> g !! index = Some cmd ->
     Main.Mode cmd = "D"%char -> Main.Status cmd = Main.RUNNING ->
     let helper := OS.child_execvp "docker"
                     ["docker"; if force then "kill" else "stop"; Main.Path cmd] in
     let o := Main.kill os g index force in
     match OS.fork_answer os with
     | OS.fork_child child =>
         events o = [OS.ev_fork helper (Z.pos child);
                     OS.ev_waitpid (Z.pos child) (OS.wait_answer os)]
         /\ (result o = true
             <-> OS.WIFEXITED (OS.wait_answer os) = true
                 /\ OS.WEXITSTATUS (OS.wait_answer os) = 0%Z)
         /\ after o = (if result o
                       then <[index := Main.set_runtime Main.DEAD (-1) cmd]> g
                       else g)
     | OS.fork_failed => o = (false, g, [OS.ev_fork helper (-1)])
     end)
  /\ (forall (c : list Legacy.command) (cmd : Legacy.command),
        c !! index = Some cmd -> Legacy.Mode cmd = "D"%char ->
        (0 < Legacy.Pid cmd)%Z -> Legacy.is_empty (Legacy.Path cmd) = false ->
        let helper := OS.child_execvp "docker"
                        ["docker"; if force then "kill" else "stop"; Legacy.Path cmd] in
        Legacy.kill os c index force
        = match OS.fork_answer os with
          | OS.fork_child child =>
              (true, <[index := Legacy.set_Status Legacy.DEAD cmd]> c,
               [OS.ev_fork helper (Z.pos child)])
          | OS.fork_failed => (false, c, [OS.ev_fork helper (-1)])
          end).
Proof.
  split.
  - intros g cmd Hr Hi Hm Hs helper o.
    pose proof (reachable_running_pid g index cmd Hr Hi Hs) as Hp.
    assert (Hpid : (Main.Pid cmd <=? 0)%Z = false) by (apply Z.leb_gt; lia).
    subst o. unfold Main.kill.
    rewrite (lookup_in_range g index cmd Hi), Hi, Hs, Hpid, Hm.
    cbn [Main.STATUS_eqb negb orb Ascii.eqb Bool.eqb andb].
    destruct (OS.fork_answer os) as [|child]; [reflexivity |].
    destruct (OS.WIFEXITED (OS.wait_answer os)) eqn:He;
      destruct (Z.eqb_spec (OS.WEXITSTATUS (OS.wait_answer os)) 0) as [Hz|Hz];
      cbn [andb result after events fst snd];
      (split; [reflexivity |]); (split; [| reflexivity]);
      split; try tauto; try discriminate; intros [? ?]; congruence.
  - intros c cmd Hi Hm Hp Hpath helper.
    assert (Hpid : (Legacy.Pid cmd <=? 0)%Z = false) by (apply Z.leb_gt; lia).
    unfold Legacy.kill.
    rewrite (lookup_in_range c index cmd Hi), Hi, Hpid, Hm, Hpath.
    cbn [Ascii.eqb Bool.eqb andb].
    destruct (OS.fork_answer os); reflexivity.
Qed.

Lemma container_stop_witness :
  let web := Main.mk_command "web" "nginx" "D" "/srv" Main.RUNNING 4343 in
  let o := Main.kill Sample.os_helper_fails Sample.running 1 false in
  events o
  = [OS.ev_fork (OS.child_execvp "docker" ["docker"; "stop"; "nginx"]) 4444;
     OS.ev_waitpid 4444 256]
  /\ (result o = true
      <-> OS.WIFEXITED 256 = true /\ OS.WEXITSTATUS 256 = 0%Z)
  /\ after o = (if result o
                then <[1%nat := Main.set_runtime Main.DEAD (-1) web]> Sample.running
                else Sample.running).
Proof.
  exact (proj1 (container_stop Sample.os_helper_fails 1 false)
           Sample.running
           (Main.mk_command "web" "nginx" "D" "/srv" Main.RUNNING 4343)
           sample_running_reachable eq_refl eq_refl eq_refl).
Defined.

(** ** Graceful and forceful termination *)

(** C3 fails on the earlier revision: its handler passes [force = true]
    for every one of [stop], [end] and [kill], so [fn=stop] sends
    SIGKILL (9) to the running native workload. *)
Lemma legacy_stop_sends_sigkill :
  Legacy.Mode <$> Sample.legacy_running !! 0%nat = Some "C"%char
  /\ Legacy.Status <$> Sample.legacy_running !! 0%nat = Some Legacy.RUNNING
  /\ legacy_events (Legacy.process_control Sample.os_ok
                      (Sample.request "stop" "0") Sample.legacy_running)
     = [OS.ev_kill 4242 9 0]
  /\ OS.SIGKILL = 9%Z
  /\ OS.SIGTERM = 15%Z.
Proof. vm_compute. repeat split; reflexivity. Qed.

(** C3, amended.  In ServiceManager-main, [fn=stop] and [fn=kill] on a
    valid id both run [kill(id, force)] with [force] true exactly when
    [fn] is [kill]: the registry and the system calls are those of that
    call, and the answer is 200 when it returns true and 500 otherwise.
    For a running native workload the call is one signal to the
    recorded pid, SIGTERM for [stop] and SIGKILL for [kill].  The
    earlier revision runs [kill(id, true)] for both, so a running native
    workload always gets SIGKILL. *)
Theorem stop_and_kill_dispatch
  (os : OS.oracle) (req : Http.Request) (index : nat) (fn : string) :
  fn = "stop" \/ fn = "kill" ->
  asks req fn (Z.of_nat index) ->
  (forall (g : list Main.command) (cmd : Main.command),
     reachable g -> g !! index = Some cmd ->
     let force := String.eqb fn "kill" in
     let o := Main.process_control os req g in
     (force = true <-> fn = "kill")
     /\ after o = after (Main.kill os g index force)
     /\ events o = events (Main.kill os g index force)
     /\ Http.answered (result o)
        = (if result (Main.kill os g index force) then 200 else 500)%Z
     /\ (Main.Mode cmd = "C"%char -> Main.Status cmd = Main.RUNNING ->
         events o = [OS.ev_kill (Main.Pid cmd)
                       (if force then OS.SIGKILL else OS.SIGTERM)
                       (OS.kill_answer os)]))
  /\ (forall (c : list Legacy.command) (cmd : Legacy.command),
        (Z.of_nat (length c) <= Cxx.INT_MAX)%Z -> c !! index = Some cmd ->
        let o := Legacy.process_control os req c in
        legacy_after o = legacy_after (Legacy.kill os c index true)
        /\ legacy_events o = legacy_events (Legacy.kill os c index true)
        /\ (Legacy.Mode cmd = "C"%char -> (0 < Legacy.Pid cmd)%Z ->
            legacy_events o
            = [OS.ev_kill (Legacy.Pid cmd) OS.SIGKILL (OS.kill_answer os)])).
Proof.
  intros Hfn Hasks. split.
  - intros g cmd Hr Hi force o.
    pose proof (reachable_well_formed g Hr) as [_ Hlen].
    split; [apply String.eqb_eq |].
    assert (Hsig : Main.Mode cmd = "C"%char -> Main.Status cmd = Main.RUNNING ->
                   events (Main.kill os g index force)
                   = [OS.ev_kill (Main.Pid cmd)
                        (if force then OS.SIGKILL else OS.SIGTERM)
                        (OS.kill_answer os)]).
    { intros Hm Hs.
      pose proof (reachable_running_pid g index cmd Hr Hi Hs) as Hp.
      assert (Hpid : (Main.Pid cmd <=? 0)%Z = false) by (apply Z.leb_gt; lia).
      unfold Main.kill.
      rewrite (lookup_in_range g index cmd Hi), Hi, Hs, Hpid, Hm.
      cbn [Main.STATUS_eqb negb orb Ascii.eqb Bool.eqb andb].
      destruct (OS.kill_answer os =? 0)%Z; reflexivity. }
    assert (Ho : after o = after (Main.kill os g index force)
                 /\ events o = events (Main.kill os g index force)
                 /\ Http.answered (result o)
                    = (if result (Main.kill os g index force) then 200 else 500)%Z).
    { subst o force. enter_control Hasks Hlen Hi.
      destruct Hfn as [-> | ->]; cbn [String.eqb Ascii.eqb Bool.eqb andb orb];
        destruct (Main.kill os g index _) as [[[|] g'] evs]; auto. }
    destruct Ho as (Ha & He & Hr'). repeat split; auto.
    intros Hm Hs. rewrite He. now apply Hsig.
  - intros c cmd Hlen Hi o.
    assert (Ho : legacy_after o = legacy_after (Legacy.kill os c index true)
                 /\ legacy_events o = legacy_events (Legacy.kill os c index true)).
    { subst o. enter_legacy_control Hasks Hlen Hi.
      destruct Hfn as [-> | ->]; cbn [String.eqb Ascii.eqb Bool.eqb andb orb];
        destruct (Legacy.kill os c index true) as [[[|] c'] evs]; auto. }
    destruct Ho as (Ha & He). repeat split; auto.
    intros Hm Hp. rewrite He.
    assert (Hpid : (Legacy.Pid cmd <=? 0)%Z = false) by (apply Z.leb_gt; lia).
    unfold Legacy.kill.
    rewrite (lookup_in_range c index cmd Hi), Hi, Hpid, Hm.
    cbn [Ascii.eqb Bool.eqb andb].
    destruct (OS.kill_answer os =? 0)%Z; reflexivity.
Qed.

Lemma stop_and_kill_dispatch_witness :
  events (Main.process_control Sample.os_ok (Sample.request "stop" "0")
            Sample.running)
  = [OS.ev_kill 4242 OS.SIGTERM 0]
  /\ events (Main.process_control Sample.os_ok (Sample.request "kill" "0")
               Sample.running)
     = [OS.ev_kill 4242 OS.SIGKILL 0].
Proof.
  assert (Hstop : asks (Sample.request "stop" "0") "stop" (Z.of_nat 0))
    by (repeat split; reflexivity).
  assert (Hkill : asks (Sample.request "kill" "0") "kill" (Z.of_nat 0))
    by (repeat split; reflexivity).
  split.
  - exact (proj2 (proj2 (proj2 (proj2
      (proj1 (stop_and_kill_dispatch Sample.os_ok (Sample.request "stop" "0")
                0 "stop" (or_introl eq_refl) Hstop)
         Sample.running
         (Main.mk_command "echo" "sleep 5" "C" "." Main.RUNNING 4242)
         sample_running_reachable eq_refl)))) eq_refl eq_refl).
  - exact (proj2 (proj2 (proj2 (proj2
      (proj1 (stop_and_kill_dispatch Sample.os_ok (Sample.request "kill" "0")
                0 "kill" (or_intror eq_refl) Hkill)
         Sample.running
         (Main.mk_command "echo" "sleep 5" "C" "." Main.RUNNING 4242)
         sample_running_reachable eq_refl)))) eq_refl eq_refl).
Defined.

(** ** Validation of control requests *)

Lemma json_digit_isdigit (c : ascii) :
  Json.digit c = if Cxx.isdigit c then Some (Cxx.digit_value c) else None.
Proof. reflexivity. Qed.

Lemma skip_space_after_blanks (s : string) :
  Cxx.skip_space (list_ascii_of_string s)
  = list_ascii_of_string (after_blanks s).
Proof.
  induction s as [|c s IH]; [reflexivity |].
  cbn [list_ascii_of_string Cxx.skip_space after_blanks].
  rewrite blank_isspace. destruct (Config.blank c); [exact IH | reflexivity].
Qed.

Lemma read_sign_after_sign (s : string) :
  snd (Cxx.read_sign (list_ascii_of_string s))
  = list_ascii_of_string (after_sign s).
Proof.
  destruct s as [|c s]; [reflexivity |].
  cbn [list_ascii_of_string Cxx.read_sign after_sign].
  destruct (Ascii.eqb c "-"); [reflexivity |].
  destruct (Ascii.eqb c "+"); reflexivity.
Qed.

Lemma stoi_no_integer (id : string) :
  starts_with_no_integer id = true ->
  Cxx.stoi id = Cxx.stoi_invalid_argument.
Proof.
  unfold starts_with_no_integer, Cxx.stoi. intros H.
  rewrite skip_space_after_blanks.
  pose proof (read_sign_after_sign (after_blanks id)) as Hs.
  destruct (Cxx.read_sign (list_ascii_of_string (after_blanks id))) as [neg r].
  cbn [snd] in Hs. subst r.
  destruct (after_sign (after_blanks id)) as [|c r]; [reflexivity |].
  cbn [list_ascii_of_string Cxx.read_digits].
  rewrite json_digit_isdigit in H.
  destruct (Cxx.isdigit c); [discriminate | reflexivity].
Qed.

Lemma read_digits_value (s : string) : forall (acc z : Z) (seen : bool),
  digits_value acc s = Some z ->
  Cxx.read_digits acc seen (list_ascii_of_string s)
  = (z, seen || negb (String.eqb s ""), []).
Proof.
  induction s as [|c s IH]; intros acc z seen H.
  - injection H as <-. cbn. now rewrite orb_false_r.
  - cbn [digits_value] in H. rewrite json_digit_isdigit in H.
    cbn [list_ascii_of_string Cxx.read_digits].
    destruct (Cxx.isdigit c); [| discriminate].
    rewrite (IH _ _ true H). cbn. now rewrite orb_true_r.
Qed.

Lemma digit_not_space (c : ascii) :
  Cxx.isdigit c = true ->
  Cxx.isspace c = false /\ Ascii.eqb c "-" = false /\ Ascii.eqb c "+" = false.
Proof.
  destruct c as [[] [] [] [] [] [] [] []]; try discriminate; intros _;
    repeat split; reflexivity.
Qed.

Lemma stoi_integer (id : string) (z : Z) :
  integer_of id = Some z ->
  Cxx.stoi id
  = if (Cxx.INT_MIN <=? z)%Z && (z <=? Cxx.INT_MAX)%Z then Cxx.stoi_value z
    else Cxx.stoi_out_of_range.
Proof.
  destruct id as [|c id]; [discriminate |].
  unfold integer_of, Cxx.stoi.
  cbn [list_ascii_of_string Cxx.skip_space].
  destruct (Ascii.eqb_spec c "-") as [-> | Hm].
  { destruct id as [|c' id]; [discriminate |].
    destruct (digits_value 0 (String c' id)) as [v|] eqn:Hv; [| discriminate].
    intros [= <-]. change (Cxx.isspace "-") with false. cbv iota.
    cbn [Cxx.read_sign]. change (Ascii.eqb "-" "-") with true. cbv iota.
    rewrite (read_digits_value _ _ _ false Hv). reflexivity. }
  destruct (Ascii.eqb_spec c "+") as [-> | Hp].
  { destruct id as [|c' id]; [discriminate |].
    intros Hv. change (Cxx.isspace "+") with false. cbv iota.
    cbn [Cxx.read_sign]. change (Ascii.eqb "+" "-") with false.
    change (Ascii.eqb "+" "+") with true. cbv iota.
    rewrite (read_digits_value _ _ _ false Hv). reflexivity. }
  intros Hv. pose proof Hv as Hv'. cbn [digits_value] in Hv'.
  rewrite json_digit_isdigit in Hv'.
  destruct (Cxx.isdigit c) eqn:Hd; [| discriminate].
  destruct (digit_not_space c Hd) as (Hs & Hm' & Hp').
  rewrite Hs. cbn [Cxx.read_sign]. rewrite Hm', Hp'.
  change (c :: list_ascii_of_string id)
    with (list_ascii_of_string (String c id)).
  rewrite (read_digits_value _ _ _ false Hv). reflexivity.
Qed.

(** C7 fails as stated, in three ways, on both revisions.  The range of
    [id] is checked before [fn] is looked at: an unknown [fn] with the
    id 99 is answered 404, not 400.  The id [1.9] is no integer, yet it
    is not answered 400: [std::stoi] reads the 1 it begins with and the
    request is served.  The id 99999999999 is an integer outside the
    range of the workloads, yet it is answered 400, not 404: it does
    not fit an [int]. *)
Lemma control_requests_against_the_claim :
  (recognised "bogus" = false
   /\ integer_of "99" = Some 99%Z
   /\ length Sample.registry = 2%nat
   /\ Http.answered (result (Main.process_control Sample.os_ok
                               (Sample.request "bogus" "99") Sample.registry))
      = 404%Z
   /\ Http.answered (legacy_result (Legacy.process_control Sample.os_ok
                                      (Sample.request "bogus" "99")
                                      Sample.legacy_registry))
      = 404%Z)
  /\ (integer_of "1.9" = None
      /\ Http.answered (result (Main.process_control Sample.os_ok
                                  (Sample.request "status" "1.9")
                                  Sample.registry))
         = 200%Z
      /\ Http.answered (legacy_result (Legacy.process_control Sample.os_ok
                                         (Sample.request "status" "1.9")
                                         Sample.legacy_registry))
         = 200%Z)
  /\ (integer_of "99999999999" = Some 99999999999%Z
      /\ Http.answered (result (Main.process_control Sample.os_ok
                                  (Sample.request "status" "99999999999")
                                  Sample.registry))
         = 400%Z
      /\ Http.answered (legacy_result (Legacy.process_control Sample.os_ok
                                         (Sample.request "status" "99999999999")
                                         Sample.legacy_registry))
         = 400%Z).
Proof. vm_compute. repeat split; reflexivity. Qed.

Lemma recognised_false fn :
  recognised fn = false ->
  String.eqb fn "start" = false /\ String.eqb fn "stop" = false
  /\ String.eqb fn "kill" = false /\ String.eqb fn "end" = false
  /\ String.eqb fn "status" = false.
Proof.
  unfold recognised. rewrite !orb_false_iff. tauto.
Qed.

(** In both revisions a control request is turned away, with the
    registry unchanged and no system call made:
    with 400 when [fn] or [id] is missing;
    with 400 when both are present and [std::stoi] throws on [id];
    with 404 when [std::stoi] reads from [id] an integer below 0 or not
    below the number of workloads, whatever [fn] is;
    with 400 when that integer is in range and [fn] is none of start,
    stop, kill, end, status. *)
Lemma control_refusals
  (os : OS.oracle) (req : Http.Request)
  (g : list Main.command) (c : list Legacy.command) :
  (Z.of_nat (length g) <= Cxx.INT_MAX)%Z ->
  (Z.of_nat (length c) <= Cxx.INT_MAX)%Z ->
  let fn := Http.get_param_value req "fn" in
  let id_read := Cxx.stoi (Http.get_param_value req "id") in
  let present := Http.has_param req "fn" && Http.has_param req "id" in
  let o := Main.process_control os req g in
  let o' := Legacy.process_control os req c in
  (present = false -> refused 400 g o /\ legacy_refused 400 c o')
  /\ (present = true ->
      id_read = Cxx.stoi_invalid_argument \/ id_read = Cxx.stoi_out_of_range ->
      refused 400 g o /\ legacy_refused 400 c o')
  /\ (forall id, present = true -> id_read = Cxx.stoi_value id ->
      (id < 0 \/ Z.of_nat (length g) <= id)%Z -> refused 404 g o)
  /\ (forall id, present = true -> id_read = Cxx.stoi_value id ->
      (id < 0 \/ Z.of_nat (length c) <= id)%Z -> legacy_refused 404 c o')
  /\ (forall id, present = true -> id_read = Cxx.stoi_value id ->
      (0 <= id < Z.of_nat (length g))%Z -> recognised fn = false ->
      refused 400 g o)
  /\ (forall id, present = true -> id_read = Cxx.stoi_value id ->
      (0 <= id < Z.of_nat (length c))%Z -> recognised fn = false ->
      legacy_refused 400 c o').
Proof.
  intros Hg Hc fn id_read present o o'.
  subst o o'. unfold Main.process_control, Legacy.process_control.
  fold fn. fold id_read.
  replace (negb (Http.has_param req "fn") || negb (Http.has_param req "id"))
    with (negb present)
    by (subst present; now destruct (Http.has_param req "fn"),
                                    (Http.has_param req "id")).
  refine (conj _ (conj _ (conj _ (conj _ (conj _ _))))).
  - intros Hp. rewrite Hp. split; repeat split.
  - intros Hp [Hs | Hs]; rewrite Hp, Hs; split; repeat split.
  - intros id Hp Hs Hout. rewrite Hp, Hs. cbn [negb].
    rewrite out_of_range by assumption. repeat split.
  - intros id Hp Hs Hout. rewrite Hp, Hs. cbn [negb].
    rewrite out_of_range by assumption. repeat split.
  - intros id Hp Hs Hin Hfn. rewrite Hp, Hs. cbn [negb].
    rewrite static_cast_int_small by assumption.
    replace ((id <? 0)%Z || (Z.of_nat (length g) <=? id)%Z) with false
      by (symmetry; apply orb_false_iff;
          split; [apply Z.ltb_ge | apply Z.leb_gt]; lia).
    destruct (recognised_false fn Hfn) as (H1 & H2 & H3 & H4 & H5).
    rewrite H1, H2, H3, H4, H5. repeat split.
  - intros id Hp Hs Hin Hfn. rewrite Hp, Hs. cbn [negb].
    rewrite static_cast_int_small by assumption.
    replace ((id <? 0)%Z || (Z.of_nat (length c) <=? id)%Z) with false
      by (symmetry; apply orb_false_iff;
          split; [apply Z.ltb_ge | apply Z.leb_gt]; lia).
    destruct (recognised_false fn Hfn) as (H1 & H2 & H3 & H4 & H5).
    rewrite H1, H2, H3, H4, H5. repeat split.
Qed.

(** C7, amended.  In both revisions a control request is turned away,
    with the registry unchanged and no system call made:
    with 400 when [fn] or [id] is missing;
    with 400 when both are present and [id] starts with no integer
    (after white space and at most one sign comes no digit), or is an
    integer that does not fit an [int];
    with 404 when [id] is an integer that fits an [int] and is below 0
    or not below the number of workloads, whatever [fn] is;
    with 400 when [id] is an integer in range and [fn] is none of
    start, stop, kill, end, status. *)
Theorem control_validation
  (os : OS.oracle) (req : Http.Request)
  (g : list Main.command) (c : list Legacy.command) :
  (Z.of_nat (length g) <= Cxx.INT_MAX)%Z ->
  (Z.of_nat (length c) <= Cxx.INT_MAX)%Z ->
  let fn := Http.get_param_value req "fn" in
  let id := Http.get_param_value req "id" in
  let present := Http.has_param req "fn" && Http.has_param req "id" in
  let o := Main.process_control os req g in
  let o' := Legacy.process_control os req c in
  (present = false -> refused 400 g o /\ legacy_refused 400 c o')
  /\ (present = true -> starts_with_no_integer id = true ->
      refused 400 g o /\ legacy_refused 400 c o')
  /\ (forall z, present = true -> integer_of id = Some z ->
      (z < Cxx.INT_MIN \/ Cxx.INT_MAX < z)%Z ->
      refused 400 g o /\ legacy_refused 400 c o')
  /\ (forall z, present = true -> integer_of id = Some z ->
      (Cxx.INT_MIN <= z < 0 \/ Z.of_nat (length g) <= z <= Cxx.INT_MAX)%Z ->
      refused 404 g o)
  /\ (forall z, present = true -> integer_of id = Some z ->
      (Cxx.INT_MIN <= z < 0 \/ Z.of_nat (length c) <= z <= Cxx.INT_MAX)%Z ->
      legacy_refused 404 c o')
  /\ (forall z, present = true -> integer_of id = Some z ->
      (0 <= z < Z.of_nat (length g))%Z -> recognised fn = false ->
      refused 400 g o)
  /\ (forall z, present = true -> integer_of id = Some z ->
      (0 <= z < Z.of_nat (length c))%Z -> recognised fn = false ->
      legacy_refused 400 c o').
Proof.
  intros Hg Hc fn id present o o'.
  destruct (control_refusals os req g c Hg Hc)
    as (H1 & H2 & H3 & H4 & H5 & H6).
  assert (Hin : forall z, integer_of id = Some z ->
                (Cxx.INT_MIN <= z <= Cxx.INT_MAX)%Z ->
                Cxx.stoi id = Cxx.stoi_value z).
  { intros z Hz Hr. rewrite (stoi_integer id z Hz).
    destruct (Z.leb_spec Cxx.INT_MIN z); [| lia].
    destruct (Z.leb_spec z Cxx.INT_MAX); [| lia]. reflexivity. }
  refine (conj H1 (conj _ (conj _ (conj _ (conj _ (conj _ _)))))).
  - intros Hp Hno. apply (H2 Hp). left. now apply stoi_no_integer.
  - intros z Hp Hz Hout. apply (H2 Hp). right.
    fold id. rewrite (stoi_integer id z Hz).
    destruct (Z.leb_spec Cxx.INT_MIN z); [| reflexivity].
    destruct (Z.leb_spec z Cxx.INT_MAX); [lia | reflexivity].
  - intros z Hp Hz Hout.
    apply (H3 z Hp); [apply Hin; [exact Hz |] |];
      unfold Cxx.INT_MIN, Cxx.INT_MAX in *; lia.
  - intros z Hp Hz Hout.
    apply (H4 z Hp); [apply Hin; [exact Hz |] |];
      unfold Cxx.INT_MIN, Cxx.INT_MAX in *; lia.
  - intros z Hp Hz Hr Hfn.
    apply (H5 z Hp); [apply Hin; [exact Hz |] | exact Hr | exact Hfn].
    unfold Cxx.INT_MIN, Cxx.INT_MAX in *; lia.
  - intros z Hp Hz Hr Hfn.
    apply (H6 z Hp); [apply Hin; [exact Hz |] | exact Hr | exact Hfn].
    unfold Cxx.INT_MIN, Cxx.INT_MAX in *; lia.
Qed.

Lemma control_validation_witness :
  refused 400 Sample.registry
    (Main.process_control Sample.os_ok (Sample.request "bogus" "1") Sample.registry)
  /\ refused 404 Sample.registry
       (Main.process_control Sample.os_ok (Sample.request "start" "2") Sample.registry)
  /\ legacy_refused 404 Sample.legacy_registry
       (Legacy.process_control Sample.os_ok (Sample.request "start" "-1")
          Sample.legacy_registry)
  /\ refused 400 Sample.registry
       (Main.process_control Sample.os_ok (Sample.request "start" "one") Sample.registry).
Proof.
  assert (Hg : (Z.of_nat (length Sample.registry) <= Cxx.INT_MAX)%Z)
    by (vm_compute; discriminate).
  assert (Hc : (Z.of_nat (length Sample.legacy_registry) <= Cxx.INT_MAX)%Z)
    by (vm_compute; discriminate).
  refine (conj _ (conj _ (conj _ _))).
  - refine (proj1 (proj2 (proj2 (proj2 (proj2 (proj2
      (control_validation Sample.os_ok (Sample.request "bogus" "1")
         Sample.registry Sample.legacy_registry Hg Hc)))))) 1%Z eq_refl eq_refl _ eq_refl).
    unfold Sample.registry. simpl. lia.
  - refine (proj1 (proj2 (proj2 (proj2
      (control_validation Sample.os_ok (Sample.request "start" "2")
         Sample.registry Sample.legacy_registry Hg Hc)))) 2%Z eq_refl eq_refl _).
    right. unfold Sample.registry, Cxx.INT_MAX. simpl. lia.
  - refine (proj1 (proj2 (proj2 (proj2 (proj2
      (control_validation Sample.os_ok (Sample.request "start" "-1")
         Sample.registry Sample.legacy_registry Hg Hc))))) (-1)%Z eq_refl eq_refl _).
    left. unfold Cxx.INT_MIN. lia.
  - refine (proj1 (proj1 (proj2
      (control_validation Sample.os_ok (Sample.request "start" "one")
         Sample.registry Sample.legacy_registry Hg Hc)) eq_refl eq_refl)).
Defined.

(** ** Malformed configurations *)

(** [ReadCmds] of the earlier revision checks nothing.  The
    configuration [Sample.bad_config] (one entry, mode X, empty
    description and target) makes ServiceManager-main exit, but the
    earlier revision serves the entry as read. *)
Lemma legacy_serves_malformed_entries :
  Main.main Sample.room (Some Sample.bad_config) = Main.exits 1
  /\ Legacy.main Sample.junk Sample.bad_config
     = [Legacy.mk_command "" "" "X" "." Legacy.DEAD 0].
Proof. split; reflexivity. Qed.

(** C8 fails as stated, on both revisions.  The earlier one serves the
    entry of [Sample.bad_config], whose mode is X and whose description
    and target are empty.  ServiceManager-main serves
    [Sample.shifted_config], whose count line [1x] is no integer and
    whose entry has a blank mode line: the count is read as 1, the mode
    is taken from the next line, and the lines after it become the
    target and the working directory. *)
Lemma malformed_configurations_are_served :
  Legacy.main Sample.junk Sample.bad_config
  = [Legacy.mk_command "" "" "X" "." Legacy.DEAD 0]
  /\ Main.main Sample.room (Some Sample.shifted_config)
     = Main.serves [Main.mk_command "web" "nginx" "D" "." Main.DEAD (-1)].
Proof. split; reflexivity. Qed.

(** Conversely, whatever [main] serves was read in full and passed
    every check; nothing of a rejected configuration is served. *)
Lemma served_entries_are_valid (room : nat -> bool) (config : option string)
  (g : list Main.command) :
  Main.main room config = Main.serves g ->
  Forall (fun cmd => entry_ok cmd /\ Main.Status cmd = Main.DEAD
                     /\ Main.Pid cmd = (-1)%Z) g
  /\ exists content n, config = Some content /\ raw_count content = Some n
       /\ Z.of_nat (length g) = n.
Proof.
  intros H. destruct config as [content|]; [| discriminate].
  pose proof (main_serves_entries room content g H)
    as (n & Hn & Hpos & Hraw & Hall).
  split.
  - rewrite Forall_lookup. intros i cmd Hi. split.
    + apply entry_okb_ok. rewrite forallb_forall in Hall. apply Hall.
      apply list_elem_of_In. eapply list_elem_of_lookup_2; eauto.
    + rewrite <- (raw_entries_dead _ _ _ Hraw) in Hi.
      unfold Main.ProcessRunner in Hi. rewrite list_lookup_fmap in Hi.
      destruct (g !! i); [| discriminate]. injection Hi as <-. auto.
  - exists content, n. repeat split; auto.
    rewrite (raw_entries_length _ _ _ Hraw). lia.
Qed.

Lemma list_ascii_app (a b : string) :
  list_ascii_of_string (a ++ b)
  = (list_ascii_of_string a ++ list_ascii_of_string b)%list.
Proof.
  induction a as [|c a IH]; [reflexivity |].
  rewrite string_app_cons. simpl. now rewrite IH.
Qed.

Lemma until_newline_line (line : string) (rest : list ascii) :
  Config.one_line line = true ->
  IStream.until_newline
    (list_ascii_of_string line ++ "010"%char :: rest)%list
  = (list_ascii_of_string line, rest, false).
Proof.
  induction line as [|c line IH]; intros Hline; [reflexivity |].
  cbn [Config.one_line] in Hline. apply andb_true_iff in Hline as [Hc Hline].
  apply negb_true_iff in Hc.
  cbn [list_ascii_of_string app IStream.until_newline].
  now rewrite Hc, (IH Hline).
Qed.

Lemma getline_line (line : string) (rest : list ascii) :
  Config.one_line line = true ->
  IStream.getline
    (IStream.mk (list_ascii_of_string line ++ "010"%char :: rest)%list
       false false)
  = (Some line, IStream.mk rest false false).
Proof.
  intros Hline. unfold IStream.getline, IStream.sentry, IStream.good.
  cbn [IStream.eofbit IStream.failbit negb andb IStream.rest].
  rewrite (until_newline_line line rest Hline), string_of_list_ascii_of_string.
  destruct line; reflexivity.
Qed.

Lemma group_chars (e : Config.entry) (rest : string) :
  list_ascii_of_string (Config.group e ++ rest)
  = (list_ascii_of_string (Config.description e)
     ++ "010"%char :: Config.mode e :: "010"%char
     :: list_ascii_of_string (Config.target e)
     ++ "010"%char :: list_ascii_of_string (Config.directory e)
     ++ "010"%char :: list_ascii_of_string rest)%list.
Proof.
  unfold Config.group, Config.nl.
  rewrite !string_app_assoc.
  repeat (rewrite list_ascii_app; cbn [list_ascii_of_string app]).
  rewrite <- ?app_assoc. reflexivity.
Qed.

Lemma raw_entries_groups (n : nat) : forall entries : list Config.entry,
  Forall Config.laid_out entries ->
  raw_entries n
    (IStream.mk (list_ascii_of_string (Config.groups entries)) false false)
  = if (n <=? length entries)%nat then Some (map loaded (take n entries))
    else None.
Proof.
  induction n as [|n IH]; intros entries Hall; [reflexivity |].
  destruct entries as [|e entries]; [reflexivity |].
  inversion Hall as [|? ? (Hd & Ht & Hf & Hm) Hall']; subst.
  cbn [Config.groups raw_entries]. rewrite group_chars.
  rewrite (getline_line _ _ Hd). cbn [IStream.fail IStream.failbit].
  unfold IStream.read_char, IStream.sentry, IStream.good.
  cbn [IStream.eofbit IStream.failbit negb andb IStream.rest Cxx.skip_space].
  rewrite blank_isspace, Hm. cbn [IStream.fail IStream.failbit].
  unfold IStream.ignore_line, IStream.sentry, IStream.good.
  cbn [IStream.eofbit IStream.failbit negb andb IStream.rest
       IStream.until_newline Ascii.eqb Bool.eqb].
  rewrite (getline_line _ _ Ht). cbn [IStream.fail IStream.failbit].
  rewrite (getline_line _ _ Hf). cbn [IStream.fail IStream.failbit].
  rewrite (IH entries Hall'). cbn [length take map from_option id].
  change (S n <=? S (length entries))%nat with (n <=? length entries)%nat.
  destruct (n <=? length entries)%nat; reflexivity.
Qed.

Lemma read_int_digits (x : N) (rest : string) (neg : bool) :
  (0 < x)%N ->
  let s := list_ascii_of_string (pretty_N_go x (Config.nl ++ rest)) in
  Cxx.skip_space s = s /\ Cxx.read_sign s = (false, s)
  /\ Cxx.read_digits 0 false s
     = (Z.of_N x, true, "010"%char :: list_ascii_of_string rest)
  /\ s <> [].
Proof.
  intros Hx s. subst s.
  destruct (pretty_go_head x (Config.nl ++ rest) Hx) as (d & r & Hd & E).
  destruct (digit_char d Hd) as (_ & _ & H1 & H2 & H3).
  refine (conj _ (conj _ (conj _ _))).
  - rewrite E. cbn [list_ascii_of_string Cxx.skip_space]. now rewrite H1.
  - rewrite E. cbn [list_ascii_of_string Cxx.read_sign]. now rewrite H2, H3.
  - rewrite read_digits_pretty_go by exact Hx. reflexivity.
  - rewrite E. discriminate.
Qed.

Lemma read_int_count (N : Z) (rest : string) :
  IStream.read_int (IStream.open (pretty N ++ Config.nl ++ rest))
  = if (N <? Cxx.INT_MIN)%Z
    then (Some Cxx.INT_MIN,
          IStream.mk ("010"%char :: list_ascii_of_string rest) false true)
    else if (Cxx.INT_MAX <? N)%Z
    then (Some Cxx.INT_MAX,
          IStream.mk ("010"%char :: list_ascii_of_string rest) false true)
    else (Some N,
          IStream.mk ("010"%char :: list_ascii_of_string rest) false false).
Proof.
  unfold IStream.open, IStream.read_int, IStream.sentry, IStream.good.
  cbn [IStream.eofbit IStream.failbit negb andb IStream.rest].
  destruct N as [|p|p].
  - reflexivity.
  - unfold pretty, pretty_Z, pretty, pretty_positive, pretty, pretty_N.
    destruct (decide (N.pos p = 0%N)) as [H|_]; [discriminate |].
    rewrite pretty_N_go_app, string_app_nil_l.
    destruct (read_int_digits (N.pos p) rest false ltac:(lia))
      as (H1 & H2 & H3 & H4). cbv zeta in H1, H2, H3, H4.
    rewrite H1.
    destruct (list_ascii_of_string (pretty_N_go (N.pos p) (Config.nl ++ rest)))
      as [|c r] eqn:E; [congruence |].
    cbn [IStream.rest]. rewrite H2, H3. cbn [IStream.at_end].
    change (Z.of_N (N.pos p)) with (Z.pos p).
    destruct (Z.ltb_spec (Z.pos p) Cxx.INT_MIN);
      [unfold Cxx.INT_MIN in *; lia |].
    reflexivity.
  - unfold pretty, pretty_Z, pretty, pretty_positive, pretty, pretty_N.
    destruct (decide (N.pos p = 0%N)) as [H|_]; [discriminate |].
    rewrite !string_app_cons, string_app_nil_l.
    rewrite pretty_N_go_app, string_app_nil_l.
    destruct (read_int_digits (N.pos p) rest false ltac:(lia))
      as (H1 & H2 & H3 & H4). cbv zeta in H1, H2, H3, H4.
    cbn [list_ascii_of_string Cxx.skip_space].
    change (Cxx.isspace "-") with false. cbv iota.
    cbn [IStream.rest Cxx.read_sign Ascii.eqb Bool.eqb].
    rewrite H3. cbn [IStream.at_end].
    change (Z.of_N (N.pos p)) with (Z.pos p).
    change (- Z.pos p)%Z with (Z.neg p).
    destruct (Z.ltb_spec (Z.neg p) Cxx.INT_MIN); [reflexivity |].
    destruct (Z.ltb_spec Cxx.INT_MAX (Z.neg p));
      [unfold Cxx.INT_MAX in *; lia |].
    reflexivity.
Qed.

Lemma count_of_text (N : Z) (entries : list Config.entry) :
  raw_count (Config.text (pretty N) entries)
  = (if (N <? Cxx.INT_MIN)%Z || (Cxx.INT_MAX <? N)%Z then None else Some N)
  /\ ((N <? Cxx.INT_MIN)%Z || (Cxx.INT_MAX <? N)%Z = false ->
      after_count (Config.text (pretty N) entries)
      = IStream.mk (list_ascii_of_string (Config.groups entries)) false false).
Proof.
  unfold raw_count, after_count, Config.text. rewrite read_int_count.
  destruct (N <? Cxx.INT_MIN)%Z; [split; [reflexivity | discriminate] |].
  destruct (Cxx.INT_MAX <? N)%Z; split; (reflexivity || discriminate).
Qed.

Lemma no_number_count (count : string) (entries : list Config.entry) :
  Config.no_number count = true ->
  raw_count (Config.text count entries) = None.
Proof.
  destruct count as [|c count]; [discriminate |].
  unfold Config.no_number. rewrite <- blank_isspace.
  fold (Cxx.isdigit c).
  rewrite !andb_true_iff, !negb_true_iff. intros [[[Hs Hp] Hm] Hd].
  unfold raw_count, Config.text, IStream.open, IStream.read_int,
    IStream.sentry, IStream.good.
  rewrite string_app_cons.
  cbn [IStream.eofbit IStream.failbit negb andb IStream.rest
       list_ascii_of_string Cxx.skip_space].
  rewrite Hs. cbn [IStream.rest Cxx.read_sign]. rewrite Hm, Hp.
  cbn [Cxx.read_digits]. rewrite Hd. reflexivity.
Qed.

Lemma forallb_loaded (l : list Config.entry) :
  forallb entry_okb (map loaded l) = forallb Config.valid l.
Proof. induction l as [|e l IH]; [reflexivity |]. simpl. now rewrite IH. Qed.

Lemma main_of_text (room : nat -> bool) (N : Z) (entries : list Config.entry) :
  Forall Config.laid_out entries ->
  Main.main room (Some (Config.text (pretty N) entries))
  = if (N <? 0)%Z || (Cxx.INT_MAX <? N)%Z then Main.exits 1
    else if (0 <? N)%Z && negb (room (Z.to_nat N)) then Main.aborts
    else if (Z.to_nat N <=? length entries)%nat
            && forallb Config.valid (take (Z.to_nat N) entries)
    then Main.serves (map loaded (take (Z.to_nat N) entries))
    else Main.exits 1.
Proof.
  intros Hall. pose proof (main_cases room (Config.text (pretty N) entries)) as H.
  destruct (count_of_text N entries) as [Hc Ha]. rewrite Hc in H.
  destruct (Z.ltb_spec N Cxx.INT_MIN) as [Hmin | Hmin].
  { cbn [orb] in H. destruct (Z.ltb_spec N 0);
      [exact H | unfold Cxx.INT_MIN in *; lia]. }
  destruct (Z.ltb_spec Cxx.INT_MAX N) as [Hmax | Hmax].
  { cbn [orb] in H. now rewrite orb_true_r. }
  cbn [orb] in H. rewrite orb_false_r.
  destruct (N <? 0)%Z; [exact H |].
  destruct ((0 <? N)%Z && negb (room (Z.to_nat N))); [exact H |].
  rewrite (Ha eq_refl), (raw_entries_groups _ _ Hall) in H.
  destruct (Z.to_nat N <=? length entries)%nat; [| exact H].
  cbn [andb]. rewrite forallb_loaded in H.
  destruct (forallb Config.valid (take (Z.to_nat N) entries)); exact H.
Qed.

Lemma spoiled_take (N : Z) (entries : list Config.entry) :
  (0 <= N)%Z -> spoiled N entries ->
  (Z.to_nat N <=? length entries)%nat
  && forallb Config.valid (take (Z.to_nat N) entries) = false.
Proof.
  intros HN [Hshort | (k & e & Hk & He & Hbad)].
  - destruct (Nat.leb_spec (Z.to_nat N) (length entries)); [lia | reflexivity].
  - apply andb_false_iff. right. apply forallb_false_lookup.
    exists k, e. split; [| exact Hbad].
    rewrite lookup_take_lt by lia. exact He.
Qed.

(** A configuration laid out in lines whose count is no number or is
    negative, which holds fewer entries than it counts, or one of whose
    counted entries is not valid, is not served. *)
Lemma spoiled_configuration_fails
  (room : nat -> bool) (count : string) (entries : list Config.entry) :
  Forall Config.laid_out entries ->
  Config.no_number count = true
  \/ (exists N, count = pretty N /\ ((N < 0)%Z \/ spoiled N entries)) ->
  Main.main room (Some (Config.text count entries)) = Main.exits 1
  \/ Main.main room (Some (Config.text count entries)) = Main.aborts.
Proof.
  intros Hall [Hno | (N & -> & Hbad)].
  - left. pose proof (main_cases room (Config.text count entries)) as H.
    now rewrite (no_number_count count entries Hno) in H.
  - rewrite (main_of_text room N entries Hall).
    destruct (Z.ltb_spec N 0) as [Hneg | Hpos]; [now left |].
    destruct Hbad as [Hneg | Hbad]; [lia |].
    destruct (Cxx.INT_MAX <? N)%Z; [now left |]. cbn [orb].
    destruct ((0 <? N)%Z && negb (room (Z.to_nat N))); [now right |].
    rewrite (spoiled_take N entries Hpos Hbad). now left.
Qed.

(** C8, amended.  In ServiceManager-main, startup fails whenever the
    configuration, laid out as section 6 says (the line of the count,
    then for each entry the four lines of its description, mode
    character, target and working directory), is malformed: a count
    line that begins with no number, a negative count, or, with the
    count of the entries, an entry whose mode is neither C nor D or whose
    description or target is empty.  [main] then returns 1, or the
    process is ended by the exception of [reserve] when there is no room
    for the count; in either case nothing is served.  (The earlier
    revision checks nothing.) *)
Theorem malformed_configuration_aborts
  (room : nat -> bool) (count : string) (entries : list Config.entry) :
  Forall Config.laid_out entries ->
  Config.no_number count = true
  \/ (exists N : Z, count = pretty N /\ (N < 0)%Z)
  \/ (count = pretty (Z.of_nat (length entries))
      /\ exists e : Config.entry, In e entries /\ Config.valid e = false) ->
  Main.main room (Some (Config.text count entries)) = Main.exits 1
  \/ Main.main room (Some (Config.text count entries)) = Main.aborts.
Proof.
  intros Hall H. apply (spoiled_configuration_fails room count entries Hall).
  destruct H as [Hno | [(N & Hc & Hneg) | (Hc & e & Hin & Hbad)]].
  - now left.
  - right. exists N. auto.
  - right. exists (Z.of_nat (length entries)). split; [exact Hc |].
    right. right. apply list_elem_of_In, list_elem_of_lookup in Hin.
    destruct Hin as [k Hk]. exists k, e.
    split; [| split; [exact Hk | exact Hbad]].
    apply lookup_lt_Some in Hk. lia.
Qed.

Lemma malformed_configuration_aborts_witness :
  Main.main Sample.room
    (Some (Config.text "1" [Config.mk_entry "web" "X" "nginx" "."]))
  = Main.exits 1
  \/ Main.main Sample.room
       (Some (Config.text "1" [Config.mk_entry "web" "X" "nginx" "."]))
     = Main.aborts.
Proof.
  apply (malformed_configuration_aborts Sample.room "1"
           [Config.mk_entry "web" "X" "nginx" "."]).
  - repeat constructor.
  - right. right. split; [reflexivity |].
    exists (Config.mk_entry "web" "X" "nginx" ".").
    split; [now left | reflexivity].
Defined.

(** A configuration laid out as section 6 says, with as many entries as
    its count, is served exactly when every entry is valid, and then the
    registry is these entries, in their order, each Dead with pid -1;
    otherwise [main] returns 1.  (The count fits an [int] and there is
    room for the entries.) *)
Theorem laid_out_configuration_is_served
  (room : nat -> bool) (entries : list Config.entry) :
  Forall Config.laid_out entries ->
  (Z.of_nat (length entries) <= Cxx.INT_MAX)%Z ->
  entries = [] \/ room (length entries) = true ->
  Main.main room (Some (Config.text (pretty (Z.of_nat (length entries))) entries))
  = if forallb Config.valid entries then Main.serves (map loaded entries)
    else Main.exits 1.
Proof.
  intros Hall Hmax Hroom. rewrite (main_of_text room _ entries Hall).
  destruct (Z.ltb_spec (Z.of_nat (length entries)) 0); [lia |].
  destruct (Z.ltb_spec Cxx.INT_MAX (Z.of_nat (length entries))); [lia |].
  cbn [orb]. rewrite Nat2Z.id.
  replace ((0 <? Z.of_nat (length entries))%Z && negb (room (length entries)))
    with false.
  - rewrite Nat.leb_refl, firstn_all. reflexivity.
  - destruct Hroom as [-> | ->]; [reflexivity | now rewrite andb_false_r].
Qed.

Lemma laid_out_configuration_is_served_witness :
  Main.main Sample.room
    (Some (Config.text "2" [Config.mk_entry "echo" "C" "/bin/echo hi" "/tmp";
                            Config.mk_entry "web" "D" "nginx" "."]))
  = Main.serves
      [Main.mk_command "echo" "/bin/echo hi" "C" "/tmp" Main.DEAD (-1);
       Main.mk_command "web" "nginx" "D" "." Main.DEAD (-1)].
Proof.
  apply (laid_out_configuration_is_served Sample.room
           [Config.mk_entry "echo" "C" "/bin/echo hi" "/tmp";
            Config.mk_entry "web" "D" "nginx" "."]).
  - repeat constructor.
  - unfold Cxx.INT_MAX. simpl. lia.
  - right. reflexivity.
Defined.

(** ** The list of workloads *)

Lemma list_loop_app (cmds : list Main.command) : forall i acc,
  Main.list_loop i cmds acc = acc ++ Main.list_loop i cmds "".
Proof.
  induction cmds as [|cmd cmds IH]; intros i acc; simpl.
  - now rewrite string_app_nil_r.
  - rewrite (IH (S i) (acc ++ _)), (IH (S i) ("" ++ _)).
    now rewrite string_app_nil_l, string_app_assoc.
Qed.

Lemma legacy_list_loop_app (cmds : list Legacy.command) : forall first acc,
  Legacy.list_loop first cmds acc = acc ++ Legacy.list_loop first cmds "".
Proof.
  induction cmds as [|cmd cmds IH]; intros first acc; simpl.
  - now rewrite string_app_nil_r.
  - rewrite (IH false (acc ++ _)), (IH false ("" ++ _)).
    now rewrite string_app_nil_l, string_app_assoc.
Qed.

Lemma list_element_elem (i : nat) (cmd : Main.command) (X : string) :
  Main.list_element i cmd ++ X
  = (if (0 <? i)%nat then "," ++ Main.nl else "") ++ "  "
    ++ Wire.element (Cxx.to_string (Z.of_nat i)) (Main.escapeJsonString (Main.Desc cmd))
         (Main.status_text (Main.Status cmd)) (String (Main.Mode cmd) "")
         (Cxx.to_string (Main.Pid cmd)) X.
Proof.
  unfold Main.list_element, Wire.element, Client.quote, Main.quote.
  rewrite !string_app_assoc. reflexivity.
Qed.

Lemma legacy_list_element_element (first : bool) (cmd : Legacy.command)
  (X : string) :
  Legacy.list_element first cmd ++ X
  = (if negb first then "," ++ Legacy.nl else "") ++ "  "
    ++ Wire.legacy_element (Legacy.escape (Legacy.Desc cmd))
         (Legacy.status_text (Legacy.Status cmd)) X.
Proof.
  unfold Legacy.list_element, Wire.legacy_element.
  rewrite !string_app_assoc. reflexivity.
Qed.

Lemma listed_element (i : nat) (cmd : Main.command) (R : string) :
  listable (Main.Desc cmd) = true ->
  Main.Mode cmd = "C"%char \/ Main.Mode cmd = "D"%char ->
  Json.read_object
    (Wire.element (Cxx.to_string (Z.of_nat i))
       (Main.escapeJsonString (Main.Desc cmd))
       (Main.status_text (Main.Status cmd)) (String (Main.Mode cmd) "")
       (Cxx.to_string (Main.Pid cmd)) R)
  = Some (row i cmd, R).
Proof.
  intros HD Hm. unfold Cxx.to_string, row. rewrite status_word_text.
  apply element_object; [exact HD | |].
  - intros X. destruct (Main.Status cmd); reflexivity.
  - intros X. destruct Hm as [-> | ->]; reflexivity.
Qed.

(** The elements of the list from the workload at index [i] on, the
    first one taken from its brace. *)
Lemma elements_list (rest : list Main.command) :
  forall (i : nat) (cmd : Main.command) (fuel : nat) (R : string),
  Forall (fun cmd => listable (Main.Desc cmd) = true
                     /\ (Main.Mode cmd = "C"%char \/ Main.Mode cmd = "D"%char))
    (cmd :: rest) ->
  (length rest < fuel)%nat ->
  Json.elements fuel
    (Wire.element (Cxx.to_string (Z.of_nat i))
       (Main.escapeJsonString (Main.Desc cmd))
       (Main.status_text (Main.Status cmd)) (String (Main.Mode cmd) "")
       (Cxx.to_string (Main.Pid cmd))
       (Main.list_loop (S i) rest "" ++ Main.nl ++ "]" ++ R))
  = Some (row i cmd :: imap (fun j => row (S i + j)) rest, R).
Proof.
  induction rest as [|cmd' rest IH]; intros i cmd fuel R Hall Hfuel;
    inversion Hall as [|? ? [HD Hm] Hall']; subst;
    (destruct fuel as [|fuel]; [simpl in Hfuel; lia |]);
    cbn [Json.elements]; rewrite (listed_element i cmd _ HD Hm).
  - cbn [Main.list_loop imap]. unfold Main.nl. flat.
    change (Json.skip (String "010" (String "]" R))) with (String "]" R).
    cbv iota. change (Ascii.eqb "]" "]") with true. reflexivity.
  - cbn [Main.list_loop]. rewrite list_loop_app, string_app_nil_l.
    rewrite !string_app_assoc, list_element_elem.
    change (0 <? S i)%nat with true. cbv iota. unfold Main.nl. flat.
    match goal with
    | |- context [Json.skip (String "," ?X)] =>
        change (Json.skip (String "," X)) with (String "," X)
    end.
    cbv iota. change (Ascii.eqb "," "]") with false.
    change (Ascii.eqb "," ",") with true. cbv iota.
    match goal with
    | |- context [Json.skip (String "010" (String " " (String " " ?X)))] =>
        change (Json.skip (String "010" (String " " (String " " X))))
          with (Json.skip X)
    end.
    assert (Hskip : forall n D st m p X,
              Json.skip (Wire.element n D st m p X) = Wire.element n D st m p X)
      by reflexivity.
    rewrite Hskip.
    pose proof (IH (S i) cmd' fuel R Hall' ltac:(simpl in Hfuel; lia)) as H.
    unfold Main.nl in H. rewrite !string_app_cons, !string_app_nil_l in H.
    rewrite H. rewrite imap_cons. cbn [imap]. rewrite Nat.add_0_r.
    do 4 f_equal. apply imap_ext. intros j x _. simpl. f_equal. lia.
Qed.

Lemma element_length (n D st m p X : string) :
  (String.length X < String.length (Wire.element n D st m p X))%nat.
Proof. unfold Wire.element. rewrite !string_length_app. simpl. lia. Qed.

Lemma list_loop_length (cmds : list Main.command) : forall i,
  (length cmds <= String.length (Main.list_loop i cmds ""))%nat.
Proof.
  induction cmds as [|cmd cmds IH]; intros i; [simpl; lia |].
  cbn [Main.list_loop]. rewrite list_loop_app, string_app_nil_l.
  rewrite list_element_elem, !string_length_app. specialize (IH (S i)).
  pose proof (element_length (Cxx.to_string (Z.of_nat i))
                (Main.escapeJsonString (Main.Desc cmd))
                (Main.status_text (Main.Status cmd)) (String (Main.Mode cmd) "")
                (Cxx.to_string (Main.Pid cmd))
                (Main.list_loop (S i) cmds "")) as H.
  simpl length. lia.
Qed.

Lemma process_list_array (g : list Main.command) :
  Forall (fun cmd => listable (Main.Desc cmd) = true
                     /\ (Main.Mode cmd = "C"%char \/ Main.Mode cmd = "D"%char)) g ->
  Json.array_of (Http.body (Main.process_list g)) = Some (imap row g).
Proof.
  intros Hall. unfold Main.process_list.
  cbn [Http.body Http.set_status Http.set_content].
  rewrite list_loop_app. unfold Json.array_of, Json.whole.
  destruct g as [|cmd rest]; [reflexivity |].
  cbn [Main.list_loop]. rewrite list_loop_app, string_app_nil_l.
  rewrite !string_app_assoc, list_element_elem.
  change (0 <? 0)%nat with false. cbv iota. unfold Main.nl at 1. flat.
  change (Json.skip (String "[" ?X)) with (String "[" X).
  cbn [Json.read_array]. change (Ascii.eqb "[" "[") with true. cbv iota.
  match goal with
  | |- context [Json.skip (String "010" (String " " (String " " ?X)))] =>
      change (Json.skip (String "010" (String " " (String " " X))))
        with X
  end.
  unfold Wire.element at 1. rewrite string_app_cons. cbv iota.
  change (Ascii.eqb "{" "]") with false. cbv iota.
  pose proof (elements_list rest 0 cmd (S (length rest)) "" Hall
                (Nat.lt_succ_diag_r _)) as H.
  change ("]" ++ "") with "]" in H.
  match goal with
  | |- context [Json.elements ?f _] =>
      assert (Hle : (S (length rest) <= f)%nat)
  end.
  { cbn [String.length].
    pose proof (element_length (Cxx.to_string (Z.of_nat 0))
                  (Main.escapeJsonString (Main.Desc cmd))
                  (Main.status_text (Main.Status cmd))
                  (String (Main.Mode cmd) "") (Cxx.to_string (Main.Pid cmd))
                  (Main.list_loop 1 rest "" ++ Main.nl ++ "]")) as Hl.
    rewrite string_length_app in Hl.
    pose proof (list_loop_length rest 1). lia. }
  rewrite (elements_more _ _ _ _ Hle H). reflexivity.
Qed.

Lemma legacy_status_word_text (st : Legacy.STATUS) :
  Legacy.status_text st = legacy_status_word st.
Proof. destruct st; reflexivity. Qed.

Lemma legacy_listed_element (cmd : Legacy.command) (R : string) :
  printable (Legacy.Desc cmd) = true ->
  Json.read_object
    (Wire.legacy_element (Legacy.escape (Legacy.Desc cmd))
       (Legacy.status_text (Legacy.Status cmd)) R)
  = Some (legacy_row cmd, R).
Proof.
  intros HD. unfold Wire.legacy_element, Legacy.quote, legacy_row.
  rewrite legacy_status_word_text. flat.
  cbn [Json.read_object]. change (Ascii.eqb "{" "{") with true. cbv iota.
  change (Json.skip (String "034" ?X)) with (String "034" X).
  cbv iota. change (Ascii.eqb "034" "}") with false. cbv iota.
  apply (members_more 2); [cbn [String.length]; lia |].
  eapply members_cons;
    [apply (member_line "desc"); [intros; reflexivity |];
     apply value_str; apply (chars_legacy_escape _ _ HD)
    | reflexivity |].
  eapply members_last;
    [apply (member_line "status"); [intros; reflexivity |];
     apply value_str; destruct (Legacy.Status cmd); reflexivity
    | reflexivity].
Qed.

Lemma legacy_elements_list (rest : list Legacy.command) :
  forall (cmd : Legacy.command) (fuel : nat) (R : string),
  Forall (fun cmd => printable (Legacy.Desc cmd) = true) (cmd :: rest) ->
  (length rest < fuel)%nat ->
  Json.elements fuel
    (Wire.legacy_element (Legacy.escape (Legacy.Desc cmd))
       (Legacy.status_text (Legacy.Status cmd))
       (Legacy.list_loop false rest "" ++ Legacy.nl ++ "]" ++ R))
  = Some (legacy_row cmd :: map legacy_row rest, R).
Proof.
  induction rest as [|cmd' rest IH]; intros cmd fuel R Hall Hfuel;
    inversion Hall as [|? ? HD Hall']; subst;
    (destruct fuel as [|fuel]; [simpl in Hfuel; lia |]);
    cbn [Json.elements]; rewrite (legacy_listed_element cmd _ HD).
  - cbn [Legacy.list_loop map]. unfold Legacy.nl. flat.
    change (Json.skip (String "010" (String "]" R))) with (String "]" R).
    cbv iota. change (Ascii.eqb "]" "]") with true. reflexivity.
  - cbn [Legacy.list_loop]. rewrite legacy_list_loop_app, string_app_nil_l.
    rewrite !string_app_assoc, legacy_list_element_element.
    cbn [negb]. unfold Legacy.nl. flat.
    match goal with
    | |- context [Json.skip (String "," ?X)] =>
        change (Json.skip (String "," X)) with (String "," X)
    end.
    cbv iota. change (Ascii.eqb "," "]") with false.
    change (Ascii.eqb "," ",") with true. cbv iota.
    match goal with
    | |- context [Json.skip (String "010" (String " " (String " " ?X)))] =>
        change (Json.skip (String "010" (String " " (String " " X))))
          with (Json.skip X)
    end.
    assert (Hskip : forall D st X,
              Json.skip (Wire.legacy_element D st X) = Wire.legacy_element D st X)
      by reflexivity.
    rewrite Hskip.
    pose proof (IH cmd' fuel R Hall' ltac:(simpl in Hfuel; lia)) as H.
    unfold Legacy.nl in H. rewrite !string_app_cons, !string_app_nil_l in H.
    rewrite H. reflexivity.
Qed.

Lemma legacy_element_length (D st X : string) :
  (String.length X < String.length (Wire.legacy_element D st X))%nat.
Proof. unfold Wire.legacy_element. rewrite !string_length_app. simpl. lia. Qed.

Lemma legacy_list_loop_length (cmds : list Legacy.command) : forall first,
  (length cmds <= String.length (Legacy.list_loop first cmds ""))%nat.
Proof.
  induction cmds as [|cmd cmds IH]; intros first; [simpl; lia |].
  cbn [Legacy.list_loop]. rewrite legacy_list_loop_app, string_app_nil_l.
  rewrite legacy_list_element_element, !string_length_app.
  specialize (IH false).
  pose proof (legacy_element_length (Legacy.escape (Legacy.Desc cmd))
                (Legacy.status_text (Legacy.Status cmd))
                (Legacy.list_loop false cmds "")) as H.
  simpl length. lia.
Qed.

Lemma legacy_process_list_array (c : list Legacy.command) :
  Forall (fun cmd => printable (Legacy.Desc cmd) = true) c ->
  Json.array_of (Http.body (Legacy.process_list c))
  = Some (map legacy_row c).
Proof.
  intros Hall. unfold Legacy.process_list.
  cbn [Http.body Http.set_status Http.set_content].
  rewrite legacy_list_loop_app. unfold Json.array_of, Json.whole.
  destruct c as [|cmd rest]; [reflexivity |].
  cbn [Legacy.list_loop]. rewrite legacy_list_loop_app, string_app_nil_l.
  rewrite !string_app_assoc, legacy_list_element_element.
  cbn [negb]. unfold Legacy.nl at 1. flat.
  change (Json.skip (String "[" ?X)) with (String "[" X).
  cbn [Json.read_array]. change (Ascii.eqb "[" "[") with true. cbv iota.
  match goal with
  | |- context [Json.skip (String "010" (String " " (String " " ?X)))] =>
      change (Json.skip (String "010" (String " " (String " " X))))
        with X
  end.
  unfold Wire.legacy_element at 1. rewrite string_app_cons. cbv iota.
  change (Ascii.eqb "{" "]") with false. cbv iota.
  pose proof (legacy_elements_list rest cmd (S (length rest)) Legacy.nl Hall
                (Nat.lt_succ_diag_r _)) as H.
  change ("]" ++ Legacy.nl) with (String "]" Legacy.nl) in H.
  match goal with
  | |- context [Json.elements ?f _] =>
      assert (Hle : (S (length rest) <= f)%nat)
  end.
  { cbn [String.length].
    pose proof (legacy_element_length (Legacy.escape (Legacy.Desc cmd))
                  (Legacy.status_text (Legacy.Status cmd))
                  (Legacy.list_loop false rest "" ++ Legacy.nl ++ "]" ++ Legacy.nl))
      as Hl.
    change ("]" ++ Legacy.nl) with (String "]" Legacy.nl) in Hl.
    rewrite string_length_app in Hl.
    pose proof (legacy_list_loop_length rest false). lia. }
  rewrite (elements_more _ _ _ _ Hle H). reflexivity.
Qed.

(** The list of the earlier revision on two running workloads, as text:
    its elements carry [desc] and [status] only. *)
Lemma legacy_list_has_two_fields :
  let q := Json.quote in
  Http.body (Legacy.process_list Sample.legacy_running)
  = "[" ++ Json.nl
    ++ "  {" ++ q ++ "desc" ++ q ++ ": " ++ q ++ "echo" ++ q ++ ", "
            ++ q ++ "status" ++ q ++ ": " ++ q ++ "RUNNING" ++ q ++ "}," ++ Json.nl
    ++ "  {" ++ q ++ "desc" ++ q ++ ": " ++ q ++ "web" ++ q ++ ", "
            ++ q ++ "status" ++ q ++ ": " ++ q ++ "RUNNING" ++ q ++ "}" ++ Json.nl
    ++ "]" ++ Json.nl.
Proof. reflexivity. Qed.

(** C6 fails as stated, twice.  On the earlier revision the elements of
    the list carry [desc] and [status] only; there is no [id], [mode] or
    [pid].  On ServiceManager-main a configuration may give a
    description with a control character, here the character 7;
    [escapeJsonString] copies it as it is, and the body is no JSON
    text. *)
Lemma list_is_not_always_that_array :
  Json.array_of (Http.body (Legacy.process_list Sample.legacy_running))
  = Some [ [ ("desc", Json.str "echo"); ("status", Json.str "RUNNING") ];
           [ ("desc", Json.str "web"); ("status", Json.str "RUNNING") ] ]
  /\ Main.main Sample.room (Some Sample.bell_config)
     = Main.serves [Sample.bell]
  /\ Json.array_of (Http.body (Main.process_list [Sample.bell])) = None.
Proof. vm_compute. repeat split; reflexivity. Qed.

(** C6, amended.  For every registry ServiceManager-main can hold whose
    descriptions have no control character other than \b \f \n \r \t,
    [GET /process/list] answers 200 with content type application/json
    and a body that reads as the JSON array of one object per workload,
    in registry order, the object of the workload at index [i] having
    exactly the fields [id] (the integer [i]), [desc] (its description),
    [status] (RUNNING or DEAD, as recorded), [mode] (its mode, C or D)
    and [pid] (the recorded pid), and [pid] is -1 whenever the status is
    DEAD.  The list of the earlier revision, for descriptions without
    control characters, reads as the array of the objects of [desc] and
    [status] only. *)
Theorem process_list_wire_format (g : list Main.command) :
  reachable g ->
  Forall (fun cmd => listable (Main.Desc cmd) = true) g ->
  Http.status (Main.process_list g) = 200%Z
  /\ Http.content_type (Main.process_list g) = "application/json"
  /\ Json.array_of (Http.body (Main.process_list g))
     = Some (imap (fun (i : nat) (cmd : Main.command) =>
                     [ ("id", Json.int (Z.of_nat i));
                       ("desc", Json.str (Main.Desc cmd));
                       ("status", Json.str (status_word (Main.Status cmd)));
                       ("mode", Json.str (String (Main.Mode cmd) ""));
                       ("pid", Json.int (Main.Pid cmd)) ]) g)
  /\ (forall (i : nat) (cmd : Main.command), g !! i = Some cmd ->
        (Main.Mode cmd = "C"%char \/ Main.Mode cmd = "D"%char)
        /\ (Main.Status cmd = Main.DEAD -> Main.Pid cmd = (-1)%Z))
  /\ (forall c : list Legacy.command,
        Forall (fun cmd => printable (Legacy.Desc cmd) = true) c ->
        Http.status (Legacy.process_list c) = 200%Z
        /\ Json.array_of (Http.body (Legacy.process_list c))
           = Some (map (fun cmd : Legacy.command =>
                          [ ("desc", Json.str (Legacy.Desc cmd));
                            ("status",
                             Json.str (legacy_status_word (Legacy.Status cmd))) ])
                     c)).
Proof.
  intros Hr Hdesc. pose proof (reachable_well_formed g Hr) as Hwf.
  assert (Hall : Forall (fun cmd => listable (Main.Desc cmd) = true
                                    /\ (Main.Mode cmd = "C"%char
                                        \/ Main.Mode cmd = "D"%char)) g).
  { rewrite Forall_lookup. intros i cmd Hi. split.
    - rewrite Forall_lookup in Hdesc. exact (Hdesc i cmd Hi).
    - destruct (well_formed_lookup g i cmd Hwf Hi) as [[Hm _] _]. exact Hm. }
  refine (conj eq_refl (conj eq_refl (conj _ (conj _ _)))).
  - exact (process_list_array g Hall).
  - intros i cmd Hi.
    destruct (well_formed_lookup g i cmd Hwf Hi) as [[Hm _] Hrt].
    split; [exact Hm |].
    intros Hs. destruct Hrt as [[_ Hp] | [Hrun _]]; [exact Hp | congruence].
  - intros c Hc. split; [reflexivity | exact (legacy_process_list_array c Hc)].
Qed.

Lemma process_list_wire_format_witness :
  Http.status (Main.process_list Sample.running) = 200%Z
  /\ Json.array_of (Http.body (Main.process_list Sample.running))
     = Some [ [ ("id", Json.int 0); ("desc", Json.str "echo");
                ("status", Json.str "RUNNING"); ("mode", Json.str "C");
                ("pid", Json.int 4242) ];
              [ ("id", Json.int 1); ("desc", Json.str "web");
                ("status", Json.str "RUNNING"); ("mode", Json.str "D");
                ("pid", Json.int 4343) ] ].
Proof.
  assert (Hdesc : Forall (fun cmd => listable (Main.Desc cmd) = true)
                    Sample.running) by (repeat constructor).
  destruct (process_list_wire_format Sample.running sample_running_reachable
              Hdesc) as (H1 & _ & H3 & _).
  split; [exact H1 | exact H3].
Defined.

(** ** Further properties of ServiceManager-main *)

Lemma main_start_idempotent_witness :
  Main.start Sample.os_ok' Sample.running 0 = (4242%Z, Sample.running, [])
  /\ Http.answered
       (result (Main.process_control Sample.os_ok' (Sample.request "start" "0")
                  Sample.running)) = 200%Z.
Proof.
  assert (Hasks : asks (Sample.request "start" "0") "start" (Z.of_nat 0))
    by (repeat split; reflexivity).
  destruct (main_start_idempotent Sample.os_ok' (Sample.request "start" "0")
              Sample.running 0
              (Main.mk_command "echo" "sleep 5" "C" "." Main.RUNNING 4242)
              sample_running_reachable eq_refl eq_refl Hasks)
    as (H1 & _ & _ & _ & H5).
  split; [exact H1 | exact H5].
Defined.

Lemma main_stop_not_running_witness :
  Main.kill Sample.os_ok Sample.registry 1 true = (false, Sample.registry, [])
  /\ Main.process_control Sample.os_ok (Sample.request "stop" "1") Sample.registry
     = (Main.respond (Some 500%Z) "Failed to terminate process" "text/plain",
        Sample.registry, []).
Proof.
  assert (Hasks : asks (Sample.request "stop" "1") "stop" (Z.of_nat 1))
    by (repeat split; reflexivity).
  exact (main_stop_not_running Sample.os_ok (Sample.request "stop" "1")
           Sample.registry 1 Sample.web true "stop"
           sample_registry_reachable eq_refl eq_refl (or_introl eq_refl) Hasks).
Defined.

(** Section 3: in every registry the server can hold, each workload is
    either DEAD with pid -1 or RUNNING with a positive pid, its mode is C
    or D, its description and target are not empty, the number of
    workloads fits an [int], and [isRunning] tells the status. *)
Theorem runtime_invariant (g : list Main.command) (i : nat) (cmd : Main.command) :
  reachable g -> g !! i = Some cmd ->
  ((Main.Status cmd = Main.DEAD /\ Main.Pid cmd = (-1)%Z)
   \/ (Main.Status cmd = Main.RUNNING /\ (0 < Main.Pid cmd)%Z))
  /\ (Main.Mode cmd = "C"%char \/ Main.Mode cmd = "D"%char)
  /\ Main.is_empty (Main.Desc cmd) = false
  /\ Main.is_empty (Main.Path cmd) = false
  /\ (Z.of_nat (length g) <= Cxx.INT_MAX)%Z
  /\ Main.isRunning g i = Main.STATUS_eqb (Main.Status cmd) Main.RUNNING
  /\ Main.getPid g i = Main.Pid cmd.
Proof.
  intros Hr Hi. pose proof (reachable_well_formed g Hr) as Hwf.
  destruct (well_formed_lookup g i cmd Hwf Hi) as [(Hm & Hd & Hp) Hrt].
  destruct Hwf as [_ Hlen].
  repeat split; auto.
  - unfold Main.isRunning. rewrite (lookup_in_range g i cmd Hi), Hi.
    destruct Hrt as [[-> ->] | [-> Hpos]]; [reflexivity |].
    apply Z.ltb_lt in Hpos. now rewrite Hpos.
  - unfold Main.getPid. now rewrite (lookup_in_range g i cmd Hi), Hi.
Qed.

Lemma runtime_invariant_witness :
  Main.isRunning Sample.running 1 = true /\ Main.getPid Sample.running 1 = 4343%Z.
Proof.
  destruct (runtime_invariant Sample.running 1
              (Main.mk_command "web" "nginx" "D" "/srv" Main.RUNNING 4343)
              sample_running_reachable eq_refl)
    as (_ & _ & _ & _ & _ & H6 & H7).
  split; [exact H6 | exact H7].
Defined.

(** Section 4.2, [start] on success: a dead workload whose fork succeeds
    is recorded RUNNING with the pid of the child, which is the value
    returned; one process is created and no other entry changes. *)
Theorem start_records_the_child
  (os : OS.oracle) (g : list Main.command) (index : nat) (cmd : Main.command)
  (p : positive) :
  reachable g -> g !! index = Some cmd -> Main.Status cmd = Main.DEAD ->
  OS.fork_answer os = OS.fork_child p ->
  result (Main.start os g index) = Z.pos p
  /\ OS.children (events (Main.start os g index)) = [Z.pos p]
  /\ after (Main.start os g index) !! index
     = Some (Main.set_runtime Main.RUNNING (Z.pos p) cmd)
  /\ (forall j, j <> index ->
        after (Main.start os g index) !! j = g !! j).
Proof.
  intros Hr Hi Hs Hf.
  destruct (well_formed_lookup g index cmd (reachable_well_formed g Hr) Hi)
    as [(_ & _ & Hpath) _].
  unfold Main.start.
  rewrite (lookup_in_range g index cmd Hi), Hi, Hs, Hpath, Hf.
  cbn [Main.STATUS_eqb andb result after events fst snd OS.children].
  repeat split.
  - apply list_lookup_insert_eq. now apply lookup_lt_Some in Hi.
  - intros j Hj. now apply list_lookup_insert_ne.
Qed.

Lemma start_records_the_child_witness :
  result (Main.start Sample.os_ok Sample.registry 0) = 4242%Z
  /\ OS.children (events (Main.start Sample.os_ok Sample.registry 0)) = [4242%Z].
Proof.
  destruct (start_records_the_child Sample.os_ok Sample.registry 0 Sample.echo
              4242 sample_registry_reachable eq_refl eq_refl eq_refl)
    as (H1 & H2 & _).
  split; [exact H1 | exact H2].
Defined.

(** Section 8: after a successful [stop] the workload is DEAD with pid
    -1 and no other entry changed. *)
Theorem stop_success_marks_dead
  (os : OS.oracle) (g : list Main.command) (index : nat) (cmd : Main.command)
  (force : bool) :
  g !! index = Some cmd ->
  result (Main.kill os g index force) = true ->
  after (Main.kill os g index force) !! index
  = Some (Main.set_runtime Main.DEAD (-1) cmd)
  /\ (forall j, j <> index -> after (Main.kill os g index force) !! j = g !! j).
Proof.
  intros Hi. unfold Main.kill.
  rewrite (lookup_in_range g index cmd Hi), Hi.
  assert (Hset : <[index := Main.set_runtime Main.DEAD (-1) cmd]> g !! index
                 = Some (Main.set_runtime Main.DEAD (-1) cmd))
    by (apply list_lookup_insert_eq; now apply lookup_lt_Some in Hi).
  destruct (negb (Main.STATUS_eqb (Main.Status cmd) Main.RUNNING)
            || (Main.Pid cmd <=? 0)%Z); [discriminate |].
  destruct (Ascii.eqb (Main.Mode cmd) "C").
  - destruct (OS.kill_answer os =? 0)%Z; [| discriminate].
    intros _. split; [exact Hset |].
    intros j Hj. now apply list_lookup_insert_ne.
  - destruct (Ascii.eqb (Main.Mode cmd) "D"); [| discriminate].
    destruct (OS.fork_answer os); [discriminate |].
    destruct (OS.WIFEXITED (OS.wait_answer os)
              && (OS.WEXITSTATUS (OS.wait_answer os) =? 0)%Z); [| discriminate].
    intros _. split; [exact Hset |].
    intros j Hj. now apply list_lookup_insert_ne.
Qed.

Lemma stop_success_marks_dead_witness :
  after (Main.kill Sample.os_ok Sample.running 0 false) !! 0%nat
  = Some Sample.echo.
Proof.
  exact (proj1 (stop_success_marks_dead Sample.os_ok Sample.running 0
                  (Main.mk_command "echo" "sleep 5" "C" "." Main.RUNNING 4242)
                  false eq_refl eq_refl)).
Defined.

(** The count is whatever [int] the first token starts with; what
    follows it on the line is skipped, as is what follows the mode
    character. *)
Example count_and_mode_prefixes_are_read :
  Main.main Sample.room (Some ("1x" ++ Json.nl ++ "echo" ++ Json.nl ++ "Cx" ++ Json.nl
                   ++ "sleep 5" ++ Json.nl ++ "." ++ Json.nl))
  = Main.serves [Sample.echo].
Proof. reflexivity. Qed.

(** The earlier [kill] on a dead native workload whose pid field still
    holds a positive value: the signal is sent and success reported. *)
Lemma legacy_kill_ignores_status
  (os : OS.oracle) (c : list Legacy.command) (index : nat)
  (cmd : Legacy.command) (force : bool) :
  c !! index = Some cmd -> Legacy.Status cmd = Legacy.DEAD ->
  (0 < Legacy.Pid cmd)%Z -> Legacy.Mode cmd = "C"%char ->
  OS.kill_answer os = 0%Z ->
  Legacy.kill os c index force
  = (true, <[index := Legacy.set_Status Legacy.DEAD cmd]> c,
     [OS.ev_kill (Legacy.Pid cmd)
        (if force then OS.SIGKILL else OS.SIGTERM) 0]).
Proof.
  intros Hi Hs Hp Hm Hk.
  assert (Hpid : (Legacy.Pid cmd <=? 0)%Z = false) by (apply Z.leb_gt; lia).
  unfold Legacy.kill.
  now rewrite (lookup_in_range c index cmd Hi), Hi, Hpid, Hm, Hk.
Qed.

(** * The code around the supervisor *)

(** ** Decimal numbers: [std::to_string] read back by [std::stoi] *)

Lemma read_unsigned (p : positive) :
  let s := list_ascii_of_string (pretty_N_go (N.pos p) "") in
  Cxx.skip_space s = s /\ Cxx.read_sign s = (false, s)
  /\ Cxx.read_digits 0 false s = (Z.pos p, true, []).
Proof.
  intros s. subst s.
  destruct (pretty_go_head (N.pos p) "" ltac:(lia)) as (d & r & Hd & E).
  destruct (digit_char d Hd) as (_ & _ & H1 & H2 & H3).
  split; [| split].
  - rewrite E. cbn [list_ascii_of_string Cxx.skip_space]. now rewrite H1.
  - rewrite E. cbn [list_ascii_of_string Cxx.read_sign]. now rewrite H2, H3.
  - rewrite read_digits_pretty_go by lia. reflexivity.
Qed.

Lemma stoi_to_string (z : Z) :
  (Cxx.INT_MIN <= z <= Cxx.INT_MAX)%Z ->
  Cxx.stoi (Cxx.to_string z) = Cxx.stoi_value z.
Proof.
  intros Hz. unfold Cxx.stoi, Cxx.to_string, pretty, pretty_Z.
  destruct z as [|p|p].
  - reflexivity.
  - unfold pretty, pretty_positive, pretty, pretty_N.
    destruct (decide (N.pos p = 0%N)) as [H|_]; [discriminate |].
    destruct (read_unsigned p) as (H1 & H2 & H3). cbv zeta in H1, H2, H3.
    rewrite H1, H2, H3.
    destruct (Z.leb_spec Cxx.INT_MIN (Z.pos p)); [| lia].
    destruct (Z.leb_spec (Z.pos p) Cxx.INT_MAX); [| lia]. reflexivity.
  - unfold pretty, pretty_positive, pretty, pretty_N.
    destruct (decide (N.pos p = 0%N)) as [H|_]; [discriminate |].
    destruct (read_unsigned p) as (H1 & H2 & H3). cbv zeta in H1, H2, H3.
    rewrite string_app_cons, string_app_nil_l.
    cbn [list_ascii_of_string Cxx.skip_space Cxx.read_sign].
    change (Cxx.isspace "-") with false. cbv iota.
    change (Cxx.read_sign
              ("-"%char :: list_ascii_of_string (pretty_N_go (N.pos p) "")))
      with (true, list_ascii_of_string (pretty_N_go (N.pos p) "")).
    cbv iota. rewrite H3.
    destruct (Z.leb_spec Cxx.INT_MIN (- Z.pos p)); [| lia].
    destruct (Z.leb_spec (- Z.pos p) Cxx.INT_MAX); [| lia]. reflexivity.
Qed.

Lemma control_request_asks (fn : string) (id : Z) :
  (Cxx.INT_MIN <= id <= Cxx.INT_MAX)%Z ->
  asks (Client.control_request fn id) fn id.
Proof.
  intros Hid. unfold asks, Client.control_request.
  repeat split; try reflexivity.
  change (Http.get_param_value
            (Http.mk_req [("fn", fn); ("id", Cxx.to_string id)]) "id")
    with (Cxx.to_string id).
  now apply stoi_to_string.
Qed.

(** The request [sendControlCommand] builds for an [int] id is read by
    the server's handler as that function and that id: [std::stoi]
    gives back what [std::to_string] wrote. *)
Theorem request_is_read_back (fn : string) (id : Z) :
  (Cxx.INT_MIN <= id <= Cxx.INT_MAX)%Z ->
  asks (Client.control_request fn id) fn id.
Proof. apply control_request_asks. Qed.

Lemma request_is_read_back_witness :
  asks (Client.control_request "kill" (-7)) "kill" (-7).
Proof. apply request_is_read_back. unfold Cxx.INT_MIN, Cxx.INT_MAX. lia. Defined.

(** ** The interactive client and the control handler *)

Lemma read_int_range (s s' : IStream.t) (v : Z) :
  IStream.read_int s = (Some v, s') -> IStream.fail s' = false ->
  (Cxx.INT_MIN <= v <= Cxx.INT_MAX)%Z.
Proof.
  unfold IStream.read_int.
  destruct (IStream.sentry false s) as [ok s1].
  destruct ok; [| discriminate].
  destruct (Cxx.read_sign (IStream.rest s1)) as [neg r1].
  destruct (Cxx.read_digits 0 false r1) as [[x seen] r2].
  destruct seen.
  - destruct (Z.ltb_spec (if neg then (- x)%Z else x) Cxx.INT_MIN);
      [intros [= <- <-]; discriminate |].
    destruct (Z.ltb_spec Cxx.INT_MAX (if neg then (- x)%Z else x));
      [intros [= <- <-]; discriminate |].
    intros [= <- <-] _. lia.
  - intros [= <- <-]. discriminate.
Qed.

Lemma read_id_range (iss : IStream.t) (id : Z) :
  Client.read_id iss = Some id -> (Cxx.INT_MIN <= id <= Cxx.INT_MAX)%Z.
Proof.
  unfold Client.read_id.
  destruct (IStream.read_int iss) as [v iss'] eqn:E.
  destruct (IStream.fail iss') eqn:F; [discriminate |].
  intros ->. eapply read_int_range; eauto.
Qed.

Lemma with_id_send (f : string) (iss : IStream.t) (fn : string) (id : Z) :
  Client.with_id f iss = Client.act_send fn id ->
  fn = f /\ (Cxx.INT_MIN <= id <= Cxx.INT_MAX)%Z.
Proof.
  unfold Client.with_id.
  destruct (Client.read_id iss) as [v|] eqn:E; [| discriminate].
  intros [= <- <-]. split; [reflexivity | now apply read_id_range in E].
Qed.

(** Whatever line the user types, a request the client sends carries
    one of start, kill, stop, status and an [int] id. *)
Lemma interpret_send (input fn : string) (id : Z) :
  Client.interpret input = Client.act_send fn id ->
  (fn = "start" \/ fn = "kill" \/ fn = "stop" \/ fn = "status")
  /\ (Cxx.INT_MIN <= id <= Cxx.INT_MAX)%Z.
Proof.
  unfold Client.interpret.
  destruct (String.eqb (Client.trim input) ""); [discriminate |].
  destruct (IStream.read_word _) as [word iss].
  set (command := Cxx.lowercase (default "" word)).
  destruct (String.eqb command "q" || String.eqb command "quit"
            || String.eqb command "exit"); [discriminate |].
  destruct (String.eqb command "l" || String.eqb command "list");
    [discriminate |].
  destruct (String.eqb command "h" || String.eqb command "help");
    [discriminate |].
  destruct (String.eqb command "s" || String.eqb command "start");
    [intros H; apply with_id_send in H as [-> ?]; auto |].
  destruct (String.eqb command "k" || String.eqb command "kill");
    [intros H; apply with_id_send in H as [-> ?]; auto |].
  destruct (String.eqb command "stop");
    [intros H; apply with_id_send in H as [-> ?]; auto |].
  destruct (String.eqb command "status");
    [intros H; apply with_id_send in H as [-> ?]; auto 6 | discriminate].
Qed.

(** No line typed at the client makes the server answer 400: a request
    the client sends is answered 404 when its id is not an index of the
    registry (which is then left alone, without any system call), and
    200 or 500 otherwise. *)
Theorem client_requests_are_understood
  (input fn : string) (id : Z) (os : OS.oracle) (g : list Main.command) :
  Client.interpret input = Client.act_send fn id ->
  (Z.of_nat (length g) <= Cxx.INT_MAX)%Z ->
  let o := Main.process_control os (Client.control_request fn id) g in
  recognised fn = true
  /\ ((id < 0 \/ Z.of_nat (length g) <= id)%Z -> refused 404 g o)
  /\ ((0 <= id < Z.of_nat (length g))%Z ->
      Http.answered (result o) = 200%Z \/ Http.answered (result o) = 500%Z).
Proof.
  intros Hsend Hlen o.
  destruct (interpret_send input fn id Hsend) as [Hfn Hid].
  pose proof (control_request_asks fn id Hid) as Hasks.
  split; [| split].
  - destruct Hfn as [-> | [-> | [-> | ->]]]; reflexivity.
  - intros Hout. subst o. unfold Main.process_control.
    destruct Hasks as (Hf & Hd & _ & Hst). rewrite Hf, Hd, Hst. cbn [negb orb].
    rewrite (out_of_range g id Hlen Hout). repeat split.
  - intros Hin. subst o.
    destruct (lookup_lt_is_Some_2 g (Z.to_nat id)) as [cmd Hi]; [lia |].
    replace id with (Z.of_nat (Z.to_nat id)) in Hasks |- * by lia.
    enter_control Hasks Hlen Hi.
    destruct Hfn as [-> | [-> | [-> | ->]]];
      cbn [String.eqb Ascii.eqb Bool.eqb andb orb].
    + destruct (Main.STATUS_eqb (Main.Status cmd) Main.RUNNING); [now left |].
      destruct (Main.start os g (Z.to_nat id)) as [[pid g'] evs].
      destruct (0 <? pid)%Z; [now left | now right].
    + destruct (Main.kill os g (Z.to_nat id) true) as [[[|] g'] evs];
        [now left | now right].
    + destruct (Main.kill os g (Z.to_nat id) false) as [[[|] g'] evs];
        [now left | now right].
    + now left.
Qed.

Lemma client_requests_are_understood_witness :
  refused 404 Sample.registry
    (Main.process_control Sample.os_ok (Client.control_request "kill" 12)
       Sample.registry).
Proof.
  assert (Hlen : (Z.of_nat (length Sample.registry) <= Cxx.INT_MAX)%Z)
    by (vm_compute; discriminate).
  refine (proj1 (proj2 (client_requests_are_understood "  K  12 " "kill" 12
                          Sample.os_ok Sample.registry eq_refl Hlen)) _).
  right. unfold Sample.registry. simpl. lia.
Defined.

(** ** [escapeJsonString] *)

(** A character is either copied, and then it is none of the seven
    rewritten ones, or replaced by a backslash and one more character. *)
Lemma escape_char_cases (c : ascii) :
  (Cxx.mem c Wire.escaped = false /\ Main.escape_char c = String c ""
   /\ c <> "\"%char)
  \/ (Cxx.mem c Wire.escaped = true
      /\ exists x, Main.escape_char c = String "\" (String x "")).
Proof.
  unfold Main.escape_char, Wire.escaped. cbn [Cxx.mem].
  destruct (Ascii.eqb_spec c "034") as [-> | H1]; [right; eauto |].
  destruct (Ascii.eqb_spec c "\") as [-> | H2]; [right; eauto |].
  destruct (Ascii.eqb_spec c "008") as [-> | H3]; [right; eauto |].
  destruct (Ascii.eqb_spec c "012") as [-> | H4]; [right; eauto |].
  destruct (Ascii.eqb_spec c "010") as [-> | H5]; [right; eauto |].
  destruct (Ascii.eqb_spec c "013") as [-> | H6]; [right; eauto |].
  destruct (Ascii.eqb_spec c "009") as [-> | H7]; [right; eauto |].
  left. auto.
Qed.

(** [result.reserve(input.length() * 2)] is enough: the output is at
    least as long as the input and at most twice as long, and it is the
    input itself exactly when no character of the input is a quote, a
    backslash or one of \b \f \n \r \t. *)
Theorem escape_length_and_fixpoint (input : string) :
  (String.length input <= String.length (Main.escapeJsonString input)
   <= 2 * String.length input)%nat
  /\ (Main.escapeJsonString input = input
      <-> Wire.free_of Wire.escaped input = true).
Proof.
  induction input as [|c r [IHlen IHfix]]; [simpl; split; [lia | tauto] |].
  cbn [Main.escapeJsonString Wire.free_of].
  rewrite string_length_app.
  destruct (escape_char_cases c) as [(Hm & He & _) | (Hm & x & He)];
    rewrite Hm, He; cbn [String.length negb andb]; (split; [lia |]).
  - rewrite string_app_cons, string_app_nil_l. rewrite <- IHfix.
    split; [intros [= H]; exact H | intros ->; reflexivity].
  - split; [| discriminate].
    intros H. apply (f_equal String.length) in H.
    rewrite !string_app_cons, string_app_nil_l in H. simpl in H. lia.
Qed.

Lemma escape_char_inj (c c' : ascii) (r r' : string) :
  Main.escape_char c ++ r = Main.escape_char c' ++ r' -> c = c' /\ r = r'.
Proof.
  unfold Main.escape_char.
  destruct (Ascii.eqb_spec c "034") as [-> | H1];
    [| destruct (Ascii.eqb_spec c "\") as [-> | H2];
       [| destruct (Ascii.eqb_spec c "008") as [-> | H3];
          [| destruct (Ascii.eqb_spec c "012") as [-> | H4];
             [| destruct (Ascii.eqb_spec c "010") as [-> | H5];
                [| destruct (Ascii.eqb_spec c "013") as [-> | H6];
                   [| destruct (Ascii.eqb_spec c "009") as [-> | H7]]]]]]];
    (destruct (Ascii.eqb_spec c' "034") as [-> | H1'];
     [| destruct (Ascii.eqb_spec c' "\") as [-> | H2'];
        [| destruct (Ascii.eqb_spec c' "008") as [-> | H3'];
           [| destruct (Ascii.eqb_spec c' "012") as [-> | H4'];
              [| destruct (Ascii.eqb_spec c' "010") as [-> | H5'];
                 [| destruct (Ascii.eqb_spec c' "013") as [-> | H6'];
                    [| destruct (Ascii.eqb_spec c' "009") as [-> | H7']]]]]]]);
    rewrite ?string_app_cons, ?string_app_nil_l;
    intros H; injection H; intros; subst;
    try discriminate; try congruence; auto.
Qed.

Lemma escape_not_shorter (input : string) :
  (String.length input <= String.length (Main.escapeJsonString input))%nat.
Proof.
  induction input as [|c r IH]; [simpl; lia |].
  cbn [Main.escapeJsonString]. rewrite string_length_app.
  destruct (escape_char_cases c) as [(_ & He & _) | (_ & x & He)];
    rewrite He; simpl; lia.
Qed.

(** Two descriptions are written the same way only if they are the same:
    what [escapeJsonString] writes can be read back without ambiguity. *)
Theorem escape_is_injective (a b : string) :
  Main.escapeJsonString a = Main.escapeJsonString b -> a = b.
Proof.
  revert b. induction a as [|c a IH]; intros b H.
  - destruct b as [|c' b]; [reflexivity |].
    pose proof (escape_not_shorter (String c' b)) as L.
    rewrite <- H in L. simpl in L. lia.
  - destruct b as [|c' b].
    + pose proof (escape_not_shorter (String c a)) as L.
      rewrite H in L. simpl in L. lia.
    + cbn [Main.escapeJsonString] in H.
      apply escape_char_inj in H as [-> H]. f_equal. now apply IH.
Qed.

Lemma escape_is_injective_witness :
  String "a" (String "034" "") = String "a" (String "034" "").
Proof.
  apply escape_is_injective. reflexivity.
Defined.

(** ** [splitCommand] *)

Lemma string_of_list_app (a b : list ascii) :
  string_of_list_ascii (a ++ b)%list
  = string_of_list_ascii a ++ string_of_list_ascii b.
Proof.
  induction a as [|x a IH]; [reflexivity |].
  cbn [app string_of_list_ascii]. rewrite string_app_cons. now rewrite IH.
Qed.

Lemma squeeze_no_space (l : list ascii) :
  forallb (fun c => negb (Cxx.isspace c)) l = true ->
  Wire.squeeze (string_of_list_ascii l) = string_of_list_ascii l.
Proof.
  induction l as [|c l IH]; [reflexivity |].
  cbn [forallb string_of_list_ascii Wire.squeeze].
  intros H. apply andb_true_iff in H as [Hc Hl].
  apply negb_true_iff in Hc. rewrite Hc. now rewrite IH.
Qed.

Lemma forallb_rev {A : Type} (p : A -> bool) (l : list A) :
  forallb p (rev l) = forallb p l.
Proof.
  induction l as [|x l IH]; [reflexivity |].
  cbn [rev]. rewrite forallb_app, IH. simpl.
  rewrite andb_true_r. apply andb_comm.
Qed.

Lemma pending_word (cur : list ascii) :
  forallb (fun c => negb (Cxx.isspace c)) cur = true ->
  let flush := match cur with
               | [] => []
               | _ => [string_of_list_ascii (rev cur)]
               end in
  forallb Wire.is_word flush = true
  /\ Wire.concat flush = string_of_list_ascii (rev cur).
Proof.
  intros Hcur flush. destruct cur as [|c cur]; [split; reflexivity |].
  subst flush. cbn [forallb Wire.concat]. rewrite string_app_nil_r.
  split; [| reflexivity]. rewrite andb_true_r. unfold Wire.is_word.
  rewrite squeeze_no_space by now rewrite forallb_rev.
  rewrite String.eqb_refl, andb_true_r. apply negb_true_iff.
  apply String.eqb_neq. intros E.
  apply (f_equal list_ascii_of_string) in E.
  rewrite list_ascii_of_string_of_list_ascii in E.
  apply (f_equal (@length ascii)) in E.
  rewrite length_rev in E. discriminate.
Qed.

Lemma concat_app (a b : list string) :
  Wire.concat (a ++ b)%list = Wire.concat a ++ Wire.concat b.
Proof.
  induction a as [|x a IH]; [reflexivity |].
  cbn [app Wire.concat]. now rewrite IH, string_app_assoc.
Qed.

Lemma words_from_spec (s : list ascii) : forall cur : list ascii,
  forallb (fun c => negb (Cxx.isspace c)) cur = true ->
  forallb Wire.is_word (Cxx.words_from cur s) = true
  /\ Wire.concat (Cxx.words_from cur s)
     = string_of_list_ascii (rev cur) ++ Wire.squeeze (string_of_list_ascii s).
Proof.
  induction s as [|c r IH]; intros cur Hcur.
  - cbn [Cxx.words_from string_of_list_ascii Wire.squeeze].
    rewrite string_app_nil_r. now apply pending_word.
  - cbn [Cxx.words_from string_of_list_ascii Wire.squeeze].
    destruct (pending_word cur Hcur) as [Hw Hc]. cbv zeta in Hw, Hc.
    destruct (Cxx.isspace c) eqn:Hsp.
    + destruct (IH [] eq_refl) as [IHw IHc].
      rewrite forallb_app, concat_app, Hw, Hc, IHw, IHc. split; reflexivity.
    + destruct (IH (c :: cur)) as [IHw IHc];
        [cbn [forallb]; now rewrite Hsp, Hcur |].
      split; [exact IHw |]. rewrite IHc. cbn [rev].
      rewrite string_of_list_app, string_app_assoc. reflexivity.
Qed.

(** The argument vector [splitCommand] makes of a target: no argument
    is empty, none contains white space (there is no quoting: a quoted
    argument with a blank in it is cut in two), nothing but white space
    is dropped and nothing is reordered; there is no argument at all
    exactly when the target is blank. *)
Theorem splitCommand_words (cmdline : string) :
  forallb Wire.is_word (Main.splitCommand cmdline) = true
  /\ Wire.concat (Main.splitCommand cmdline) = Wire.squeeze cmdline
  /\ (Main.splitCommand cmdline = [] <-> Wire.squeeze cmdline = "").
Proof.
  unfold Main.splitCommand, Cxx.words.
  destruct (words_from_spec (list_ascii_of_string cmdline) [] eq_refl)
    as [Hw Hc].
  rewrite string_of_list_ascii_of_string in Hc. cbn [rev string_of_list_ascii] in Hc.
  rewrite string_app_nil_l in Hc.
  split; [exact Hw |]. split; [exact Hc |].
  rewrite <- Hc.
  destruct (Cxx.words_from [] (list_ascii_of_string cmdline)) as [|w ws];
    [tauto |].
  split; [discriminate |]. intros E. exfalso.
  cbn [forallb Wire.concat] in Hw, E.
  apply andb_true_iff in Hw as [Hw _]. unfold Wire.is_word in Hw.
  apply andb_true_iff in Hw as [Hw _]. apply negb_true_iff in Hw.
  apply String.eqb_neq in Hw. destruct w; [congruence | discriminate].
Qed.

(** ** The destructor of [ProcessRunner] *)

Lemma kill_cases (os : OS.oracle) (c : list Main.command) (i : nat)
  (force : bool) (cmd : Main.command) :
  c !! i = Some cmd ->
  (result (Main.kill os c i force) = false /\ after (Main.kill os c i force) = c)
  \/ (result (Main.kill os c i force) = true
      /\ after (Main.kill os c i force)
         = <[i := Main.set_runtime Main.DEAD (-1) cmd]> c).
Proof.
  intros Hi. unfold Main.kill.
  rewrite (lookup_in_range c i cmd Hi), Hi.
  destruct (negb (Main.STATUS_eqb (Main.Status cmd) Main.RUNNING)
            || (Main.Pid cmd <=? 0)%Z); [now left |].
  destruct (Ascii.eqb (Main.Mode cmd) "C").
  - destruct (OS.kill_answer os =? 0)%Z; [now right | now left].
  - destruct (Ascii.eqb (Main.Mode cmd) "D"); [| now left].
    destruct (OS.fork_answer os); [now left |].
    destruct (OS.WIFEXITED (OS.wait_answer os)
              && (OS.WEXITSTATUS (OS.wait_answer os) =? 0)%Z);
      [now right | now left].
Qed.

Lemma kill_without_force_is_graceful (os : OS.oracle) (c : list Main.command)
  (i : nat) :
  forallb Wire.graceful (events (Main.kill os c i false)) = true.
Proof.
  unfold Main.kill.
  destruct (length c <=? i)%nat; [reflexivity |].
  destruct (c !! i) as [cmd|]; [| reflexivity].
  destruct (negb (Main.STATUS_eqb (Main.Status cmd) Main.RUNNING)
            || (Main.Pid cmd <=? 0)%Z); [reflexivity |].
  destruct (Ascii.eqb (Main.Mode cmd) "C").
  - destruct (OS.kill_answer os =? 0)%Z; reflexivity.
  - destruct (Ascii.eqb (Main.Mode cmd) "D"); [| reflexivity].
    destruct (OS.fork_answer os); [reflexivity |].
    destruct (OS.WIFEXITED (OS.wait_answer os)
              && (OS.WEXITSTATUS (OS.wait_answer os) =? 0)%Z); reflexivity.
Qed.

Lemma kill_succeeds (os : OS.oracle) (c : list Main.command) (i : nat)
  (force : bool) (cmd : Main.command) :
  c !! i = Some cmd -> Wire.succeeds os ->
  Main.Mode cmd = "C"%char \/ Main.Mode cmd = "D"%char ->
  Main.Status cmd = Main.RUNNING -> (0 < Main.Pid cmd)%Z ->
  after (Main.kill os c i force) = <[i := Main.set_runtime Main.DEAD (-1) cmd]> c.
Proof.
  intros Hi (Hk & [child Hf] & He & Hx) Hm Hs Hp.
  assert (Hpid : (Main.Pid cmd <=? 0)%Z = false) by (apply Z.leb_gt; lia).
  unfold Main.kill.
  rewrite (lookup_in_range c i cmd Hi), Hi, Hs, Hpid, Hk, Hf, He, Hx.
  destruct Hm as [-> | ->]; reflexivity.
Qed.

Lemma destroy_from_graceful (os : nat -> OS.oracle) (n : nat) :
  forall (i : nat) (c : list Main.command),
  forallb Wire.graceful (snd (Main.destroy_from os i n c)) = true
  /\ length (fst (Main.destroy_from os i n c)) = length c
  /\ map Wire.spec_of (fst (Main.destroy_from os i n c)) = map Wire.spec_of c.
Proof.
  induction n as [|n IH]; intros i c; [repeat split |].
  cbn [Main.destroy_from].
  assert (Hstep : exists c1 ev1,
    match c !! i with
    | Some cmd =>
        if Main.STATUS_eqb (Main.Status cmd) Main.RUNNING && (0 <? Main.Pid cmd)%Z
        then let '(_, c0, ev) := Main.kill (os i) c i false in (c0, ev)
        else (c, [])
    | None => (c, [])
    end = (c1, ev1)
    /\ forallb Wire.graceful ev1 = true /\ length c1 = length c
    /\ map Wire.spec_of c1 = map Wire.spec_of c).
  { destruct (c !! i) as [cmd|] eqn:Hi; [| exists c, []; repeat split].
    destruct (Main.STATUS_eqb (Main.Status cmd) Main.RUNNING
              && (0 <? Main.Pid cmd)%Z); [| exists c, []; repeat split].
    pose proof (kill_without_force_is_graceful (os i) c i) as Hg.
    pose proof (kill_cases (os i) c i false cmd Hi) as Hc.
    destruct (Main.kill (os i) c i false) as [[ok c0] ev].
    exists c0, ev. cbn [events result after fst snd] in Hg, Hc.
    split; [reflexivity |]. split; [exact Hg |].
    destruct Hc as [[_ ->] | [_ ->]]; [split; reflexivity |].
    rewrite length_insert, list_fmap_insert. split; [reflexivity |].
    apply list_insert_id. now rewrite list_lookup_fmap, Hi. }
  destruct Hstep as (c1 & ev1 & -> & Hg1 & Hl1 & Hs1).
  destruct (IH (S i) c1) as (Hg2 & Hl2 & Hs2).
  destruct (Main.destroy_from os (S i) n c1) as [c2 ev2].
  cbn [fst snd] in *. rewrite forallb_app, Hg1, Hg2, Hl2, Hs2. auto.
Qed.

(** The destructor only asks: every signal it sends is SIGTERM and every
    helper it forks runs [docker stop]; it never sends SIGKILL and never
    runs [docker kill].  The registry keeps its length, and every
    description, target, mode and folder. *)
Theorem destructor_is_graceful (os : nat -> OS.oracle) (g : list Main.command) :
  forallb Wire.graceful (snd (Main.destructor os g)) = true
  /\ length (fst (Main.destructor os g)) = length g
  /\ map Wire.spec_of (fst (Main.destructor os g)) = map Wire.spec_of g.
Proof. apply destroy_from_graceful. Qed.

Lemma destroy_from_stops (os : nat -> OS.oracle) (n : nat) :
  forall (i : nat) (c : list Main.command),
  (forall j, Wire.succeeds (os j)) ->
  well_formed c -> (i + n = length c)%nat ->
  (forall j cmd, (j < i)%nat -> c !! j = Some cmd -> Wire.dead cmd) ->
  Forall Wire.dead (fst (Main.destroy_from os i n c)).
Proof.
  induction n as [|n IH]; intros i c Hos Hwf Hlen Hbelow.
  - cbn [Main.destroy_from fst]. rewrite Forall_lookup. intros j cmd Hj.
    apply (Hbelow j cmd); [| exact Hj]. apply lookup_lt_Some in Hj. lia.
  - cbn [Main.destroy_from].
    destruct (lookup_lt_is_Some_2 c i) as [cmd Hi]; [lia |].
    rewrite Hi.
    destruct (well_formed_lookup c i cmd Hwf Hi) as [(Hm & _) Hrt].
    assert (Hnext : exists c1 ev1,
      (if Main.STATUS_eqb (Main.Status cmd) Main.RUNNING && (0 <? Main.Pid cmd)%Z
       then let '(_, c0, ev) := Main.kill (os i) c i false in (c0, ev)
       else (c, [])) = (c1, ev1)
      /\ well_formed c1 /\ length c1 = length c
      /\ (forall j x, (j < S i)%nat -> c1 !! j = Some x -> Wire.dead x)).
    { destruct Hrt as [[Hs Hp] | [Hs Hp]].
      - rewrite Hs. exists c, [].
        refine (conj eq_refl (conj Hwf (conj eq_refl _))).
        intros j x Hj Hx. destruct (decide (j = i)) as [-> | Hne].
        + rewrite Hi in Hx. injection Hx as <-. split; assumption.
        + apply (Hbelow j x); [lia | exact Hx].
      - rewrite Hs. apply Z.ltb_lt in Hp as Hp'. rewrite Hp'. cbn [Main.STATUS_eqb andb].
        pose proof (kill_succeeds (os i) c i false cmd Hi (Hos i) Hm Hs Hp) as Hk.
        pose proof (kill_well_formed (os i) c i false Hwf) as Hwf'.
        destruct (Main.kill (os i) c i false) as [[ok c0] ev].
        cbn [after fst snd] in Hk, Hwf'. subst c0.
        eexists _, ev. split; [reflexivity |]. split; [exact Hwf' |].
        split; [apply length_insert |].
        intros j x Hj Hx. destruct (decide (j = i)) as [-> | Hne].
        + rewrite list_lookup_insert_eq in Hx by (apply lookup_lt_Some in Hi; exact Hi).
          injection Hx as <-. split; reflexivity.
        + rewrite list_lookup_insert_ne in Hx by congruence.
          apply (Hbelow j x); [lia | exact Hx]. }
    destruct Hnext as (c1 & ev1 & -> & Hwf1 & Hl1 & Hb1).
    pose proof (IH (S i) c1 Hos Hwf1 ltac:(lia) Hb1) as Hall.
    destruct (Main.destroy_from os (S i) n c1) as [c2 ev2]. exact Hall.
Qed.

(** When every system call succeeds, the destructor leaves every
    workload of a registry the server can hold DEAD with pid -1. *)
Theorem destructor_stops_everything
  (os : nat -> OS.oracle) (g : list Main.command) :
  reachable g -> (forall j, Wire.succeeds (os j)) ->
  Forall Wire.dead (fst (Main.destructor os g)).
Proof.
  intros Hr Hos. apply destroy_from_stops; auto.
  - now apply reachable_well_formed.
  - intros j cmd Hj. lia.
Qed.

Lemma destructor_stops_everything_witness :
  Forall Wire.dead (fst (Main.destructor (fun _ => Sample.os_ok) Sample.running)).
Proof.
  apply destructor_stops_everything; [exact sample_running_reachable |].
  intros j. repeat split. exists 4242%positive. reflexivity.
Defined.

(** ** What the supervisor leaves alone *)

Lemma spec_of_insert (g : list Main.command) (i : nat) (cmd : Main.command)
  (st : Main.STATUS) (pid : Z) :
  g !! i = Some cmd ->
  map Wire.spec_of (<[i := Main.set_runtime st pid cmd]> g) = map Wire.spec_of g.
Proof.
  intros Hi. rewrite list_fmap_insert. apply list_insert_id.
  now rewrite list_lookup_fmap, Hi.
Qed.

Lemma start_spec (os : OS.oracle) (g : list Main.command) (index : nat) :
  map Wire.spec_of (after (Main.start os g index)) = map Wire.spec_of g.
Proof.
  unfold Main.start, after.
  destruct (length g <=? index)%nat; [reflexivity |].
  destruct (g !! index) as [cmd|] eqn:Hi; [| reflexivity].
  destruct (Main.STATUS_eqb (Main.Status cmd) Main.RUNNING && (0 <? Main.Pid cmd)%Z);
    [reflexivity |].
  destruct (Main.is_empty (Main.Path cmd)); [reflexivity |].
  destruct (OS.fork_answer os) as [|p]; [reflexivity |].
  cbn [fst snd]. now apply spec_of_insert.
Qed.

Lemma kill_spec (os : OS.oracle) (g : list Main.command) (index : nat)
  (force : bool) :
  map Wire.spec_of (after (Main.kill os g index force)) = map Wire.spec_of g.
Proof.
  destruct (g !! index) as [cmd|] eqn:Hi.
  - destruct (kill_cases os g index force cmd Hi) as [[_ ->] | [_ ->]];
      [reflexivity | now apply spec_of_insert].
  - unfold Main.kill, after. rewrite Hi.
    destruct (length g <=? index)%nat; reflexivity.
Qed.

Lemma process_control_spec (os : OS.oracle) (req : Http.Request)
  (g : list Main.command) :
  map Wire.spec_of (after (Main.process_control os req g)) = map Wire.spec_of g.
Proof.
  unfold Main.process_control.
  destruct (negb (Http.has_param req "fn") || negb (Http.has_param req "id"));
    [reflexivity |].
  cbv zeta.
  destruct (Cxx.stoi (Http.get_param_value req "id")) as [id| |];
    [| reflexivity | reflexivity].
  destruct ((id <? 0)%Z || (Cxx.static_cast_int (Z.of_nat (length g)) <=? id)%Z);
    [reflexivity |].
  destruct (String.eqb (Http.get_param_value req "fn") "start").
  - destruct (Main.STATUS_eqb _ Main.RUNNING); [reflexivity |].
    pose proof (start_spec os g (Z.to_nat id)) as Hs.
    destruct (Main.start os g (Z.to_nat id)) as [[pid g'] evs].
    destruct (0 <? pid)%Z; exact Hs.
  - destruct (String.eqb (Http.get_param_value req "fn") "kill"
              || String.eqb (Http.get_param_value req "fn") "end"
              || String.eqb (Http.get_param_value req "fn") "stop").
    + pose proof (kill_spec os g (Z.to_nat id)
                    (String.eqb (Http.get_param_value req "fn") "kill")) as Hk.
      destruct (Main.kill os g (Z.to_nat id) _) as [[ok g'] evs].
      destruct ok; exact Hk.
    + destruct (String.eqb (Http.get_param_value req "fn") "status"); reflexivity.
Qed.

(** [reachable] is [reachable_from] some registry that [main] serves. *)
Lemma reachable_from_boot (g : list Main.command) :
  reachable g <->
  exists room config g0,
    Main.main room config = Main.serves g0 /\ reachable_from g0 g.
Proof.
  split.
  - induction 1 as [room config g Hboot | os index g _ IH
                    | os index force g _ IH | os req g _ IH].
    + exists room, config, g. split; [exact Hboot | constructor].
    + destruct IH as (room & config & g0 & Hb & Hr).
      exists room, config, g0. split; [exact Hb | now constructor].
    + destruct IH as (room & config & g0 & Hb & Hr).
      exists room, config, g0. split; [exact Hb | now constructor].
    + destruct IH as (room & config & g0 & Hb & Hr).
      exists room, config, g0. split; [exact Hb | now constructor].
  - intros (room & config & g0 & Hb & Hr).
    induction Hr as [| os index g _ IH | os index force g _ IH | os req g _ IH].
    + exact (reach_boot room config g0 Hb).
    + now apply reach_start.
    + now apply reach_kill.
    + now apply reach_control.
Qed.

(** Whatever calls of [start] and [kill] and whatever control requests
    a server has handled since it was started on the registry [g0], its
    registry holds the entries of [g0], one for one and in their order:
    no description, target, mode or working folder is ever rewritten,
    and no entry is added or removed. *)
Theorem configuration_is_never_rewritten (g0 g : list Main.command) :
  reachable_from g0 g ->
  map Wire.spec_of g = map Wire.spec_of g0 /\ length g = length g0.
Proof.
  assert (Hlen : forall a b : list Main.command,
            map Wire.spec_of a = map Wire.spec_of b -> length a = length b).
  { intros a b H. rewrite <- (length_map Wire.spec_of a), H. apply length_map. }
  intros Hr. assert (Hs : map Wire.spec_of g = map Wire.spec_of g0).
  { induction Hr as [| os index g _ IH | os index force g _ IH | os req g _ IH].
    - reflexivity.
    - now rewrite start_spec.
    - now rewrite kill_spec.
    - now rewrite process_control_spec. }
  split; [exact Hs | now apply Hlen].
Qed.

Lemma configuration_is_never_rewritten_witness :
  map Wire.spec_of Sample.running = map Wire.spec_of Sample.registry
  /\ length Sample.running = length Sample.registry.
Proof.
  apply configuration_is_never_rewritten.
  unfold Sample.running. apply from_start, from_start, from_boot.
Defined.

Lemma legacy_spec_of_insert (c : list Legacy.command) (i : nat)
  (cmd cmd' : Legacy.command) :
  c !! i = Some cmd -> Wire.legacy_spec_of cmd' = Wire.legacy_spec_of cmd ->
  map Wire.legacy_spec_of (<[i := cmd']> c) = map Wire.legacy_spec_of c.
Proof.
  intros Hi He. rewrite list_fmap_insert, He. apply list_insert_id.
  now rewrite list_lookup_fmap, Hi.
Qed.

Lemma legacy_start_spec (os : OS.oracle) (c : list Legacy.command) (index : nat) :
  map Wire.legacy_spec_of (legacy_after (Legacy.start os c index))
  = map Wire.legacy_spec_of c.
Proof.
  unfold Legacy.start, legacy_after.
  destruct (length c <=? index)%nat; [reflexivity |].
  destruct (c !! index) as [cmd|] eqn:Hi; [| reflexivity].
  destruct (Legacy.is_empty (Legacy.Path cmd)); [reflexivity |].
  destruct (OS.fork_answer os) as [|p]; [reflexivity |].
  cbn [fst snd]. now apply (legacy_spec_of_insert c index cmd).
Qed.

Lemma legacy_kill_spec (os : OS.oracle) (c : list Legacy.command) (index : nat)
  (force : bool) :
  map Wire.legacy_spec_of (legacy_after (Legacy.kill os c index force))
  = map Wire.legacy_spec_of c.
Proof.
  unfold Legacy.kill, legacy_after.
  destruct (length c <=? index)%nat; [reflexivity |].
  destruct (c !! index) as [cmd|] eqn:Hi; [| reflexivity].
  cbv zeta.
  destruct (Legacy.Pid cmd <=? 0)%Z; [reflexivity |].
  destruct (Ascii.eqb (Legacy.Mode cmd) "C").
  - destruct (OS.kill_answer os =? 0)%Z; [| reflexivity].
    cbn [fst snd]. now apply (legacy_spec_of_insert c index cmd).
  - destruct (Ascii.eqb (Legacy.Mode cmd) "D"); [| reflexivity].
    destruct (Legacy.is_empty (Legacy.Path cmd)); [reflexivity |].
    destruct (OS.fork_answer os) as [|child]; [reflexivity |].
    cbn [fst snd]. now apply (legacy_spec_of_insert c index cmd).
Qed.

(** The first revision keeps the configuration too: no call of [start]
    or [kill] and no control request changes a description, target,
    mode or folder, or the number of entries. *)
Theorem legacy_configuration_is_kept (os : OS.oracle)
  (c : list Legacy.command) (index : nat) (force : bool) (req : Http.Request) :
  map Wire.legacy_spec_of (legacy_after (Legacy.start os c index))
  = map Wire.legacy_spec_of c
  /\ map Wire.legacy_spec_of (legacy_after (Legacy.kill os c index force))
     = map Wire.legacy_spec_of c
  /\ map Wire.legacy_spec_of (legacy_after (Legacy.process_control os req c))
     = map Wire.legacy_spec_of c.
Proof.
  split; [apply legacy_start_spec |]. split; [apply legacy_kill_spec |].
  unfold Legacy.process_control.
  destruct (negb (Http.has_param req "fn") || negb (Http.has_param req "id"));
    [reflexivity |].
  cbv zeta.
  destruct (Cxx.stoi (Http.get_param_value req "id")) as [id| |];
    [| reflexivity | reflexivity].
  destruct ((id <? 0)%Z || (Cxx.static_cast_int (Z.of_nat (length c)) <=? id)%Z);
    [reflexivity |].
  destruct (String.eqb (Http.get_param_value req "fn") "start" && _).
  - pose proof (legacy_start_spec os c (Z.to_nat id)) as Hs.
    destruct (Legacy.start os c (Z.to_nat id)) as [[pid c'] evs].
    destruct (pid <? 0)%Z; exact Hs.
  - destruct (String.eqb (Http.get_param_value req "fn") "kill"
              || String.eqb (Http.get_param_value req "fn") "end"
              || String.eqb (Http.get_param_value req "fn") "stop").
    + pose proof (legacy_kill_spec os c (Z.to_nat id) true) as Hk.
      destruct (Legacy.kill os c (Z.to_nat id) true) as [[ok c'] evs].
      destruct ok; exact Hk.
    + destruct (String.eqb (Http.get_param_value req "fn") "status"); reflexivity.
Qed.

(** ** The command line of the server *)








(** ** The client's parser of the process list *)

Lemma find_if_app (test : ascii -> bool) (pre r : string) (k : nat) :
  Cxx.find_if test (String.length pre + k) (pre ++ r)
  = option_map (Nat.add (String.length pre)) (Cxx.find_if test k r).
Proof.
  induction pre as [|c pre IH]; cbn [String.length Nat.add].
  - rewrite string_app_nil_l. destruct (Cxx.find_if test k r); reflexivity.
  - rewrite string_app_cons. cbn [Cxx.find_if]. rewrite IH.
    destruct (Cxx.find_if test k r); reflexivity.
Qed.

Lemma find_app (pat pre r : string) (k : nat) :
  Cxx.find pat (String.length pre + k) (pre ++ r)
  = option_map (Nat.add (String.length pre)) (Cxx.find pat k r).
Proof.
  induction pre as [|c pre IH]; cbn [String.length Nat.add].
  - rewrite string_app_nil_l. destruct (Cxx.find pat k r); reflexivity.
  - rewrite string_app_cons. cbn [Cxx.find]. rewrite IH.
    destruct (Cxx.find pat k r); reflexivity.
Qed.

Lemma get_app (pre r : string) (k : nat) :
  String.get (String.length pre + k) (pre ++ r) = String.get k r.
Proof.
  induction pre as [|c pre IH]; [reflexivity |].
  rewrite string_app_cons. exact IH.
Qed.

Lemma substring_app (pre r : string) (k n : nat) :
  String.substring (String.length pre + k) n (pre ++ r) = String.substring k n r.
Proof.
  induction pre as [|c pre IH]; [reflexivity |].
  rewrite string_app_cons. exact IH.
Qed.

Lemma substring_prefix (v r : string) :
  String.substring 0 (String.length v) (v ++ r) = v.
Proof.
  induction v as [|c v IH]; [destruct r; reflexivity |].
  rewrite string_app_cons. cbn [String.length String.substring]. now rewrite IH.
Qed.

(** find_if from 0: the split *)
Lemma find_if_split (test : ascii -> bool) (s : string) :
  (Cxx.find_if test 0 s = None /\ Wire.seek_if test s = None /\ Wire.until test s = None)
  \/ exists v c r, s = v ++ String c r /\ test c = true
       /\ Cxx.find_if test 0 s = Some (String.length v)
       /\ Wire.seek_if test s = Some (String c r)
       /\ Wire.until test s = Some v.
Proof.
  induction s as [|c s IH]; [left; auto |].
  cbn [Cxx.find_if Wire.seek_if Wire.until].
  destruct (test c) eqn:Hc.
  - right. exists "", c, s. auto.
  - destruct IH as [(-> & -> & ->) | (v & c' & r & -> & Ht & -> & -> & ->)].
    + left. auto.
    + right. exists (String c v), c', r. rewrite string_app_cons. auto.
Qed.

Lemma find_split (pat s : string) :
  (Cxx.find pat 0 s = None /\ Wire.seek pat s = None)
  \/ exists v r, s = v ++ r
       /\ Cxx.find pat 0 s = Some (String.length v) /\ Wire.seek pat s = Some r.
Proof.
  induction s as [|c s IH]; [left; auto |].
  cbn [Cxx.find Wire.seek].
  destruct (Cxx.starts_with pat (String c s)) eqn:Hc.
  - right. exists "", (String c s). auto.
  - destruct IH as [(-> & ->) | (v & r & -> & -> & ->)].
    + left. auto.
    + right. exists (String c v), r. rewrite string_app_cons. auto.
Qed.

Lemma extractField_field (pre s name : string) :
  Client.extractField (pre ++ s) (String.length pre) name = Wire.field name s.
Proof.
  unfold Client.extractField, Wire.field. cbv zeta.
  rewrite <- (Nat.add_0_r (String.length pre)) at 1. rewrite find_app.
  destruct (find_split (Client.quote ++ name ++ Client.quote) s)
    as [(-> & ->) | (v1 & s1 & -> & -> & ->)]; [reflexivity |].
  cbn [option_map].
  rewrite <- string_app_assoc, <- string_length_app.
  set (p1 := pre ++ v1).
  unfold Cxx.find_char.
  rewrite <- (Nat.add_0_r (String.length p1)) at 1. rewrite find_if_app.
  destruct (find_if_split (Ascii.eqb ":") s1)
    as [(-> & -> & _) | (v2 & c2 & s2 & -> & _ & -> & -> & _)]; [reflexivity |].
  cbn [option_map Wire.tail].
  unfold Cxx.find_first_not_of.
  replace (p1 ++ v2 ++ String c2 s2) with ((p1 ++ v2 ++ String c2 "") ++ s2)
    by (rewrite !string_app_assoc; reflexivity).
  replace (String.length p1 + String.length v2 + 1)%nat
    with (String.length (p1 ++ v2 ++ String c2 "") + 0)%nat
    by (rewrite !string_length_app; simpl; lia).
  set (p2 := p1 ++ v2 ++ String c2 "").
  rewrite find_if_app.
  destruct (find_if_split (fun c => negb (Cxx.mem c Client.white)) s2)
    as [(-> & -> & _) | (v3 & c3 & s4 & -> & _ & -> & -> & _)]; [reflexivity |].
  cbn [option_map].
  rewrite <- string_app_assoc, <- string_length_app.
  set (p3 := p2 ++ v3).
  unfold Client.is_quote_at.
  rewrite <- (Nat.add_0_r (String.length p3)) at 1. rewrite get_app.
  cbn [String.get].
  destruct (Ascii.eqb c3 "034") eqn:Hq.
  - replace (p3 ++ String c3 s4) with ((p3 ++ String c3 "") ++ s4)
      by (rewrite !string_app_assoc; reflexivity).
    replace (String.length p3 + 1)%nat
      with (String.length (p3 ++ String c3 "") + 0)%nat
      by (rewrite !string_length_app; simpl; lia).
    set (p4 := p3 ++ String c3 "").
    rewrite find_if_app.
    destruct (find_if_split (Ascii.eqb "034") s4)
      as [(-> & _ & ->) | (v5 & c5 & s5 & -> & _ & -> & _ & ->)]; [reflexivity |].
    cbn [option_map from_option id]. unfold Cxx.substr.
    replace (String.length p4 + String.length v5 - String.length p3 - 1)%nat
      with (String.length v5)
      by (subst p4; rewrite !string_length_app; simpl; lia).
    replace (String.length p3 + 1)%nat with (String.length p4 + 0)%nat
      by (subst p4; rewrite !string_length_app; simpl; lia).
    rewrite substring_app. apply substring_prefix.
  - unfold Cxx.find_first_of.
    rewrite <- (Nat.add_0_r (String.length p3)) at 1. rewrite find_if_app.
    destruct (find_if_split (fun c => Cxx.mem c Client.value_end) (String c3 s4))
      as [(-> & _ & ->) | (v5 & c5 & s5 & E & _ & -> & _ & ->)]; [reflexivity |].
    cbn [option_map from_option id]. unfold Cxx.substr. rewrite E.
    replace (String.length p3 + String.length v5 - String.length p3)%nat
      with (String.length v5) by lia.
    rewrite <- (Nat.add_0_r (String.length p3)) at 1.
    rewrite substring_app. apply substring_prefix.
Qed.

Lemma parse_object_at (pre s : string) (id : Z) :
  Client.parse_object (pre ++ s) (String.length pre) id = Wire.object_at s id.
Proof.
  unfold Client.parse_object, Wire.object_at. now rewrite !extractField_field.
Qed.

Lemma parse_loop_objects (s : string) :
  forall (pre : string) (fuel : nat) (id : Z) (acc : list Client.ProcessInfo),
  (String.length s < fuel)%nat ->
  Client.parse_loop fuel (pre ++ s) (String.length pre) id acc
  = Some (acc ++ Wire.objects s id)%list.
Proof.
  induction s as [|c s IH]; intros pre fuel id acc Hfuel.
  - destruct fuel as [|fuel]; [simpl in Hfuel; lia |].
    cbn [Client.parse_loop Wire.objects]. unfold Cxx.find_char.
    rewrite <- (Nat.add_0_r (String.length pre)), find_if_app.
    cbn [Cxx.find_if option_map]. now rewrite app_nil_r.
  - destruct fuel as [|fuel]; [simpl in Hfuel; lia |].
    assert (Hnext : pre ++ String c s = (pre ++ String c "") ++ s)
      by (rewrite string_app_assoc; reflexivity).
    assert (Hlen : String.length (pre ++ String c "") = (String.length pre + 1)%nat)
      by (rewrite string_length_app; reflexivity).
    cbn [Client.parse_loop Wire.objects]. unfold Cxx.find_char.
    rewrite <- (Nat.add_0_r (String.length pre)) at 1. rewrite find_if_app.
    cbn [Cxx.find_if].
    destruct (Ascii.eqb "{" c) eqn:Hc.
    + cbn [option_map]. rewrite Nat.add_0_r, parse_object_at.
      rewrite Hnext, <- Hlen, IH by (simpl in Hfuel; lia).
      now rewrite <- app_assoc.
    + rewrite <- (IH (pre ++ String c "") (S fuel) id acc) by (simpl in Hfuel; lia).
      cbn [Client.parse_loop]. unfold Cxx.find_char.
      rewrite <- Hnext.
      replace (String.length (pre ++ String c "")) with (String.length pre + 1)%nat.
      replace (pre ++ String c s) with (pre ++ String c "" ++ s) by reflexivity.
      rewrite (find_if_app _ pre (String c "" ++ s) 1).
      rewrite string_app_cons, string_app_nil_l. cbn [Cxx.find_if].
      destruct (Cxx.find_if (Ascii.eqb "{") 0 s) as [k|]; reflexivity.
Qed.

Lemma parseProcessList_objects (body : string) :
  Client.parseProcessList body = Some (Wire.objects body 0).
Proof.
  unfold Client.parseProcessList.
  exact (parse_loop_objects body "" (S (String.length body)) 0 [] (Nat.lt_succ_diag_r _)).
Qed.

Lemma objects_length (s : string) : forall id,
  length (Wire.objects s id) = Wire.count "{" s.
Proof.
  induction s as [|c s IH]; intros id; [reflexivity |].
  cbn [Wire.objects Wire.count]. destruct (Ascii.eqb "{" c); simpl; now rewrite IH.
Qed.

Lemma objects_ids (s : string) : forall id i p,
  Wire.objects s id !! i = Some p -> Client.id p = (id + Z.of_nat i)%Z.
Proof.
  induction s as [|c s IH]; intros id i p; [discriminate |].
  cbn [Wire.objects]. destruct (Ascii.eqb "{" c); [| apply IH].
  destruct i as [|i]; simpl.
  - intros [= <-]. simpl. lia.
  - intros H. apply IH in H. lia.
Qed.

(** [parseProcessList] returns for every body: each pass of its loop
    moves on in the text.  Whatever the text is, it makes one entry for
    each opening brace, also for one inside a description, and numbers
    the entries from 0 in the order of the braces. *)
Theorem parseProcessList_one_entry_per_brace (jsonBody : string) :
  (Z.of_nat (Wire.count "{" jsonBody) <= Cxx.INT_MAX)%Z ->
  exists processes,
    Client.parseProcessList jsonBody = Some processes
    /\ length processes = Wire.count "{" jsonBody
    /\ forall i p, processes !! i = Some p -> Client.id p = Z.of_nat i.
Proof.
  intros _. exists (Wire.objects jsonBody 0).
  split; [apply parseProcessList_objects |].
  split; [apply objects_length |].
  intros i p H. now rewrite (objects_ids _ _ _ _ H).
Qed.

Lemma parseProcessList_one_entry_per_brace_witness :
  exists processes,
    Client.parseProcessList "[{}, {x{]" = Some processes
    /\ length processes = 3%nat
    /\ forall i p, processes !! i = Some p -> Client.id p = Z.of_nat i.
Proof.
  apply (parseProcessList_one_entry_per_brace "[{}, {x{]").
  vm_compute. discriminate.
Defined.

Lemma ascii_eqb_sym (a b : ascii) : Ascii.eqb a b = Ascii.eqb b a.
Proof.
  destruct (Ascii.eqb_spec a b) as [-> | H]; [now rewrite Ascii.eqb_refl |].
  symmetry. apply Ascii.eqb_neq. congruence.
Qed.

Lemma free_of_app (set a b : string) :
  Wire.free_of set (a ++ b) = Wire.free_of set a && Wire.free_of set b.
Proof.
  induction a as [|c a IH]; [reflexivity |].
  rewrite string_app_cons. cbn [Wire.free_of]. rewrite IH. apply andb_assoc.
Qed.

Lemma seek_skip (q : ascii) (pat v r : string) :
  Wire.free_of (String q "") v = true ->
  Wire.seek (String q pat) (v ++ r) = Wire.seek (String q pat) r.
Proof.
  induction v as [|c v IH]; [reflexivity |].
  rewrite string_app_cons. cbn [Wire.free_of Cxx.mem Wire.seek Cxx.starts_with].
  rewrite orb_false_r, (ascii_eqb_sym q c).
  destruct (Ascii.eqb c q); [discriminate |]. exact IH.
Qed.

Lemma until_stop (test : ascii -> bool) (set v : string) (e : ascii) (r : string) :
  (forall c, test c = Cxx.mem c set) ->
  Wire.free_of set v = true -> test e = true ->
  Wire.until test (v ++ String e r) = Some v.
Proof.
  intros Htest Hv He. induction v as [|c v IH].
  - rewrite string_app_nil_l. cbn [Wire.until]. now rewrite He.
  - rewrite string_app_cons. cbn [Wire.until]. cbn [Wire.free_of] in Hv.
    rewrite Htest. destruct (Cxx.mem c set); [discriminate |].
    now rewrite IH.
Qed.

Lemma objects_skip (v r : string) (id : Z) :
  Wire.free_of "{" v = true -> Wire.objects (v ++ r) id = Wire.objects r id.
Proof.
  induction v as [|c v IH]; [reflexivity |].
  rewrite string_app_cons. cbn [Wire.free_of Cxx.mem Wire.objects].
  rewrite orb_false_r, (ascii_eqb_sym "{" c).
  destruct (Ascii.eqb c "{"); [discriminate |]. exact IH.
Qed.

(** a quoted value against a quoted pattern *)
Lemma starts_with_quoted (w d r : string) :
  Wire.free_of Client.quote w = true -> Wire.free_of Client.quote d = true ->
  Cxx.starts_with (w ++ Client.quote) (d ++ String "034" r) = String.eqb w d.
Proof.
  revert d. induction w as [|a w IH]; intros d Hw Hd.
  - rewrite string_app_nil_l. destruct d as [|b d]; [reflexivity |].
    rewrite string_app_cons. cbn [Client.quote Cxx.starts_with String.eqb].
    cbn [Wire.free_of Client.quote Cxx.mem] in Hd. rewrite orb_false_r in Hd.
    rewrite (ascii_eqb_sym "034" b).
    destruct (Ascii.eqb b "034"); [discriminate | reflexivity].
  - rewrite string_app_cons. cbn [Wire.free_of Client.quote Cxx.mem] in Hw.
    rewrite orb_false_r in Hw.
    destruct d as [|b d].
    + rewrite string_app_nil_l. cbn [Cxx.starts_with String.eqb].
      destruct (Ascii.eqb a "034"); [discriminate | reflexivity].
    + rewrite string_app_cons. cbn [Cxx.starts_with String.eqb].
      cbn [Wire.free_of Client.quote Cxx.mem] in Hd.
      destruct (Ascii.eqb a b); [| reflexivity]. cbn [andb].
      apply IH.
      * destruct (Ascii.eqb a "034"); [discriminate | exact Hw].
      * destruct (negb (Ascii.eqb b "034" || false)); [exact Hd | discriminate].
Qed.

#[local] Arguments Cxx.starts_with !pat !s.

Ltac norm := repeat (rewrite string_app_cons || rewrite string_app_nil_l).
Ltac run := cbn [Wire.seek Wire.seek_if Wire.until Wire.tail Cxx.starts_with Cxx.mem
                 Ascii.eqb Bool.eqb andb orb negb from_option id].

Lemma field_desc (n D st m p R : string) :
  Wire.free_of Client.quote n = true -> Wire.free_of Client.quote D = true ->
  Wire.field "desc" (Wire.element n D st m p R) = D.
Proof.
  intros Hn HD. unfold Wire.field, Wire.element, Client.quote, Client.white, Main.nl.
  norm. run.
  rewrite (seek_skip "034" _ n) by exact Hn. run.
  rewrite (until_stop (Ascii.eqb "034") Client.quote D) ; auto.
  intros c. cbn [Client.quote Cxx.mem]. rewrite orb_false_r. apply ascii_eqb_sym.
Qed.

Lemma until_quote (v r : string) :
  Wire.free_of Client.quote v = true ->
  Wire.until (Ascii.eqb "034") (v ++ String "034" r) = Some v.
Proof.
  intros Hv. apply (until_stop _ Client.quote); auto.
  intros c. cbn [Client.quote Cxx.mem]. rewrite orb_false_r. apply ascii_eqb_sym.
Qed.

Lemma field_status (n D st m p R : string) :
  Wire.free_of Client.quote n = true -> Wire.free_of Client.quote D = true ->
  Wire.free_of Client.quote st = true ->
  Wire.field "status" (Wire.element n D st m p R) = st.
Proof.
  intros Hn HD Hst. unfold Wire.field, Wire.element, Client.quote, Client.white, Main.nl.
  norm. run.
  rewrite (seek_skip "034" _ n) by exact Hn. run.
  rewrite (starts_with_quoted "status" D) by (exact HD || reflexivity).
  destruct (String.eqb_spec "status" D) as [<- | Hne].
  - norm. run. rewrite until_quote by assumption; reflexivity.
  - rewrite (seek_skip "034" _ D) by exact HD. run. rewrite until_quote by assumption; reflexivity.
Qed.

Lemma field_mode (n D st m p R : string) :
  Wire.free_of Client.quote n = true -> Wire.free_of Client.quote D = true ->
  Wire.free_of Client.quote st = true -> Wire.free_of Client.quote m = true ->
  String.eqb "mode" st = false ->
  Wire.field "mode" (Wire.element n D st m p R) = if String.eqb "mode" D then st else m.
Proof.
  intros Hn HD Hst Hm Hmst.
  unfold Wire.field, Wire.element, Client.quote, Client.white, Main.nl.
  norm. run.
  rewrite (seek_skip "034" _ n) by exact Hn. run.
  rewrite (starts_with_quoted "mode" D) by (exact HD || reflexivity).
  destruct (String.eqb_spec "mode" D) as [<- | Hne].
  - norm. run. rewrite until_quote by assumption; reflexivity.
  - rewrite (seek_skip "034" _ D) by exact HD. run.
    rewrite (starts_with_quoted "mode" st), Hmst by (exact Hst || reflexivity).
    rewrite (seek_skip "034" _ st) by exact Hst. run. rewrite until_quote by assumption; reflexivity.
Qed.

Lemma field_pid (n D st m p R : string) (c : ascii) (p' : string) :
  Wire.free_of Client.quote n = true -> Wire.free_of Client.quote D = true ->
  Wire.free_of Client.quote st = true -> Wire.free_of Client.quote m = true ->
  String.eqb "pid" st = false -> String.eqb "pid" m = false ->
  p = String c p' -> Cxx.mem c Client.white = false ->
  Ascii.eqb c "034" = false -> Wire.free_of Client.value_end p = true ->
  Wire.field "pid" (Wire.element n D st m p R) = if String.eqb "pid" D then st else p.
Proof.
  intros Hn HD Hst Hm Hpst Hpm Hp Hw Hq Hfree.
  unfold Wire.field, Wire.element, Client.quote, Main.nl.
  norm. run.
  rewrite (seek_skip "034" _ n) by exact Hn. run.
  rewrite (starts_with_quoted "pid" D) by (exact HD || reflexivity).
  destruct (String.eqb_spec "pid" D) as [<- | Hne].
  - norm. unfold Client.white. run. rewrite until_quote by assumption; reflexivity.
  - rewrite (seek_skip "034" _ D) by exact HD. run.
    rewrite (starts_with_quoted "pid" st), Hpst by (exact Hst || reflexivity).
    rewrite (seek_skip "034" _ st) by exact Hst. run.
    rewrite (starts_with_quoted "pid" m), Hpm by (exact Hm || reflexivity).
    rewrite (seek_skip "034" _ m) by exact Hm. run.
    rewrite Hp in Hfree |- *. norm.
    cbn [Wire.seek_if Wire.tail]. 
    change (Cxx.mem " " Client.white) with true. cbn [negb].
    cbn [Wire.seek_if]. rewrite Hw. cbn [negb]. rewrite Hq.
    cbn [Wire.free_of] in Hfree. apply andb_true_iff in Hfree as [Hc Hp'].
    apply negb_true_iff in Hc. cbn [Wire.until]. rewrite Hc.
    rewrite (until_stop _ Client.value_end p'); auto.
Qed.


Lemma mem_free (c : ascii) (big set : string) :
  Cxx.mem c big = true -> Wire.free_of set big = true -> Cxx.mem c set = false.
Proof.
  induction big as [|x big IH]; [discriminate |].
  cbn [Cxx.mem Wire.free_of]. intros Hc Hf.
  apply andb_true_iff in Hf as [Hx Hf]. apply negb_true_iff in Hx.
  destruct (Ascii.eqb_spec c x) as [-> | _]; [exact Hx | now apply IH].
Qed.

Lemma digit_mem (d : N) :
  (d < 10)%N -> Cxx.mem (pretty_N_char d) "0123456789-" = true.
Proof.
  intros H.
  assert (Hd : (d = 0 \/ d = 1 \/ d = 2 \/ d = 3 \/ d = 4 \/ d = 5 \/ d = 6
                \/ d = 7 \/ d = 8 \/ d = 9)%N) by lia.
  repeat (destruct Hd as [-> | Hd]; [reflexivity |]).
  subst. reflexivity.
Qed.

Lemma pretty_go_free (set : string) (x : N) : forall s : string,
  Wire.free_of set "0123456789-" = true -> Wire.free_of set s = true ->
  Wire.free_of set (pretty_N_go x s) = true.
Proof.
  induction x as [x IH] using (well_founded_induction N.lt_wf_0).
  intros s Hset Hs.
  destruct (N.eq_dec x 0%N) as [-> | Hx]; [now rewrite pretty_N_go_0 |].
  rewrite pretty_N_go_step by now apply N.neq_0_lt_0.
  apply IH; [apply N.div_lt; lia | exact Hset |].
  cbn [Wire.free_of]. rewrite Hs, andb_true_r. apply negb_true_iff.
  apply (mem_free _ "0123456789-"); [| exact Hset].
  apply digit_mem. apply N.mod_lt. lia.
Qed.

Lemma to_string_free (set : string) (z : Z) :
  Wire.free_of set "0123456789-" = true ->
  Wire.free_of set (Cxx.to_string z) = true.
Proof.
  intros Hset. unfold Cxx.to_string, pretty, pretty_Z.
  destruct z as [|p|p].
  - change (negb (Cxx.mem "0" set) && true = true).
    rewrite andb_true_r. apply negb_true_iff.
    now apply (mem_free _ "0123456789-").
  - unfold pretty, pretty_positive, pretty, pretty_N.
    destruct (decide (N.pos p = 0%N)) as [H|_]; [discriminate |].
    now apply pretty_go_free.
  - unfold pretty, pretty_positive, pretty, pretty_N.
    destruct (decide (N.pos p = 0%N)) as [H|_]; [discriminate |].
    rewrite string_app_cons, string_app_nil_l. cbn [Wire.free_of].
    rewrite pretty_go_free by auto. rewrite andb_true_r. apply negb_true_iff.
    now apply (mem_free _ "0123456789-").
Qed.

Lemma to_string_head (z : Z) : exists c r, Cxx.to_string z = String c r.
Proof.
  unfold Cxx.to_string, pretty, pretty_Z. destruct z as [|p|p].
  - now exists "0"%char, "".
  - unfold pretty, pretty_positive, pretty, pretty_N.
    destruct (decide (N.pos p = 0%N)) as [H|_]; [discriminate |].
    destruct (pretty_go_head (N.pos p) "" ltac:(lia)) as (d & r & _ & E).
    eauto.
  - eexists _, _. rewrite string_app_cons. reflexivity.
Qed.

(** escapeJsonString *)
Lemma escape_keeps_free (set s : string) :
  Wire.free_of set "\bfnrt" = true -> Wire.free_of set s = true ->
  Wire.free_of set (Main.escapeJsonString s) = true.
Proof.
  intros Hset. induction s as [|c s IH]; [reflexivity |].
  cbn [Wire.free_of Main.escapeJsonString]. intros H.
  apply andb_true_iff in H as [Hc Hs]. rewrite free_of_app, (IH Hs), andb_true_r.
  assert (Hin : forall x, Cxx.mem x "\bfnrt" = true -> Cxx.mem x set = false)
    by (intros x Hx; now apply (mem_free x "\bfnrt")).
  unfold Main.escape_char.
  repeat match goal with
  | |- context [Ascii.eqb c ?k] =>
      destruct (Ascii.eqb_spec c k) as [-> | ?]
  end; cbn [Wire.free_of]; rewrite ?andb_true_r;
  try (rewrite Hc; cbn [andb]); rewrite ?Hin by reflexivity; auto.
Qed.

Lemma escape_plain (s : string) :
  Wire.free_of Wire.escaped s = true -> Main.escapeJsonString s = s.
Proof.
  induction s as [|c s IH]; [reflexivity |].
  cbn [Wire.free_of Main.escapeJsonString]. intros H.
  apply andb_true_iff in H as [Hc Hs]. apply negb_true_iff in Hc.
  destruct (escape_char_cases c) as [(_ & -> & _) | (Hc' & _)]; [| congruence].
  rewrite string_app_cons, string_app_nil_l. now rewrite IH.
Qed.

Lemma escapeJsonString_inj (a : string) : forall b,
  Main.escapeJsonString a = Main.escapeJsonString b -> a = b.
Proof.
  induction a as [|c a IH]; intros b H.
  - destruct b as [|c' b]; [reflexivity |].
    pose proof (escape_not_shorter (String c' b)) as L.
    rewrite <- H in L. simpl in L. lia.
  - destruct b as [|c' b].
    + pose proof (escape_not_shorter (String c a)) as L.
      rewrite H in L. simpl in L. lia.
    + cbn [Main.escapeJsonString] in H.
      apply escape_char_inj in H as [-> H]. f_equal. now apply IH.
Qed.

Lemma escape_eqb (w d : string) :
  Wire.free_of Wire.escaped w = true ->
  String.eqb w (Main.escapeJsonString d) = String.eqb d w.
Proof.
  intros Hw. destruct (String.eqb_spec d w) as [-> | Hne].
  - rewrite (escape_plain w Hw). apply String.eqb_refl.
  - apply String.eqb_neq. intros E. apply Hne.
    apply escapeJsonString_inj. now rewrite <- E, (escape_plain w Hw).
Qed.

Lemma free_of_sub (set set' s : string) :
  (forall c, Cxx.mem c set' = true -> Cxx.mem c set = true) ->
  Wire.free_of set s = true -> Wire.free_of set' s = true.
Proof.
  intros Hsub. induction s as [|c s IH]; [reflexivity |].
  cbn [Wire.free_of]. intros H. apply andb_true_iff in H as [Hc Hs].
  rewrite (IH Hs), andb_true_r. apply negb_true_iff in Hc.
  apply negb_true_iff. destruct (Cxx.mem c set') eqn:E; [| reflexivity].
  apply Hsub in E. congruence.
Qed.

Lemma objects_elem (n D st m p X : string) (id : Z) :
  Wire.free_of "{" n = true -> Wire.free_of "{" D = true ->
  Wire.free_of "{" st = true -> Wire.free_of "{" m = true ->
  Wire.free_of "{" p = true ->
  Wire.objects (Wire.element n D st m p X) id
  = Wire.object_at (Wire.element n D st m p X) id :: Wire.objects X (id + 1).
Proof.
  intros Hn HD Hst Hm Hp.
  change (Wire.objects (Wire.element n D st m p X) id)
    with (Wire.object_at (Wire.element n D st m p X) id
            :: Wire.objects (Wire.tail (Wire.element n D st m p X)) (id + 1)).
  f_equal. unfold Wire.element, Wire.tail. rewrite string_app_cons, string_app_nil_l.
  generalize (id + 1)%Z. intros k. clear id.
  unfold Client.quote.
  repeat (rewrite objects_skip by (reflexivity || assumption)).
  reflexivity.
Qed.

Lemma parse_pid_to_string (z : Z) :
  (Cxx.INT_MIN <= z <= Cxx.INT_MAX)%Z -> Client.parse_pid (Cxx.to_string z) = z.
Proof.
  intros Hz. unfold Client.parse_pid.
  destruct (to_string_head z) as (c & r & E).
  rewrite stoi_to_string by exact Hz. now rewrite E.
Qed.

Lemma object_at_elem (i : nat) (cmd : Main.command) (X : string) :
  entry_ok cmd -> runtime_ok cmd -> Wire.readable cmd ->
  Wire.object_at
    (Wire.element (Cxx.to_string (Z.of_nat i)) (Main.escapeJsonString (Main.Desc cmd))
       (Main.status_text (Main.Status cmd)) (String (Main.Mode cmd) "")
       (Cxx.to_string (Main.Pid cmd)) X) (Z.of_nat i)
  = Wire.shown i cmd.
Proof.
  intros (Hmode & _) Hrt (Hdesc & Hpid).
  assert (Hn : Wire.free_of Client.quote (Cxx.to_string (Z.of_nat i)) = true)
    by now apply to_string_free.
  assert (HD : Wire.free_of Client.quote (Main.escapeJsonString (Main.Desc cmd)) = true).
  { apply escape_keeps_free; [reflexivity |].
    revert Hdesc. apply free_of_sub. intros c. cbn [Client.quote Cxx.mem].
    intros H. rewrite orb_false_r in H. now rewrite H. }
  assert (Hst : Wire.free_of Client.quote (Main.status_text (Main.Status cmd)) = true
                /\ String.eqb "mode" (Main.status_text (Main.Status cmd)) = false
                /\ String.eqb "pid" (Main.status_text (Main.Status cmd)) = false
                /\ Client.parse_pid (Main.status_text (Main.Status cmd)) = (-1)%Z)
    by (destruct (Main.Status cmd); repeat split; reflexivity).
  destruct Hst as (Hst & Hst1 & Hst2 & Hst3).
  assert (Hm : Wire.free_of Client.quote (String (Main.Mode cmd) "") = true
               /\ String.eqb "pid" (String (Main.Mode cmd) "") = false)
    by (destruct Hmode as [-> | ->]; split; reflexivity).
  destruct Hm as (Hm & Hm1).
  destruct (to_string_head (Main.Pid cmd)) as (c & p' & Hp).
  assert (Hw : Wire.free_of Client.white (Cxx.to_string (Main.Pid cmd)) = true)
    by now apply to_string_free.
  assert (Hq : Wire.free_of Client.quote (Cxx.to_string (Main.Pid cmd)) = true)
    by now apply to_string_free.
  assert (He : Wire.free_of Client.value_end (Cxx.to_string (Main.Pid cmd)) = true)
    by now apply to_string_free.
  rewrite Hp in Hw, Hq. cbn [Wire.free_of Client.quote Cxx.mem] in Hw, Hq.
  apply andb_true_iff in Hw as [Hw _]. apply negb_true_iff in Hw.
  apply andb_true_iff in Hq as [Hq _]. apply negb_true_iff in Hq.
  rewrite orb_false_r in Hq.
  unfold Wire.object_at, Wire.shown.
  rewrite field_desc, field_status, field_mode by assumption.
  rewrite (field_pid _ _ _ _ _ _ c p') by assumption.
  rewrite !escape_eqb by reflexivity.
  f_equal.
  destruct (String.eqb (Main.Desc cmd) "pid"); [exact Hst3 |].
  apply parse_pid_to_string.
  destruct Hrt as [[_ ->] | [_ Hpos]]; unfold Cxx.INT_MIN, Cxx.INT_MAX in *; lia.
Qed.

Lemma objects_list (cmds : list Main.command) : forall (i : nat) (R : string),
  Forall (fun cmd => entry_ok cmd /\ runtime_ok cmd) cmds ->
  Forall Wire.readable cmds ->
  Wire.free_of "{" R = true ->
  Wire.objects (Main.list_loop i cmds "" ++ R) (Z.of_nat i)
  = imap (fun j => Wire.shown (i + j)) cmds.
Proof.
  induction cmds as [|cmd cmds IH]; intros i R Hok Hread HR.
  - cbn [Main.list_loop imap]. rewrite string_app_nil_l.
    rewrite <- (string_app_nil_r R), objects_skip by exact HR. reflexivity.
  - inversion Hok as [|? ? [He Hr] Hok']; subst.
    inversion Hread as [|? ? Hrd Hread']; subst.
    cbn [Main.list_loop]. rewrite list_loop_app, string_app_nil_l, string_app_assoc.
    rewrite list_element_elem.
    rewrite objects_skip by (destruct (0 <? i)%nat; reflexivity).
    rewrite objects_skip by reflexivity.
    assert (Hb : forall z, Wire.free_of "{" (Cxx.to_string z) = true)
      by (intros z; now apply to_string_free).
    rewrite objects_elem; auto.
    + rewrite object_at_elem by assumption.
      replace (Z.of_nat i + 1)%Z with (Z.of_nat (S i)) by lia.
      rewrite IH by assumption.
      rewrite imap_cons, Nat.add_0_r. f_equal.
      apply imap_ext. intros j x _. cbn. now rewrite Nat.add_succ_r.
    + apply escape_keeps_free; [reflexivity |].
      destruct Hrd as [Hd _]. revert Hd. apply free_of_sub.
      intros c. cbn [Cxx.mem]. intros H. rewrite orb_false_r in H.
      rewrite H. apply orb_true_r.
    + destruct (Main.Status cmd); reflexivity.
    + destruct He as [[-> | ->] _]; reflexivity.
Qed.

(** The client reads back what the server lists.  For every registry
    the server can hold whose descriptions have no quote and no opening
    brace and whose pids an [int] holds, [parseProcessList] makes of the
    body of [GET /process/list] one entry for each workload, in order,
    numbered from 0: the description as [escapeJsonString] wrote it
    (nothing is unescaped), the status text, the mode and the pid; but
    for a workload described as [mode] the mode is the status text, and
    for one described as [pid] the pid is -1. *)
Theorem client_reads_the_list (g : list Main.command) :
  reachable g -> Forall Wire.readable g ->
  Client.parseProcessList (Http.body (Main.process_list g))
  = Some (imap Wire.shown g).
Proof.
  intros Hr Hread. rewrite parseProcessList_objects. f_equal.
  destruct (reachable_well_formed g Hr) as [Hall _].
  unfold Main.process_list. cbn [Http.body Http.set_status Http.set_content].
  rewrite list_loop_app, !string_app_assoc.
  rewrite (objects_skip "["), (objects_skip Main.nl) by reflexivity.
  apply (objects_list g 0); auto.
Qed.

Lemma client_reads_the_list_witness :
  Client.parseProcessList (Http.body (Main.process_list Sample.running))
  = Some (imap Wire.shown Sample.running).
Proof.
  apply client_reads_the_list; [exact sample_running_reachable |].
  repeat constructor; vm_compute; discriminate.
Defined.

(** ** The earlier client's parser *)

Lemma parse_field_field (pre s name : string) :
  LegacyClient.parse_field (pre ++ s) (String.length pre) name
  = Wire.legacy_field name s.
Proof.
  unfold LegacyClient.parse_field, Wire.legacy_field.
  rewrite <- (Nat.add_0_r (String.length pre)) at 1. rewrite find_app.
  destruct (find_split (LegacyClient.quote ++ name ++ LegacyClient.quote) s)
    as [(-> & ->) | (v1 & s1 & -> & -> & ->)]; [reflexivity |].
  cbn [option_map].
  rewrite <- string_app_assoc, <- string_length_app.
  set (p1 := pre ++ v1).
  unfold Cxx.find_char.
  rewrite <- (Nat.add_0_r (String.length p1)) at 1. rewrite find_if_app.
  destruct (find_if_split (Ascii.eqb ":") s1)
    as [(-> & -> & _) | (v2 & c2 & s2 & -> & _ & -> & -> & _)]; [reflexivity |].
  cbn [option_map].
  rewrite <- string_app_assoc, <- string_length_app.
  set (p2 := p1 ++ v2).
  rewrite <- (Nat.add_0_r (String.length p2)) at 1. rewrite find_if_app.
  destruct (find_if_split (Ascii.eqb "034") (String c2 s2))
    as [(-> & -> & _) | (v3 & c3 & s3 & -> & _ & -> & -> & _)]; [reflexivity |].
  cbn [option_map Wire.tail].
  replace (p2 ++ v3 ++ String c3 s3) with ((p2 ++ v3 ++ String c3 "") ++ s3)
    by (rewrite !string_app_assoc; reflexivity).
  replace (String.length p2 + String.length v3 + 1)%nat
    with (String.length (p2 ++ v3 ++ String c3 "") + 0)%nat
    by (rewrite !string_length_app; simpl; lia).
  set (p3 := p2 ++ v3 ++ String c3 "").
  rewrite find_if_app.
  destruct (find_if_split (Ascii.eqb "034") s3)
    as [(-> & _ & ->) | (v4 & c4 & s4 & -> & _ & -> & _ & ->)]; [reflexivity |].
  cbn [option_map from_option id]. unfold Cxx.substr.
  replace (String.length p3 + String.length v4
           - (String.length p2 + String.length v3) - 1)%nat
    with (String.length v4)
    by (subst p3; rewrite !string_length_app; simpl; lia).
  replace (String.length p2 + String.length v3 + 1)%nat
    with (String.length p3 + 0)%nat
    by (subst p3; rewrite !string_length_app; simpl; lia).
  rewrite substring_app. apply substring_prefix.
Qed.

Lemma legacy_parse_loop_objects (s : string) :
  forall (pre : string) (fuel : nat) (acc : list LegacyClient.CmdInfo),
  (String.length s < fuel)%nat ->
  LegacyClient.parse_loop fuel (pre ++ s) (String.length pre) acc
  = Some (acc ++ Wire.legacy_objects s)%list.
Proof.
  induction s as [|c s IH]; intros pre fuel acc Hfuel.
  - destruct fuel as [|fuel]; [simpl in Hfuel; lia |].
    cbn [LegacyClient.parse_loop Wire.legacy_objects]. unfold Cxx.find_char.
    rewrite <- (Nat.add_0_r (String.length pre)), find_if_app.
    cbn [Cxx.find_if option_map]. now rewrite app_nil_r.
  - destruct fuel as [|fuel]; [simpl in Hfuel; lia |].
    assert (Hnext : pre ++ String c s = (pre ++ String c "") ++ s)
      by (rewrite string_app_assoc; reflexivity).
    assert (Hlen : String.length (pre ++ String c "") = (String.length pre + 1)%nat)
      by (rewrite string_length_app; reflexivity).
    cbn [LegacyClient.parse_loop Wire.legacy_objects]. unfold Cxx.find_char.
    rewrite <- (Nat.add_0_r (String.length pre)) at 1. rewrite find_if_app.
    cbn [Cxx.find_if].
    destruct (Ascii.eqb "{" c) eqn:Hc.
    + cbn [option_map]. rewrite Nat.add_0_r, !parse_field_field.
      rewrite Hnext, <- Hlen, IH by (simpl in Hfuel; lia).
      now rewrite <- app_assoc.
    + rewrite <- (IH (pre ++ String c "") (S fuel) acc) by (simpl in Hfuel; lia).
      cbn [LegacyClient.parse_loop]. unfold Cxx.find_char.
      rewrite <- Hnext, Hlen.
      replace (pre ++ String c s) with (pre ++ String c "" ++ s) by reflexivity.
      rewrite (find_if_app _ pre (String c "" ++ s) 1).
      rewrite string_app_cons, string_app_nil_l. cbn [Cxx.find_if].
      destruct (Cxx.find_if (Ascii.eqb "{") 0 s) as [k|]; reflexivity.
Qed.

Lemma legacy_escape_keeps_free (set s : string) :
  Cxx.mem "\" set = false -> Wire.free_of set s = true ->
  Wire.free_of set (Legacy.escape s) = true.
Proof.
  intros Hset. induction s as [|c s IH]; [reflexivity |].
  cbn [Wire.free_of Legacy.escape]. intros H.
  apply andb_true_iff in H as [Hc Hs]. rewrite free_of_app, (IH Hs), andb_true_r.
  destruct (Ascii.eqb c "034" || Ascii.eqb c "\"); cbn [Wire.free_of];
    rewrite ?Hset, Hc; reflexivity.
Qed.

Lemma legacy_field_desc (D st R : string) :
  Wire.free_of Client.quote D = true ->
  Wire.legacy_field "desc" (Wire.legacy_element D st R) = D.
Proof.
  intros HD. unfold Wire.legacy_field, Wire.legacy_element, LegacyClient.quote,
    Legacy.quote.
  norm. run. rewrite until_quote by assumption. reflexivity.
Qed.

Lemma legacy_field_status (D st R : string) :
  Wire.free_of Client.quote D = true -> Wire.free_of Client.quote st = true ->
  Wire.legacy_field "status" (Wire.legacy_element D st R) = st.
Proof.
  intros HD Hst. unfold Wire.legacy_field, Wire.legacy_element, LegacyClient.quote,
    Legacy.quote.
  norm. run.
  rewrite (starts_with_quoted "status" D) by (exact HD || reflexivity).
  destruct (String.eqb_spec "status" D) as [<- | Hne].
  - norm. run. rewrite until_quote by assumption. reflexivity.
  - rewrite (seek_skip "034" _ D) by exact HD. run.
    rewrite until_quote by assumption. reflexivity.
Qed.

Lemma legacy_objects_skip (v r : string) :
  Wire.free_of "{" v = true -> Wire.legacy_objects (v ++ r) = Wire.legacy_objects r.
Proof.
  induction v as [|c v IH]; [reflexivity |].
  rewrite string_app_cons. cbn [Wire.free_of Cxx.mem Wire.legacy_objects].
  rewrite orb_false_r, (ascii_eqb_sym "{" c).
  destruct (Ascii.eqb c "{"); [discriminate |]. exact IH.
Qed.

Lemma legacy_objects_list (cmds : list Legacy.command) :
  forall (first : bool) (R : string),
  Forall Wire.legacy_readable cmds -> Wire.free_of "{" R = true ->
  Wire.legacy_objects (Legacy.list_loop first cmds "" ++ R)
  = map Wire.legacy_shown cmds.
Proof.
  induction cmds as [|cmd cmds IH]; intros first R Hread HR.
  - cbn [Legacy.list_loop map]. rewrite string_app_nil_l.
    rewrite <- (string_app_nil_r R), legacy_objects_skip by exact HR. reflexivity.
  - inversion Hread as [|? ? Hrd Hread']; subst.
    cbn [Legacy.list_loop]. rewrite legacy_list_loop_app, string_app_nil_l,
      string_app_assoc, legacy_list_element_element.
    rewrite legacy_objects_skip by (destruct first; reflexivity).
    rewrite legacy_objects_skip by reflexivity.
    assert (HQ : Wire.free_of Client.quote (Legacy.escape (Legacy.Desc cmd)) = true).
    { apply legacy_escape_keeps_free; [reflexivity |].
      revert Hrd. apply free_of_sub. intros c. cbn [Client.quote Cxx.mem].
      intros H. rewrite orb_false_r in H. now rewrite H. }
    assert (HB : Wire.free_of "{" (Legacy.escape (Legacy.Desc cmd)) = true).
    { apply legacy_escape_keeps_free; [reflexivity |].
      revert Hrd. apply free_of_sub. intros c. cbn [Cxx.mem].
      intros H. rewrite orb_false_r in H. rewrite H. apply orb_true_r. }
    assert (Hst : Wire.free_of Client.quote (Legacy.status_text (Legacy.Status cmd)) = true
                  /\ Wire.free_of "{" (Legacy.status_text (Legacy.Status cmd)) = true)
      by (destruct (Legacy.Status cmd); split; reflexivity).
    destruct Hst as [Hst1 Hst2].
    change (Wire.legacy_objects (Wire.legacy_element ?D ?st ?X))
      with (Wire.legacy_object_at (Wire.legacy_element D st X)
              :: Wire.legacy_objects (Wire.tail (Wire.legacy_element D st X))).
    cbn [map]. f_equal.
    + unfold Wire.legacy_object_at, Wire.legacy_shown.
      now rewrite legacy_field_desc, legacy_field_status.
    + unfold Wire.legacy_element, Wire.tail.
      rewrite string_app_cons, string_app_nil_l. unfold Legacy.quote.
      repeat (rewrite legacy_objects_skip by (reflexivity || assumption)).
      now apply IH.
Qed.

(** The earlier client reads back what the earlier server lists: for
    every registry whose descriptions have no quote and no opening
    brace, [parse_cmd_list] makes of the body of [GET /process/list] one
    entry for each workload, in order, with the description as it was
    escaped and the status text. *)
Theorem legacy_client_reads_the_list (c : list Legacy.command) :
  Forall Wire.legacy_readable c ->
  LegacyClient.parse_cmd_list (Http.body (Legacy.process_list c))
  = Some (map Wire.legacy_shown c).
Proof.
  intros Hread. unfold LegacyClient.parse_cmd_list.
  etransitivity;
    [exact (legacy_parse_loop_objects _ "" _ [] (Nat.lt_succ_diag_r _)) |].
  cbn [app]. f_equal. unfold Legacy.process_list.
  cbn [Http.body Http.set_status Http.set_content].
  rewrite legacy_list_loop_app, !string_app_assoc.
  rewrite (legacy_objects_skip "["), (legacy_objects_skip Legacy.nl) by reflexivity.
  now apply legacy_objects_list.
Qed.

Lemma legacy_client_reads_the_list_witness :
  LegacyClient.parse_cmd_list (Http.body (Legacy.process_list Sample.legacy_running))
  = Some (map Wire.legacy_shown Sample.legacy_running).
Proof.
  apply legacy_client_reads_the_list. repeat constructor.
Defined.

(** ** A target without a word *)

Lemma blank_splits_to_nothing (cmdline : string) :
  Wire.squeeze cmdline = "" -> Main.splitCommand cmdline = [].
Proof.
  intros Hblank. unfold Main.splitCommand, Cxx.words.
  destruct (words_from_spec (list_ascii_of_string cmdline) [] eq_refl)
    as [Hw Hc].
  rewrite string_of_list_ascii_of_string, Hblank in Hc.
  cbn [rev string_of_list_ascii] in Hc.
  destruct (Cxx.words_from [] (list_ascii_of_string cmdline)) as [|w ws];
    [reflexivity |].
  exfalso. cbn [forallb Wire.concat] in Hw, Hc.
  apply andb_true_iff in Hw as [Hw _]. unfold Wire.is_word in Hw.
  apply andb_true_iff in Hw as [Hw _]. apply negb_true_iff in Hw.
  apply String.eqb_neq in Hw. destruct w; [congruence | discriminate].
Qed.

(** A target made of white space only passes [loadConfiguration], and
    [start] reports it started: the pid of the child is returned and
    the workload is recorded RUNNING, although the child finds no word
    to execute and exits without running anything. *)
Theorem blank_target_is_reported_started
  (os : OS.oracle) (g : list Main.command) (index : nat) (cmd : Main.command)
  (p : positive) :
  reachable g -> g !! index = Some cmd -> Main.Status cmd = Main.DEAD ->
  Wire.squeeze (Main.Path cmd) = "" ->
  OS.fork_answer os = OS.fork_child p ->
  result (Main.start os g index) = Z.pos p
  /\ Main.isRunning (after (Main.start os g index)) index = true
  /\ exists child,
       events (Main.start os g index) = [OS.ev_fork child (Z.pos p)]
       /\ Wire.runs_nothing child = true.
Proof.
  intros Hr Hi Hs Hblank Hf.
  destruct (well_formed_lookup g index cmd (reachable_well_formed g Hr) Hi)
    as [(Hmode & _ & Hpath) _].
  unfold Main.start.
  rewrite (lookup_in_range g index cmd Hi), Hi, Hs, Hpath, Hf.
  cbn [Main.STATUS_eqb andb result after events fst snd].
  split; [reflexivity |]. split.
  - unfold Main.isRunning. rewrite length_insert, (lookup_in_range g index cmd Hi).
    rewrite list_lookup_insert_eq by (now apply lookup_lt_Some in Hi).
    reflexivity.
  - eexists. split; [reflexivity |].
    unfold Main.start_child. rewrite (blank_splits_to_nothing _ Hblank).
    destruct Hmode as [-> | ->]; cbn [Ascii.eqb Bool.eqb];
      destruct (negb (Main.is_empty (Main.Folder cmd))
                && negb (String.eqb (Main.Folder cmd) ".")); reflexivity.
Qed.

Lemma blank_target_is_reported_started_witness :
  result (Main.start Sample.os_ok [Sample.idle] 0) = 4242%Z
  /\ Main.isRunning (after (Main.start Sample.os_ok [Sample.idle] 0)) 0 = true
  /\ exists child,
       events (Main.start Sample.os_ok [Sample.idle] 0) = [OS.ev_fork child 4242%Z]
       /\ Wire.runs_nothing child = true.
Proof.
  apply (blank_target_is_reported_started Sample.os_ok [Sample.idle] 0 Sample.idle 4242);
    try reflexivity.
  apply (reach_boot Sample.room (Some Sample.blank_config)). reflexivity.
Defined.

(** ** [ReadCmds] of the earlier revision *)



(** ** The lines typed at the client *)

Lemma trim_unfold (input : string) :
  Client.trim input = Wire.trim_right (Wire.trim_left input).
Proof. reflexivity. Qed.

Lemma substring_all (s : string) : String.substring 0 (String.length s) s = s.
Proof. induction s as [|c s IH]; [reflexivity |]. simpl. now rewrite IH. Qed.

Lemma trim_left_spec (s : string) :
  exists a, s = a ++ Wire.trim_left s /\ Wire.only Client.blanks a = true
    /\ Wire.first_in Client.blanks (Wire.trim_left s) = false.
Proof.
  unfold Wire.trim_left, Cxx.find_first_not_of, Cxx.substr.
  induction s as [|c s (a & Hs & Ha & Hf)]; [exists ""; auto |].
  cbn [Cxx.find_if].
  destruct (Cxx.mem c Client.blanks) eqn:Hc; cbn [negb].
  - destruct (Cxx.find_if (fun c => negb (Cxx.mem c Client.blanks)) 0 s) as [k|].
    + exists (String c a). cbn [Cxx.shift String.length Nat.sub String.substring].
      rewrite string_app_cons, <- Hs. cbn [Wire.only]. rewrite Hc, Ha. auto.
    + exists (String c a). cbn [Cxx.shift].
      rewrite string_app_cons, <- Hs. cbn [Wire.only]. rewrite Hc, Ha. auto.
  - exists "". rewrite Nat.sub_0_r, substring_all. cbn [Wire.first_in]. auto.
Qed.

Lemma find_last_none (set s : string) :
  Cxx.find_last_not_of set s = None -> Wire.only set s = true.
Proof.
  induction s as [|c s IH]; [reflexivity |]. cbn [Cxx.find_last_not_of Wire.only].
  destruct (Cxx.find_last_not_of set s); [discriminate |].
  destruct (Cxx.mem c set); [| discriminate]. intros _. now apply IH.
Qed.

Lemma substring_0_0 (s : string) : String.substring 0 0 s = "".
Proof. destruct s; reflexivity. Qed.

Lemma trim_right_spec (s : string) :
  exists b, s = Wire.trim_right s ++ b /\ Wire.only Client.blanks b = true
    /\ Wire.last_in Client.blanks (Wire.trim_right s) = false
    /\ (Wire.first_in Client.blanks s = false ->
        Wire.first_in Client.blanks (Wire.trim_right s) = false)
    /\ (Wire.trim_right s = "" -> Wire.only Client.blanks s = true).
Proof.
  unfold Wire.trim_right, Cxx.substr.
  induction s as [|c s (b & Hs & Hb & Hl & _ & He)];
    [exists ""; repeat split; auto |].
  cbn [Cxx.find_last_not_of].
  destruct (Cxx.find_last_not_of Client.blanks s) as [k|] eqn:Hk.
  - exists b. rewrite Nat.add_1_r in *. cbn [String.substring].
    rewrite string_app_cons, <- Hs.
    refine (conj eq_refl (conj Hb (conj _ (conj (fun H => H) _)))).
    + destruct s as [|x s']; [discriminate |].
      cbn [String.substring] in Hl |- *. exact Hl.
    + discriminate.
  - pose proof (find_last_none _ _ Hk) as Hall.
    destruct (Cxx.mem c Client.blanks) eqn:Hc.
    + exists (String c s). cbn [Wire.only Wire.first_in]. rewrite Hc, Hall. auto.
    + exists s. cbn [String.substring Nat.add]. rewrite substring_0_0.
      cbn [Wire.last_in Wire.first_in]. rewrite Hc. repeat split; auto. discriminate.
Qed.

Lemma only_app (set a b : string) :
  Wire.only set (a ++ b) = Wire.only set a && Wire.only set b.
Proof.
  induction a as [|c a IH]; [reflexivity |].
  rewrite string_app_cons. cbn [Wire.only]. rewrite IH. apply andb_assoc.
Qed.

(** The interactive client trims a line of its leading and trailing
    blanks and tabs and of nothing else: what is left neither begins nor
    ends with a blank or a tab.  The client prompts again without doing
    anything exactly when the line holds blanks and tabs only. *)
Theorem trim_removes_surrounding_blanks (input : string) :
  (exists a b,
     input = a ++ Client.trim input ++ b
     /\ Wire.only Client.blanks a = true /\ Wire.only Client.blanks b = true)
  /\ Wire.first_in Client.blanks (Client.trim input) = false
  /\ Wire.last_in Client.blanks (Client.trim input) = false
  /\ (Client.interpret input = Client.act_prompt
      <-> Wire.only Client.blanks input = true).
Proof.
  rewrite trim_unfold.
  destruct (trim_left_spec input) as (a & Ha & Hab & Hf).
  destruct (trim_right_spec (Wire.trim_left input)) as (b & Hb & Hbb & Hl & Hf' & He).
  split; [exists a, b; rewrite <- Hb; auto |].
  split; [auto |]. split; [exact Hl |].
  assert (Hempty : Wire.trim_right (Wire.trim_left input) = ""
                   <-> Wire.only Client.blanks input = true).
  { split.
    - intros E. rewrite Ha, only_app, Hab. now apply He.
    - intros Hall. rewrite Ha, only_app, Hab in Hall. cbn [andb] in Hall.
      rewrite Hb, only_app in Hall. apply andb_true_iff in Hall as [Hall _].
      destruct (Wire.trim_right (Wire.trim_left input)) as [|c r]; [reflexivity |].
      cbn [Wire.first_in] in Hf'. cbn [Wire.only] in Hall.
      rewrite Hf' in Hall by exact Hf. discriminate. }
  rewrite <- Hempty. unfold Client.interpret. rewrite trim_unfold.
  destruct (String.eqb_spec (Wire.trim_right (Wire.trim_left input)) "") as [E | Hne];
    [tauto |].
  split; [| intros E; contradiction].
  destruct (IStream.read_word _) as [word iss].
  unfold Client.with_id.
  repeat match goal with
  | |- context [if ?b then _ else _] => destruct b
  | |- context [match Client.read_id ?i with _ => _ end] =>
      destruct (Client.read_id i)
  end; discriminate.
Qed.

(** ** The table of the client *)

Lemma fill_length (n : nat) (c : ascii) : String.length (Client.fill n c) = n.
Proof. induction n as [|n IH]; [reflexivity |]. simpl. now rewrite IH. Qed.

Lemma pad_length (width : nat) (s : string) :
  String.length (Client.pad width s) = Nat.max width (String.length s).
Proof. unfold Client.pad. rewrite string_length_app, fill_length. lia. Qed.

Lemma widen_le (w : Client.widths) (proc : Client.ProcessInfo) :
  Wire.le_widths w (Client.widen w proc) /\ Wire.fits (Client.widen w proc) proc.
Proof.
  unfold Wire.le_widths, Wire.fits, Client.widen. cbn.
  destruct (Z.ltb_spec 0 (Client.pid proc)); repeat split; lia.
Qed.

Lemma fits_le (a b : Client.widths) (proc : Client.ProcessInfo) :
  Wire.le_widths a b -> Wire.fits a proc -> Wire.fits b proc.
Proof.
  unfold Wire.le_widths, Wire.fits. intros (?&?&?&?&?) (?&?&?&?&Hp).
  refine (conj _ (conj _ (conj _ (conj _ _)))); lia.
Qed.

Lemma fold_widen (processes : list Client.ProcessInfo) : forall w,
  Wire.le_widths w (fold_left Client.widen processes w)
  /\ Forall (Wire.fits (fold_left Client.widen processes w)) processes.
Proof.
  induction processes as [|proc rest IH]; intros w.
  - cbn [fold_left]. split; [unfold Wire.le_widths; lia | constructor].
  - cbn [fold_left]. destruct (IH (Client.widen w proc)) as [Hle Hall].
    destruct (widen_le w proc) as [Hw Hf]. split.
    + unfold Wire.le_widths in *. lia.
    + constructor; [| exact Hall]. exact (fits_le _ _ _ Hle Hf).
Qed.

Lemma row_length (w : Client.widths) (proc : Client.ProcessInfo) :
  (3 <= Client.maxPidWidth w)%nat -> Wire.fits w proc ->
  String.length (Client.row w proc) = (String.length (Client.ruler w) + 9)%nat.
Proof.
  intros Hpid (Hi & Hd & Hs & Hm & Hp).
  unfold Client.row, Client.ruler. cbv zeta.
  rewrite !string_length_app, !pad_length, fill_length.
  assert (Hst : (String.length
            (if String.eqb (Client.status proc) "RUNNING"
             then Client.esc ++ "[32m" ++ Client.status proc ++ Client.esc ++ "[0m"
             else if String.eqb (Client.status proc) "DEAD"
             then Client.esc ++ "[31m" ++ Client.status proc ++ Client.esc ++ "[0m"
             else Client.status proc) <= Client.maxStatusWidth w + 9)%nat).
  { destruct (String.eqb (Client.status proc) "RUNNING");
      [| destruct (String.eqb (Client.status proc) "DEAD")];
      rewrite ?string_length_app; simpl; lia. }
  assert (Hps : (String.length
            (if (0 <? Client.pid proc)%Z then Cxx.to_string (Client.pid proc)
             else "-") <= Client.maxPidWidth w)%nat).
  { destruct (Z.ltb_spec 0 (Client.pid proc)); [auto | simpl; lia]. }
  simpl String.length. lia.
Qed.

(** The table [displayProcessList] writes for a list that is not empty
    is three lines, the rows, and a closing line.  The header is as long
    as the ruler, and every row, whatever its fields hold, is exactly 9
    characters longer: the room left for the colour codes put around a
    status RUNNING or DEAD. *)
Theorem table_is_aligned (processes : list Client.ProcessInfo) :
  processes <> [] ->
  exists (w : Client.widths),
    Client.displayProcessList processes
    = ([Client.ruler w; Client.header w; Client.ruler w] ++ map (Client.row w) processes
       ++ [Client.ruler w])%list
    /\ String.length (Client.header w) = String.length (Client.ruler w)
    /\ Forall (fun proc =>
         String.length (Client.row w proc) = (String.length (Client.ruler w) + 9)%nat)
         processes.
Proof.
  intros Hne. exists (Client.column_widths processes).
  destruct (fold_widen processes (Client.mk_widths 2 11 6 4 3)) as [Hle Hall].
  fold (Client.column_widths processes) in Hle, Hall.
  unfold Wire.le_widths in Hle. cbn in Hle.
  split; [destruct processes; [congruence | reflexivity] |]. split.
  - unfold Client.header, Client.ruler.
    rewrite !string_length_app, !pad_length, fill_length. simpl String.length. lia.
  - rewrite Forall_forall in Hall |- *. intros proc Hin.
    apply row_length; [lia | now apply Hall].
Qed.

Lemma table_is_aligned_witness :
  exists (w : Client.widths),
    Client.displayProcessList (imap Wire.shown Sample.running)
    = ([Client.ruler w; Client.header w; Client.ruler w]
       ++ map (Client.row w) (imap Wire.shown Sample.running)
       ++ [Client.ruler w])%list
    /\ String.length (Client.header w) = String.length (Client.ruler w)
    /\ Forall (fun proc =>
         String.length (Client.row w proc)
         = (String.length (Client.ruler w) + 9)%nat)
         (imap Wire.shown Sample.running).
Proof.
  apply (table_is_aligned (imap Wire.shown Sample.running)). discriminate.
Defined.

(** ** The command line of the client *)




